(** * Library management exercise: a shallow embedding of [project.py]

    The development follows the source file top to bottom: the helper
    functions ([generate_id], [search_items]), the [Book] and [Borrower]
    classes, and the [Library] aggregate with its JSON persistence.

    Modelling conventions.
    - Python [str] is [string]; the text handled here is ASCII, so
      [str.lower] and [int] are modelled on ASCII characters.
    - A Python [dict] is an insertion-ordered association list whose keys are
      pairwise distinct.
    - Values that travel through [json.dump] / [json.load] are [json] trees.
      A storage file is modelled by its decoded content: [None] when the file
      does not exist, [Some doc] when it holds the JSON object [doc].
    - Methods that mutate [self] are functions in a state-and-exception
      monad over the [Library] record: an exception leaves the state as it
      was at the point where it was raised. *)

From Stdlib Require Import List String Ascii ZArith NArith Lia Bool Arith.
From Stdlib Require Import Permutation Sorted.
Import ListNotations.
Local Open Scope string_scope.

(* ================================================================== *)
(** ** Exceptions and results *)

Inductive exn : Type :=
| ValueError
| KeyError
| AttributeError
| TypeError_multiple_values (* TypeError: got multiple values for argument *)
| IllTyped. (* a value outside the annotated type of a parameter *)

Inductive result (A : Type) : Type :=
| Return (a : A)
| Raise (e : exn).
Arguments Return {A} a.
Arguments Raise {A} e.

Definition rbind {A B} (r : result A) (k : A -> result B) : result B :=
  match r with
  | Return a => k a
  | Raise e => Raise e
  end.

Definition rmap {A B} (f : A -> B) (r : result A) : result B :=
  rbind r (fun a => Return (f a)).

Declare Scope result_scope.
Delimit Scope result_scope with result.
Notation "x <- r ;; k" := (rbind r (fun x => k))
  (at level 61, r at next level, right associativity) : result_scope.

(* ================================================================== *)
(** ** Python built-ins used by the source *)

Module Py.

Definition code (c : ascii) : N := N_of_ascii c.

(** ASCII characters for which [str.isspace] holds. *)
Definition is_space (c : ascii) : bool :=
  ((9 <=? code c) && (code c <=? 13) ||
   (28 <=? code c) && (code c <=? 32))%N.

Definition is_digit (c : ascii) : bool :=
  ((48 <=? code c) && (code c <=? 57))%N.

Definition digit_val (c : ascii) : Z := Z.of_N (code c) - 48.

Fixpoint lstrip (s : string) : string :=
  match s with
  | String c s' => if is_space c then lstrip s' else s
  | EmptyString => EmptyString
  end.

Fixpoint rstrip (s : string) : string :=
  match s with
  | EmptyString => EmptyString
  | String c s' =>
      match rstrip s' with
      | EmptyString => if is_space c then EmptyString else String c EmptyString
      | r => String c r
      end
  end.

Definition strip (s : string) : string := rstrip (lstrip s).

(** The characters [int] skips at both ends of its argument: tab to
    carriage return, and the space. *)
Definition is_int_space (c : ascii) : bool :=
  ((9 <=? code c) && (code c <=? 13) || (code c =? 32))%N.

Fixpoint int_lstrip (s : string) : string :=
  match s with
  | String c s' => if is_int_space c then int_lstrip s' else s
  | EmptyString => EmptyString
  end.

Fixpoint int_rstrip (s : string) : string :=
  match s with
  | EmptyString => EmptyString
  | String c s' =>
      match int_rstrip s' with
      | EmptyString => if is_int_space c then EmptyString else String c EmptyString
      | r => String c r
      end
  end.

(** Decimal digits, single underscores allowed between two digits. *)
Fixpoint parse_digits (acc : Z) (after_digit : bool) (s : string) : option Z :=
  match s with
  | EmptyString => if after_digit then Some acc else None
  | String c s' =>
      if is_digit c then parse_digits (10 * acc + digit_val c) true s'
      else if Ascii.eqb c "_" && after_digit then parse_digits acc false s'
      else None
  end.

(** [int(s)] for a [str] argument in base ten. *)
Definition int (s : string) : result Z :=
  let parsed :=
    match int_rstrip (int_lstrip s) with
    | String "+" r => parse_digits 0 false r
    | String "-" r => option_map Z.opp (parse_digits 0 false r)
    | t => parse_digits 0 false t
    end in
  match parsed with
  | Some n => Return n
  | None => Raise ValueError
  end.

Definition digit_char (d : Z) : ascii := ascii_of_N (48 + Z.to_N d).

Fixpoint decimal_digits (fuel : nat) (n : Z) (acc : string) : string :=
  match fuel with
  | O => acc
  | S fuel' =>
      let acc' := String (digit_char (n mod 10)) acc in
      if n <? 10 then acc' else decimal_digits fuel' (n / 10) acc'
  end%Z.

(** [str(n)] for a non-negative [n]. *)
Definition decimal (n : Z) : string :=
  decimal_digits (S (Z.to_nat (Z.log2 n))) n EmptyString.

Fixpoint zeros (k : nat) : string :=
  match k with
  | O => EmptyString
  | S k' => String "0" (zeros k')
  end.

Definition zfill (width : nat) (s : string) : string :=
  zeros (width - String.length s) ++ s.

(** The format specification [:04d]: sign first, then zero padding up to
    a total width of four. *)
Definition format_04d (n : Z) : string :=
  if (n <? 0)%Z then String "-" (zfill 3 (decimal (- n)))
  else zfill 4 (decimal n).

Definition lower_char (c : ascii) : ascii :=
  if ((65 <=? code c) && (code c <=? 90))%N then ascii_of_N (code c + 32) else c.

(** [str.lower] *)
Fixpoint lower (s : string) : string :=
  match s with
  | EmptyString => EmptyString
  | String c s' => String (lower_char c) (lower s')
  end.

Fixpoint drop (n : nat) (s : string) : string :=
  match n, s with
  | O, _ => s
  | S n', String _ s' => drop n' s'
  | S _, EmptyString => EmptyString
  end.

(** The slice [s[-4:]]. *)
Definition last4 (s : string) : string := drop (String.length s - 4) s.

Fixpoint insert (x : string) (l : list string) : list string :=
  match l with
  | [] => [x]
  | y :: l' => if String.leb x y then x :: l else y :: insert x l'
  end.

(** [list.sort] on a list of [str]: ascending code-point order. *)
Definition sort (l : list string) : list string := fold_right insert [] l.

(** The format specification [:02d]. *)
Definition format_02d (n : Z) : string :=
  if (n <? 0)%Z then String "-" (zfill 1 (decimal (- n)))
  else zfill 2 (decimal n).

Definition LF : ascii := "010"%char.
Definition CR : ascii := "013"%char.

(** What a file opened for reading in text mode hands over: each of
    [CR LF] and a lone [CR] becomes [LF]. *)
Fixpoint universal_newlines (s : string) : string :=
  match s with
  | EmptyString => EmptyString
  | String c s' =>
      if Ascii.eqb c CR then
        match s' with
        | String c' r => if Ascii.eqb c' LF then String LF (universal_newlines r)
                         else String LF (universal_newlines s')
        | EmptyString => String LF EmptyString
        end
      else String c (universal_newlines s')
  end.

(** [f.readlines()] on translated text; [line] is the line read so far.
    Every line keeps its [LF]; text after the last [LF] is a line too. *)
Fixpoint readlines_loop (s : string) (line : string) : list string :=
  match s with
  | EmptyString => match line with EmptyString => [] | _ => [line] end
  | String c s' =>
      if Ascii.eqb c LF then (line ++ String LF EmptyString) :: readlines_loop s' EmptyString
      else readlines_loop s' (line ++ String c EmptyString)
  end.

Definition readlines (s : string) : list string := readlines_loop s EmptyString.

(** [str.split()] without arguments; [word] is the word read so far. *)
Fixpoint split_loop (s : string) (word : option string) : list string :=
  match s with
  | EmptyString => match word with Some w => [w] | None => [] end
  | String c s' =>
      if is_space c then
        match word with
        | Some w => w :: split_loop s' None
        | None => split_loop s' None
        end
      else
        split_loop s' (Some (match word with
                             | Some w => w ++ String c EmptyString
                             | None => String c EmptyString
                             end))
  end.

Definition split (s : string) : list string := split_loop s None.

End Py.

(* ================================================================== *)
(** ** Dictionaries and JSON values *)

Definition dict (V : Type) : Type := list (string * V).

Section Dict.
Context {V : Type}.

Fixpoint dict_get (k : string) (d : dict V) : option V :=
  match d with
  | [] => None
  | (k', v) :: d' => if String.eqb k k' then Some v else dict_get k d'
  end.

Definition dict_mem (k : string) (d : dict V) : bool :=
  match dict_get k d with Some _ => true | None => false end.

(** [d[k] = v]: an existing key keeps its position, a new key goes last. *)
Fixpoint dict_set (k : string) (v : V) (d : dict V) : dict V :=
  match d with
  | [] => [(k, v)]
  | (k', v') :: d' =>
      if String.eqb k k' then (k, v) :: d' else (k', v') :: dict_set k v d'
  end.

Definition dict_keys (d : dict V) : list string := map fst d.
Definition dict_values (d : dict V) : list V := map snd d.
End Dict.

#[warnings="-register-all"]
Inductive json : Type :=
| JNull
| JBool (b : bool)
| JInt (z : Z)
| JStr (s : string)
| JList (l : list json)
| JDict (d : list (string * json)).

(** Python's [x[key]] on a dict. *)
Definition subscript {V} (d : dict V) (k : string) : result V :=
  match dict_get k d with
  | Some v => Return v
  | None => Raise KeyError
  end.

(* ================================================================== *)
(** ** Part 1: helper functions *)

(** [generate_id] sorts the list it is given in place, so the model returns
    the list as the caller sees it afterwards next to the result. *)
Definition generate_id (prefix : string) (existing_ids : list string)
  : result string * list string :=
  let existing_ids := Py.sort existing_ids in
  let new_id :=
    match existing_ids with
    | [] => Return 1%Z
    | _ :: _ => rmap (fun n => (n + 1)%Z) (Py.int (Py.last4 (last existing_ids EmptyString)))
    end in
  (rmap (fun n => prefix ++ "_" ++ Py.format_04d n) new_id, existing_ids).

Definition str_lower (x : json) : result string :=
  match x with
  | JStr s => Return (Py.lower s)
  | _ => Raise AttributeError
  end.

(** The test [key not in item or item[key].lower() != value.lower()]. *)
Definition criterion_fails (item : dict json) (kv : string * json) : result bool :=
  let (key, value) := kv in
  match dict_get key item with
  | None => Return true
  | Some x =>
      (a <- str_lower x ;;
       b <- str_lower value ;;
       Return (negb (String.eqb a b)))%result
  end.

(** The inner loop: it visits every criterion, whatever [match] has become. *)
Fixpoint item_matches (item : dict json) (criteria : dict json) (match_ : bool)
  : result bool :=
  match criteria with
  | [] => Return match_
  | kv :: rest =>
      (failed <- criterion_fails item kv ;;
       item_matches item rest (if failed then false else match_))%result
  end.

(** The outer loop, once all items before [items] are done with [result_list]
    collected so far. *)
Fixpoint search_loop (items : list (dict json)) (criteria : dict json)
  (result_list : list (dict json)) : result (list (dict json)) :=
  match items with
  | [] => Return result_list
  | item :: rest =>
      (m <- item_matches item criteria true ;;
       search_loop rest criteria (if m then (result_list ++ [item])%list else result_list))%result
  end.

Definition search_items (items : list (dict json)) (criteria : dict json)
  : result (list (dict json)) :=
  search_loop items criteria [].

(* ================================================================== *)
(** ** Part 2: the [Book] class *)

Definition as_str (x : json) : result string :=
  match x with JStr s => Return s | _ => Raise IllTyped end.

Definition as_bool (x : json) : result bool :=
  match x with JBool b => Return b | _ => Raise IllTyped end.

Module Book.

Record t : Type := mk
  { book_id : string;
    title : string;
    author : string;
    genre : string;
    available : bool }.

Definition GENRES : list string :=
  ["Fiction"; "Non-Fiction"; "Science"; "History"; "Technology"].

Definition valid_genre (g : string) : bool := existsb (String.eqb g) GENRES.

(** [Book.__init__] *)
Definition init (book_id title author genre : string) (available : bool)
  : result t :=
  if valid_genre genre then Return (mk book_id title author genre available)
  else Raise ValueError.

Definition to_dict (self : t) : dict json :=
  [("book_id", JStr (book_id self));
   ("title", JStr (title self));
   ("author", JStr (author self));
   ("genre", JStr (genre self));
   ("available", JBool (available self))].

(** [Book.__init__] on decoded values: the genre test comes first and
    fails on anything that is not one of the five strings. *)
Definition init_decoded (book_id title author genre available : json)
  : result t :=
  match genre with
  | JStr g =>
      if valid_genre g then
        (i <- as_str book_id ;;
         t <- as_str title ;;
         a <- as_str author ;;
         v <- as_bool available ;;
         Return (mk i t a g v))%result
      else Raise ValueError
  | _ => Raise ValueError
  end.

Definition from_dict (data : dict json) : result t :=
  (i <- subscript data "book_id" ;;
   t <- subscript data "title" ;;
   a <- subscript data "author" ;;
   g <- subscript data "genre" ;;
   v <- subscript data "available" ;;
   init_decoded i t a g v)%result.

Definition set_available (v : bool) (self : t) : t :=
  mk (book_id self) (title self) (author self) (genre self) v.

End Book.

(* ================================================================== *)
(** ** Part 3: the [Borrower] class *)

Fixpoint remove_first (x : string) (l : list string) : list string :=
  match l with
  | [] => []
  | y :: l' => if String.eqb x y then l' else y :: remove_first x l'
  end.

Definition contains (x : string) (l : list string) : bool :=
  existsb (String.eqb x) l.

Fixpoint as_str_list (l : list json) : result (list string) :=
  match l with
  | [] => Return []
  | x :: l' => (s <- as_str x ;; r <- as_str_list l' ;; Return (s :: r))%result
  end.

Module Borrower.

Record t : Type := mk
  { borrower_id : string;
    name : string;
    email : string;
    borrowed_books : list string }.

Definition MAX_BOOKS : nat := 3.

(** [Borrower.__init__]: [borrowed_books or []]. *)
Definition init (borrower_id name email : string)
  (borrowed_books : option (list string)) : t :=
  mk borrower_id name email
     (match borrowed_books with
      | Some (x :: l) => x :: l
      | Some [] | None => []
      end).

Definition can_borrow (self : t) : bool :=
  Nat.ltb (List.length (borrowed_books self)) MAX_BOOKS.

Definition set_borrowed_books (l : list string) (self : t) : t :=
  mk (borrower_id self) (name self) (email self) l.

Definition borrow_book (book_id : string) (self : t) : bool * t :=
  if can_borrow self
  then (true, set_borrowed_books (borrowed_books self ++ [book_id])%list self)
  else (false, self).

Definition return_book (book_id : string) (self : t) : bool * t :=
  if contains book_id (borrowed_books self)
  then (true, set_borrowed_books (remove_first book_id (borrowed_books self)) self)
  else (false, self).

Definition to_dict (self : t) : dict json :=
  [("borrower_id", JStr (borrower_id self));
   ("name", JStr (name self));
   ("email", JStr (email self));
   ("borrowed_books", JList (map JStr (borrowed_books self)))].

Definition from_dict (data : dict json) : result t :=
  (i <- subscript data "borrower_id" ;;
   n <- subscript data "name" ;;
   e <- subscript data "email" ;;
   b <- subscript data "borrowed_books" ;;
   i <- as_str i ;;
   n <- as_str n ;;
   e <- as_str e ;;
   b <- match b with
        | JNull => Return None
        | JList l => rmap Some (as_str_list l)
        | _ => Raise IllTyped
        end ;;
   Return (init i n e b))%result.

End Borrower.

(* ================================================================== *)
(** ** Part 4: the [Library] class *)

(** What a collection of the library can hold: an instance of the entity
    class, or a decoded JSON value exactly as [json.load] produced it. *)
Inductive stored (T : Type) : Type :=
| Obj (o : T)
| Raw (j : json).
Arguments Obj {T} o.
Arguments Raw {T} j.

(** Attribute or method access on a stored value: a decoded JSON value has
    none of the attributes of the entity classes. *)
Definition instance {T} (e : stored T) : result T :=
  match e with
  | Obj o => Return o
  | Raw _ => Raise AttributeError
  end.

Definition raw_collection {T} (doc : dict json) : dict (stored T) :=
  map (fun kv => (fst kv, Raw (snd kv))) doc.

(** [{key: x.to_dict() for key, x in collection.items()}] *)
Fixpoint to_dicts {T} (to_dict : T -> dict json) (d : dict (stored T))
  : result (dict json) :=
  match d with
  | [] => Return []
  | (k, e) :: d' =>
      (o <- instance e ;;
       r <- to_dicts to_dict d' ;;
       Return ((k, JDict (to_dict o)) :: r))%result
  end.

(** [[x.to_dict() for x in collection.values()]] *)
Fixpoint values_to_dicts {T} (to_dict : T -> dict json) (l : list (stored T))
  : result (list (dict json)) :=
  match l with
  | [] => Return []
  | e :: l' =>
      (o <- instance e ;;
       r <- values_to_dicts to_dict l' ;;
       Return (to_dict o :: r))%result
  end.

Module Library.

Record t : Type := mk
  { name : string;
    books : dict (stored Book.t);
    borrowers : dict (stored Borrower.t);
    books_file : option (dict json);        (* content of library_books.json *)
    borrowers_file : option (dict json) }.  (* content of library_borrowers.json *)

Definition set_books f (self : t) : t :=
  mk (name self) (f (books self)) (borrowers self)
     (books_file self) (borrowers_file self).
Definition set_borrowers f (self : t) : t :=
  mk (name self) (books self) (f (borrowers self))
     (books_file self) (borrowers_file self).
Definition write_books_file (doc : dict json) (self : t) : t :=
  mk (name self) (books self) (borrowers self)
     (Some doc) (borrowers_file self).
Definition write_borrowers_file (doc : dict json) (self : t) : t :=
  mk (name self) (books self) (borrowers self)
     (books_file self) (Some doc).

(** A method body: it reads and updates [self] and returns or raises. *)
Definition M (A : Type) : Type := t -> result A * t.

Definition ret {A} (a : A) : M A := fun self => (Return a, self).
Definition bind {A B} (m : M A) (k : A -> M B) : M B :=
  fun self =>
    match m self with
    | (Return a, self') => k a self'
    | (Raise e, self') => (Raise e, self')
    end.
Definition eval {A} (f : t -> result A) : M A := fun self => (f self, self).
Definition gets {A} (f : t -> A) : M A := fun self => (Return (f self), self).
Definition modify (f : t -> t) : M unit := fun self => (Return tt, f self).

Declare Scope method_scope.
Delimit Scope method_scope with method.
Notation "x <- m ;; k" := (bind m (fun x => k))
  (at level 61, m at next level, right associativity) : method_scope.
Notation "m ;; k" := (bind m (fun _ => k))
  (at level 61, right associativity) : method_scope.
Local Open Scope method_scope.

Definition load : M unit :=
  modify (fun self =>
            match books_file self with
            | Some doc => set_books (fun _ => raw_collection doc) self
            | None => self
            end) ;;
  modify (fun self =>
            match borrowers_file self with
            | Some doc => set_borrowers (fun _ => raw_collection doc) self
            | None => self
            end).

(** [Library.__init__], given the content of the two files in [data_dir]. *)
Definition init (name : string) (books_file borrowers_file : option (dict json)) : t :=
  snd (load (mk name [] [] books_file borrowers_file)).

Definition save : M unit :=
  books <- eval (fun self => to_dicts Book.to_dict (books self)) ;;
  modify (write_books_file books) ;;
  borrowers <- eval (fun self => to_dicts Borrower.to_dict (borrowers self)) ;;
  modify (write_borrowers_file borrowers).

Definition add_book (title author genre : string) : M Book.t :=
  keys <- gets (fun self => dict_keys (books self)) ;;
  new_id <- eval (fun _ => fst (generate_id "BOOK" keys)) ;;
  new_book <- eval (fun _ => Book.init new_id title author genre true) ;;
  modify (set_books (dict_set (Book.book_id new_book) (Obj new_book))) ;;
  save ;;
  ret new_book.

Definition add_borrower (name email : string) : M Borrower.t :=
  keys <- gets (fun self => dict_keys (borrowers self)) ;;
  new_id <- eval (fun _ => fst (generate_id "USER" keys)) ;;
  let new_borrower := Borrower.init new_id name email None in
  modify (set_borrowers
            (dict_set (Borrower.borrower_id new_borrower) (Obj new_borrower))) ;;
  save ;;
  ret new_borrower.

(** [self.books[book_id]] as a [Book], [self.borrowers[borrower_id]] as a
    [Borrower]. *)
Definition the_book (book_id : string) : M Book.t :=
  eval (fun self => (e <- subscript (books self) book_id ;; instance e)%result).
Definition the_borrower (borrower_id : string) : M Borrower.t :=
  eval (fun self => (e <- subscript (borrowers self) borrower_id ;; instance e)%result).

Definition checkout_book (book_id borrower_id : string) : M bool :=
  known <- gets (fun self => dict_mem book_id (books self)) ;;
  if negb known then ret false else
  book <- the_book book_id ;;
  if negb (Book.available book) then ret false else
  known <- gets (fun self => dict_mem borrower_id (borrowers self)) ;;
  if negb known then ret false else
  borrower <- the_borrower borrower_id ;;
  if negb (Borrower.can_borrow borrower) then ret false else
  borrower <- the_borrower borrower_id ;;
  modify (set_borrowers
            (dict_set borrower_id
               (Obj (snd (Borrower.borrow_book book_id borrower))))) ;;
  book <- the_book book_id ;;
  modify (set_books (dict_set book_id (Obj (Book.set_available false book)))) ;;
  save ;;
  ret true.

Definition return_book (book_id borrower_id : string) : M bool :=
  known <- gets (fun self => dict_mem book_id (books self)
                             && dict_mem borrower_id (borrowers self)) ;;
  if negb known then ret false else
  borrower <- the_borrower borrower_id ;;
  if negb (contains book_id (Borrower.borrowed_books borrower)) then ret false else
  borrower <- the_borrower borrower_id ;;
  modify (set_borrowers
            (dict_set borrower_id
               (Obj (snd (Borrower.return_book book_id borrower))))) ;;
  book <- the_book book_id ;;
  modify (set_books (dict_set book_id (Obj (Book.set_available true book)))) ;;
  save ;;
  ret true.

(** [search_items(booklist, **criteria)]: the criteria travel as keyword
    arguments next to the positional [items], so a criterion named [items]
    gives that parameter a second value and the call raises [TypeError]
    before the body of [search_items] runs. *)
Definition search_books (criteria : dict json) : M (list (dict json)) :=
  booklist <- eval (fun self =>
                      values_to_dicts Book.to_dict (dict_values (books self))) ;;
  eval (fun _ => if dict_mem "items" criteria
                 then Raise TypeError_multiple_values
                 else search_items booklist criteria).

Fixpoint available_loop (values : list (stored Book.t)) (available_books : list Book.t)
  : result (list Book.t) :=
  match values with
  | [] => Return available_books
  | e :: rest =>
      (book <- instance e ;;
       available_loop rest
         (if Book.available book then (available_books ++ [book])%list
          else available_books))%result
  end.

Definition get_available_books : M (list Book.t) :=
  eval (fun self => available_loop (dict_values (books self)) []).

Definition get_borrower_books (borrower_id : string) : M (list string) :=
  borrower <- the_borrower borrower_id ;;
  ret (Borrower.borrowed_books borrower).

(** The mutating calls a client can make, and running a sequence of them;
    a call that raises leaves the state it had reached. *)
Inductive call : Type :=
| AddBook (title author genre : string)
| AddBorrower (name email : string)
| CheckoutBook (book_id borrower_id : string)
| ReturnBook (book_id borrower_id : string).

Definition exec {A} (m : M A) (self : t) : t := snd (m self).

Definition step (self : t) (c : call) : t :=
  match c with
  | AddBook title author genre => exec (add_book title author genre) self
  | AddBorrower name email => exec (add_borrower name email) self
  | CheckoutBook book_id borrower_id => exec (checkout_book book_id borrower_id) self
  | ReturnBook book_id borrower_id => exec (return_book book_id borrower_id) self
  end.

Definition run (calls : list call) (self : t) : t := fold_left step calls self.

(** The loop of [get_statistics] that counts the books of each genre. *)
Fixpoint genre_loop (values : list (stored Book.t)) (genre_counts : dict Z)
  : result (dict Z) :=
  match values with
  | [] => Return genre_counts
  | e :: rest =>
      (book <- instance e ;;
       genre_loop rest
         (dict_set (Book.genre book)
            (match dict_get (Book.genre book) genre_counts with
             | Some n => n
             | None => 0
             end + 1)%Z
            genre_counts))%result
  end.

(** The dictionary [get_statistics] returns, one field per key. *)
Record statistics : Type := mk_statistics
  { total_books : Z;
    available_books : Z;
    checked_out : Z;
    total_borrowers : Z;
    books_by_genre : dict Z }.

Definition get_statistics : M statistics :=
  total <- gets (fun self => Z.of_nat (List.length (books self))) ;;
  available_list <- get_available_books ;;
  let available := Z.of_nat (List.length available_list) in
  genre_counts <- eval (fun self => genre_loop (dict_values (books self)) []) ;;
  borrowers_total <- gets (fun self => Z.of_nat (List.length (borrowers self))) ;;
  ret (mk_statistics total available (total - available)%Z borrowers_total
                     genre_counts).

End Library.

(* ================================================================== *)
(** ** Predicates used in the statements *)

Definition is_obj {T} (e : stored T) : bool :=
  match e with Obj _ => true | Raw _ => false end.

Definition all_objects {T} (d : dict (stored T)) : bool :=
  forallb (fun kv => is_obj (snd kv)) d.

(** Both collections hold instances of their class, as the class docstring
    of [Library] describes them. *)
Definition typed (self : Library.t) : Prop :=
  all_objects (Library.books self) = true /\
  all_objects (Library.borrowers self) = true.

(** The instances held by a collection, in dictionary order. *)
Fixpoint objects {T} (d : dict (stored T)) : list T :=
  match d with
  | [] => []
  | (_, Obj o) :: d' => o :: objects d'
  | (_, Raw _) :: d' => objects d'
  end.

(** The two files hold exactly what [save] writes for the collections. *)
Definition persisted (self : Library.t) : Prop :=
  exists books borrowers,
    to_dicts Book.to_dict (Library.books self) = Return books /\
    to_dicts Borrower.to_dict (Library.borrowers self) = Return borrowers /\
    Library.books_file self = Some books /\
    Library.borrowers_file self = Some borrowers.

(** What a storage file holds for one book and for one borrower: a JSON
    object with the fields of the entity under their names. *)
Definition book_entry (b : Book.t) : json :=
  JDict [("book_id", JStr (Book.book_id b));
         ("title", JStr (Book.title b));
         ("author", JStr (Book.author b));
         ("genre", JStr (Book.genre b));
         ("available", JBool (Book.available b))].

Definition borrower_entry (u : Borrower.t) : json :=
  JDict [("borrower_id", JStr (Borrower.borrower_id u));
         ("name", JStr (Borrower.name u));
         ("email", JStr (Borrower.email u));
         ("borrowed_books", JList (map JStr (Borrower.borrowed_books u)))].

(** The file exists and holds, key by key and in the order of the
    collection, the entry of the object stored under that key. *)
Definition file_holds {T} (entry : T -> json) (file : option (dict json))
  (collection : dict (stored T)) : Prop :=
  exists doc,
    file = Some doc /\
    Forall2 (fun line kept =>
               fst line = fst kept /\
               exists o, snd kept = Obj o /\ snd line = entry o)
            doc collection.

(** The borrowers whose [borrowed_books] contains [book_id]. *)
Definition holders (book_id : string) (self : Library.t) : list Borrower.t :=
  filter (fun u => contains book_id (Borrower.borrowed_books u))
         (objects (Library.borrowers self)).

(** How many times [book_id] occurs in all [borrowed_books] lists together. *)
Definition occurrences (book_id : string) (self : Library.t) : nat :=
  list_sum (map (fun u => count_occ string_dec (Borrower.borrowed_books u) book_id)
                (objects (Library.borrowers self))).

(** Every book is stored under its own id; an available book is in no
    [borrowed_books] list and a book that is out is in the lists once. *)
Definition consistent (self : Library.t) : Prop :=
  forall book_id b,
    dict_get book_id (Library.books self) = Some (Obj b) ->
    Book.book_id b = book_id /\
    occurrences book_id self = if Book.available b then 0 else 1.

Definition within_limit (self : Library.t) : Prop :=
  forall u, In u (objects (Library.borrowers self)) ->
            List.length (Borrower.borrowed_books u) <= Borrower.MAX_BOOKS.

Definition is_circulation (c : Library.call) : bool :=
  match c with
  | Library.CheckoutBook _ _ | Library.ReturnBook _ _ => true
  | Library.AddBook _ _ _ | Library.AddBorrower _ _ => false
  end.

(** The search criterion as the specification words it: the serialized form
    has the key and both sides are equal once lower-cased. *)
Definition criterion_holds (item : dict json) (kv : string * json) : bool :=
  match dict_get (fst kv) item, snd kv with
  | Some (JStr x), JStr v => String.eqb (Py.lower x) (Py.lower v)
  | _, _ => false
  end.

Definition satisfies (criteria : dict json) (item : dict json) : bool :=
  forallb (criterion_holds item) criteria.

(** Criteria that compare text with text: string values, on keys other than
    the boolean field [available] and other than [items], the name of the
    parameter of [search_items] that receives the books. *)
Definition text_criterion (kv : string * json) : bool :=
  negb (String.eqb (fst kv) "available") &&
  negb (String.eqb (fst kv) "items") &&
  match snd kv with JStr _ => true | _ => false end.

Definition text_criteria (criteria : dict json) : bool :=
  forallb text_criterion criteria.

(** Ids of the form [prefix_dddd]. *)
Definition all_digits (s : string) : bool :=
  forallb Py.is_digit (list_ascii_of_string s).

Definition four_digits (s : string) : bool :=
  (String.length s =? 4)%nat && all_digits s.

Definition well_formed_id (prefix id : string) : Prop :=
  exists suffix, four_digits suffix = true /\ id = prefix ++ "_" ++ suffix.

(** The state [checkout_book] and [return_book] reach just before [save]. *)
Definition checked_out (book_id borrower_id : string) (b : Book.t) (u : Borrower.t)
  (self : Library.t) : Library.t :=
  Library.set_books (dict_set book_id (Obj (Book.set_available false b)))
    (Library.set_borrowers
       (dict_set borrower_id
          (Obj (Borrower.set_borrowed_books
                  (Borrower.borrowed_books u ++ [book_id])%list u)))
       self).

Definition returned (book_id borrower_id : string) (b : Book.t) (u : Borrower.t)
  (self : Library.t) : Library.t :=
  Library.set_books (dict_set book_id (Obj (Book.set_available true b)))
    (Library.set_borrowers
       (dict_set borrower_id
          (Obj (Borrower.set_borrowed_books
                  (remove_first book_id (Borrower.borrowed_books u)) u)))
       self).

(** ** Concrete data for the examples *)

Definition dune : Book.t := Book.mk "BOOK_0001" "Dune" "Herbert" "Science" true.
Definition alice : Borrower.t := Borrower.mk "USER_0001" "Alice" "a@x.com" [].

(** The library of the specification's scenario, after [add_book] and
    [add_borrower] on a fresh data directory. *)
Definition scenario : Library.t :=
  Library.run [Library.AddBook "Dune" "Herbert" "Science";
               Library.AddBorrower "Alice" "a@x.com"]
              (Library.init "City" None None).


Definition bob : Borrower.t := Borrower.mk "USER_0002" "Bob" "b@x.com" [].

(** The scenario with a second borrower, once Alice has taken the book. *)
Definition scenario_out : Library.t :=
  Library.run [Library.AddBorrower "Bob" "b@x.com";
               Library.CheckoutBook "BOOK_0001" "USER_0001"]
              scenario.

(** A library, written out field by field, with one book on the shelf and
    two borrowers, no file written yet; and the same library when Alice has
    the book. *)
Definition on_shelf : Library.t :=
  Library.mk "City"
    [("BOOK_0001", Obj (Book.mk "BOOK_0001" "Dune" "Herbert" "Science" true))]
    [("USER_0001", Obj (Borrower.mk "USER_0001" "Alice" "a@x.com" []));
     ("USER_0002", Obj (Borrower.mk "USER_0002" "Bob" "b@x.com" []))]
    None None.

Definition lent_out : Library.t :=
  Library.mk "City"
    [("BOOK_0001", Obj (Book.mk "BOOK_0001" "Dune" "Herbert" "Science" false))]
    [("USER_0001", Obj (Borrower.mk "USER_0001" "Alice" "a@x.com" ["BOOK_0001"]));
     ("USER_0002", Obj (Borrower.mk "USER_0002" "Bob" "b@x.com" []))]
    None None.

(** Three more books, all of them taken by Alice together with the first. *)
Definition four_books : list Library.call :=
  [Library.AddBook "Emma" "Austen" "Fiction";
   Library.AddBook "Cosmos" "Sagan" "Science";
   Library.AddBook "SPQR" "Beard" "History";
   Library.CheckoutBook "BOOK_0001" "USER_0001";
   Library.CheckoutBook "BOOK_0002" "USER_0001";
   Library.CheckoutBook "BOOK_0003" "USER_0001"].

(** A books file holding the serialized form of one book, as [save] wrote it. *)
Definition dune_file : dict json := [("BOOK_0001", JDict (Book.to_dict dune))].

(** Ascending order of [list.sort] on strings. *)
Definition str_le (a b : string) : Prop := String.leb a b = true.

(** The ten digit characters and the ten thousand suffixes [0000] .. [9999]. *)
Definition digit_chars : list ascii :=
  ["0"; "1"; "2"; "3"; "4"; "5"; "6"; "7"; "8"; "9"]%char.

Definition four_digit_strings : list string :=
  flat_map (fun a =>
    flat_map (fun b =>
      flat_map (fun c =>
        map (fun d => String a (String b (String c (String d EmptyString))))
            digit_chars)
        digit_chars)
      digit_chars)
    digit_chars.

(** A suffix reads as a number below ten thousand that prints back to it. *)
Definition suffix_ok (s : string) : bool :=
  match Py.int s with
  | Return n => (0 <=? n)%Z && (n <=? 9999)%Z && String.eqb (Py.format_04d n) s
  | Raise _ => false
  end.

(** A collection that has reached [BOOK_9999] and gone one further. *)
Definition overflowing : Library.t :=
  Library.mk "City"
    [("BOOK_9999", Obj (Book.mk "BOOK_9999" "Emma" "Austen" "Fiction" true));
     ("BOOK_10000", Obj (Book.mk "BOOK_10000" "Dune" "Herbert" "Science" false))]
    [("USER_0001", Obj (Borrower.mk "USER_0001" "Alice" "a@x.com" ["BOOK_10000"]))]
    None None.

(** The keys [add_book] hands out on a new library, in the order it does. *)
Definition book_key (n : Z) : string := "BOOK" ++ "_" ++ Py.format_04d n.

Definition numbered_keys (n : nat) : list string :=
  map (fun k => book_key (Z.of_nat k)) (seq 1 n).

(** The integers [start], [start + 1], ... ([len] of them). *)
Fixpoint z_range (start : Z) (len : nat) : list Z :=
  match len with
  | O => []
  | S len' => start :: z_range (start + 1) len'
  end.

(** A number below ten thousand prints to four digits that read back as it,
    and to a string below the one its successor prints to. *)
Definition prints_ok (k : Z) : bool :=
  four_digits (Py.format_04d k) &&
  match Py.int (Py.format_04d k) with
  | Return n => (n =? k)%Z
  | Raise _ => false
  end &&
  ((k =? 9999)%Z || String.ltb (Py.format_04d k) (Py.format_04d (k + 1))).

(** [n] calls of [add_book] in a row. *)
Definition add_books (n : nat) (title author genre : string) (self : Library.t)
  : Library.t :=
  Nat.iter n (Library.exec (Library.add_book title author genre)) self.

(** No book is out: every stored book is available and filed under its own
    id, and every borrower's list is empty. *)
Definition nothing_out (self : Library.t) : Prop :=
  (forall book_id b,
      dict_get book_id (Library.books self) = Some (Obj b) ->
      Book.book_id b = book_id /\ Book.available b = true) /\
  (forall u, In u (objects (Library.borrowers self)) ->
             Borrower.borrowed_books u = []).

(* ================================================================== *)
(** ** Further predicates: statistics, storage, searching *)

(** How many of the books have genre [g]. *)
Definition tally (g : string) (bs : list Book.t) : Z :=
  Z.of_nat (List.length (filter (fun b => String.eqb (Book.genre b) g) bs)).

(** The library as constructed on an empty data directory. *)
Definition untouched (self : Library.t) : Prop :=
  Library.books self = [] /\ Library.borrowers self = [] /\
  Library.books_file self = None /\ Library.borrowers_file self = None.

(** Every stored book is filed under its own id, every borrower too. *)
Definition filed_by_id (self : Library.t) : Prop :=
  (forall k b, dict_get k (Library.books self) = Some (Obj b) -> Book.book_id b = k) /\
  (forall k u, dict_get k (Library.borrowers self) = Some (Obj u) ->
               Borrower.borrower_id u = k).

Definition genres_valid (self : Library.t) : Prop :=
  forall b, In b (objects (Library.books self)) ->
            Book.valid_genre (Book.genre b) = true.

(** [genre_counts.get(g, 0)] *)
Definition count_of (g : string) (genre_counts : dict Z) : Z :=
  match dict_get g genre_counts with
  | Some n => n
  | None => 0%Z
  end.

(** What holds of a library at every moment of its life when it started on
    an empty data directory. *)
Definition sound (self : Library.t) : Prop :=
  typed self /\ filed_by_id self /\ genres_valid self /\
  NoDup (dict_keys (Library.books self)) /\
  NoDup (dict_keys (Library.borrowers self)) /\
  (untouched self \/ persisted self).

(** ** The availability invariant over all four calls *)

(** A book is out exactly when one borrower has its id in the list. *)
Definition availability_matches (self : Library.t) : Prop :=
  forall book_id b,
    dict_get book_id (Library.books self) = Some (Obj b) ->
    (Book.available b = false <->
     List.length (holders (Book.book_id b) self) = 1).

(** The ids [generate_id] hands out for [prefix] on a collection that
    starts empty, from the first to the [n]th. *)
Definition numbered (prefix : string) (n : nat) : list string :=
  map (fun k => prefix ++ "_" ++ Py.format_04d (Z.of_nat k)) (seq 1 n).

(** No borrower lists an id under which no book is stored. *)
Definition no_stray_ids (self : Library.t) : Prop :=
  forall u id,
    In u (objects (Library.borrowers self)) ->
    In id (Borrower.borrowed_books u) ->
    In id (dict_keys (Library.books self)).

(** A library that has been given [n] books and [m] borrowers since it was
    constructed on an empty data directory. *)
Definition orderly (n m : nat) (self : Library.t) : Prop :=
  sound self /\ consistent self /\ no_stray_ids self /\
  dict_keys (Library.books self) = numbered "BOOK" n /\
  dict_keys (Library.borrowers self) = numbered "USER" m.

Definition is_add_book (c : Library.call) : bool :=
  match c with Library.AddBook _ _ _ => true | _ => false end.

Definition is_add_borrower (c : Library.call) : bool :=
  match c with Library.AddBorrower _ _ => true | _ => false end.

(** How many of the calls [p] selects. *)
Definition count_calls (p : Library.call -> bool) (calls : list Library.call) : Z :=
  Z.of_nat (List.length (filter p calls)).

(** A borrowers file with one borrower, as [save] wrote it. *)
Definition alice_file : dict json := [("USER_0001", JDict (Borrower.to_dict alice))].

(** How a mutating call may have changed each collection before it saves. *)
Definition books_updated (self mid : Library.t) : Prop :=
  Library.books mid = Library.books self \/
  exists k b,
    Library.books mid = dict_set k (Obj b) (Library.books self) /\
    Book.book_id b = k /\ Book.valid_genre (Book.genre b) = true.

Definition borrowers_updated (self mid : Library.t) : Prop :=
  Library.borrowers mid = Library.borrowers self \/
  exists k u,
    Library.borrowers mid = dict_set k (Obj u) (Library.borrowers self) /\
    Borrower.borrower_id u = k.

(** The criterion with its value lower-cased, when that value is a string. *)
Definition lower_criterion (kv : string * json) : string * json :=
  match snd kv with
  | JStr v => (fst kv, JStr (Py.lower v))
  | _ => kv
  end.

(** The comparison of one criterion against one item can be carried out:
    the item lacks the key, or both values are strings. *)
Definition comparable (item : dict json) (kv : string * json) : bool :=
  match dict_get (fst kv) item with
  | None => true
  | Some (JStr _) => match snd kv with JStr _ => true | _ => false end
  | Some _ => false
  end.

Definition all_comparable (items : list (dict json)) (criteria : dict json) : bool :=
  forallb (fun item => forallb (comparable item) criteria) items.

(** The three books of the docstring of [search_items], and a list in which
    one item carries a number. *)
Definition docstring_books : list (dict json) :=
  [[("title", JStr "Python 101"); ("author", JStr "Smith")];
   [("title", JStr "Java Guide"); ("author", JStr "Smith")];
   [("title", JStr "Python Advanced"); ("author", JStr "Jones")]].

Definition paged_books : list (dict json) :=
  [[("title", JStr "Python 101"); ("pages", JInt 90)];
   [("title", JStr "Java Guide")]].

(* ================================================================== *)
(** ** [format_date] *)

(** The fields of a [datetime] that [format_date] reads. *)
Module Datetime.

Record t : Type := mk
  { year : Z;
    month : Z;
    day : Z }.

(** The ranges the [datetime] constructor enforces on these fields. *)
Definition in_range (dt : t) : Prop :=
  (1 <= year dt <= 9999 /\ 1 <= month dt <= 12 /\ 1 <= day dt <= 31)%Z.

(** Which of two dates comes first. *)
Definition compare (a b : t) : comparison :=
  match (year a ?= year b)%Z with
  | Eq => match (month a ?= month b)%Z with
          | Eq => (day a ?= day b)%Z
          | c => c
          end
  | c => c
  end.

End Datetime.

(** [format_date(dt)]; [today] is what [datetime.today()] answers, used when
    no [dt] is given (a [datetime] is never falsy). *)
Definition format_date (today : Datetime.t) (dt : option Datetime.t) : string :=
  let render d :=
    Py.format_04d (Datetime.year d) ++ "-" ++
    Py.format_02d (Datetime.month d) ++ "-" ++
    Py.format_02d (Datetime.day d) in
  match dt with
  | Some d => render d
  | None => render today
  end.

(** A number from 1 to 31 prints to two characters, below what its
    successor prints to. *)
Definition prints_two (k : Z) : bool :=
  (String.length (Py.format_02d k) =? 2)%nat &&
  ((k =? 31)%Z || String.ltb (Py.format_02d k) (Py.format_02d (k + 1))).

(* ================================================================== *)
(** * [files.py]: text files, JSON files and the to-do list

    A text file is modelled by the characters it holds, on a system whose
    line separator is [LF], so that writing in text mode stores the string
    as it is; reading applies [Py.universal_newlines]. A directory maps a
    path to the content of the file there, if there is one. *)

Inductive file_exn : Type :=
| FileNotFoundError
| TypeError.

Inductive attempt (A : Type) : Type :=
| Done (a : A)
| Failed (e : file_exn).
Arguments Done {A} a.
Arguments Failed {A} e.

Definition directory (C : Type) : Type := string -> option C.

(** [open(filepath, "w")] followed by writing [content]. *)
Definition store {C} (filepath : string) (content : C) (dir : directory C)
  : directory C :=
  fun p => if String.eqb p filepath then Some content else dir p.

(** What the loop of [write_lines] has written after [lines]. *)
Fixpoint written (lines : list string) : string :=
  match lines with
  | [] => EmptyString
  | line :: rest => (line ++ String Py.LF EmptyString) ++ written rest
  end.

Definition write_lines (filepath : string) (lines : list string)
  (dir : directory string) : directory string :=
  store filepath (written lines) dir.

Definition read_lines (filepath : string) (dir : directory string)
  : attempt (list string) :=
  match dir filepath with
  | None => Failed FileNotFoundError
  | Some content =>
      let all_lines := Py.readlines (Py.universal_newlines content) in
      Done (map Py.strip all_lines)
  end.

(** [open(filepath, "a")] creates the file when it is missing. *)
Definition append_line (filepath : string) (line : string)
  (dir : directory string) : directory string :=
  let before := match dir filepath with Some content => content | None => EmptyString end in
  store filepath (before ++ (line ++ String Py.LF EmptyString)) dir.

Definition count_words (filepath : string) (dir : directory string) : attempt Z :=
  match dir filepath with
  | None => Failed FileNotFoundError
  | Some content =>
      Done (Z.of_nat (List.length (Py.split (Py.universal_newlines content))))
  end.

(** The string holds neither [LF] nor [CR]. *)
Fixpoint single_line (s : string) : bool :=
  match s with
  | EmptyString => true
  | String c s' => negb (Ascii.eqb c Py.LF) && negb (Ascii.eqb c Py.CR) && single_line s'
  end.

(** ** JSON files *)

(** A JSON file is modelled by the value it decodes to. *)
Definition save_json (filepath : string) (data : dict json)
  (dir : directory json) : directory json :=
  store filepath (JDict data) dir.

Definition load_json (filepath : string) (dir : directory json) : attempt json :=
  match dir filepath with
  | Some data => Done data
  | None => Failed FileNotFoundError
  end.

(** The loop [for key in updates: data[key] = updates[key]]; only a
    dictionary takes an assignment under a string key. *)
Fixpoint update_loop (data : json) (updates : dict json) : attempt json :=
  match updates with
  | [] => Done data
  | (key, value) :: rest =>
      match data with
      | JDict d => update_loop (JDict (dict_set key value d)) rest
      | _ => Failed TypeError
      end
  end.

Definition update_json (filepath : string) (updates : dict json)
  (dir : directory json) : attempt unit * directory json :=
  match dir filepath with
  | None => (Failed FileNotFoundError, dir)
  | Some data =>
      match update_loop data updates with
      | Done data' => (Done tt, store filepath data' dir)
      | Failed e => (Failed e, dir)
      end
  end.

(** ** The to-do list *)

(** Python's [x + 1] and [x == n] for a decoded value [x] and an [int];
    [None] stands for a missing key, as [dict.get] answers it. *)
Definition as_int (x : option json) : attempt Z :=
  match x with
  | Some (JInt z) => Done z
  | Some (JBool b) => Done (if b then 1 else 0)%Z
  | _ => Failed TypeError
  end.

Definition equals_int (x : option json) (n : Z) : bool :=
  match x with
  | Some (JInt z) => (z =? n)%Z
  | Some (JBool b) => ((if b then 1 else 0) =? n)%Z
  | _ => false
  end.

(** Truth value of a decoded value. *)
Definition truthy (x : option json) : bool :=
  match x with
  | None | Some JNull => false
  | Some (JBool b) => b
  | Some (JInt z) => negb (z =? 0)%Z
  | Some (JStr s) => negb (String.eqb s EmptyString)
  | Some (JList l) => match l with [] => false | _ => true end
  | Some (JDict d) => match d with [] => false | _ => true end
  end.

Module TodoList.

(** [todos] is the list in memory; [file] is what the JSON file at
    [filepath] holds, an array of objects, or [None] when there is no file. *)
Record t : Type := mk
  { todos : list (dict json);
    file : option (list (dict json)) }.

(** [TodoList.__init__] *)
Definition init (file : option (list (dict json))) : t :=
  mk (match file with Some loaded => loaded | None => [] end) file.

Definition _save (self : t) : t := mk (todos self) (Some (todos self)).

Definition _next_id (self : t) : attempt Z :=
  match todos self with
  | [] => Done 1%Z
  | _ :: _ =>
      match as_int (dict_get "id" (last (todos self) [])) with
      | Done n => Done (n + 1)%Z
      | Failed e => Failed e
      end
  end.

Definition add (task : string) (self : t) : attempt Z * t :=
  match _next_id self with
  | Failed e => (Failed e, self)
  | Done n =>
      let todo := [("id", JInt n); ("task", JStr task); ("done", JBool false)] in
      (Done n, _save (mk (todos self ++ [todo]) (file self)))
  end.

(** The loop of [complete]: the list with the first todo of that id marked,
    or [None] when the loop runs to its end. *)
Fixpoint complete_loop (l : list (dict json)) (todo_id : Z)
  : option (list (dict json)) :=
  match l with
  | [] => None
  | todo :: rest =>
      if equals_int (dict_get "id" todo) todo_id
      then Some (dict_set "done" (JBool true) todo :: rest)
      else option_map (cons todo) (complete_loop rest todo_id)
  end.

Definition complete (todo_id : Z) (self : t) : bool * t :=
  match complete_loop (todos self) todo_id with
  | Some marked => (true, _save (mk marked (file self)))
  | None => (false, self)
  end.

Definition get_pending (self : t) : list (dict json) :=
  filter (fun todo => negb (truthy (dict_get "done" todo))) (todos self).

Definition get_all (self : t) : list (dict json) := todos self.

Inductive call : Type :=
| Add (task : string)
| Complete (todo_id : Z).

Definition step (self : t) (c : call) : t :=
  match c with
  | Add task => snd (add task self)
  | Complete todo_id => snd (complete todo_id self)
  end.

Definition run (calls : list call) (self : t) : t := fold_left step calls self.

(** The todos carry the ids [start], [start + 1], ... in order. *)
Definition numbered_from (start : Z) (l : list (dict json)) : Prop :=
  map (dict_get "id") l =
  map (fun k => Some (JInt k)) (z_range start (List.length l)).

End TodoList.

(** The test of [get_pending], and the todos that do not carry [todo_id]. *)
Definition pending (todo : dict json) : bool := negb (truthy (dict_get "done" todo)).

Definition other_than (todo_id : Z) (todo : dict json) : bool :=
  negb (equals_int (dict_get "id" todo) todo_id).

(** Two pending todos of a list with a file. *)
Definition chores : TodoList.t :=
  TodoList.run [TodoList.Add "Buy groceries"; TodoList.Add "Walk the dog"]
               (TodoList.init None).

(** A list whose file was written with the ids out of order. *)
Definition shuffled : TodoList.t :=
  TodoList.init
    (Some [[("id", JInt 2); ("task", JStr "Walk the dog"); ("done", JBool false)];
           [("id", JInt 1); ("task", JStr "Buy groceries"); ("done", JBool false)]]).
(* ================================================================== *)
(** * Properties *)

(** ** Results and dictionaries *)

Lemma dict_get_set_same {V} (k : string) (v : V) (d : dict V) :
  dict_get k (dict_set k v d) = Some v.
Proof.
  induction d as [|[k' v'] d IH]; simpl.
  - now rewrite String.eqb_refl.
  - destruct (String.eqb k k') eqn:E; simpl.
    + now rewrite String.eqb_refl.
    + now rewrite E.
Qed.

Lemma dict_get_set_other {V} (k k0 : string) (v : V) (d : dict V) :
  k0 <> k -> dict_get k0 (dict_set k v d) = dict_get k0 d.
Proof.
  intros Hne. induction d as [|[k' v'] d IH]; simpl.
  - apply String.eqb_neq in Hne. now rewrite Hne.
  - destruct (String.eqb k k') eqn:E; simpl.
    + apply String.eqb_eq in E. subst k'.
      apply String.eqb_neq in Hne. now rewrite Hne.
    + now rewrite IH.
Qed.

Lemma dict_set_keys_present {V} (k : string) (v v0 : V) (d : dict V) :
  dict_get k d = Some v0 -> dict_keys (dict_set k v d) = dict_keys d.
Proof.
  induction d as [|[k' v'] d IH]; simpl; [discriminate|].
  destruct (String.eqb k k') eqn:E; simpl; intros H.
  - apply String.eqb_eq in E. now subst.
  - f_equal. now apply IH.
Qed.

Lemma dict_get_In_keys {V} (k : string) (d : dict V) :
  In k (dict_keys d) <-> exists v, dict_get k d = Some v.
Proof.
  induction d as [|[k' v'] d IH]; simpl.
  - split; [tauto | intros [v H]; discriminate].
  - destruct (String.eqb k k') eqn:E.
    + apply String.eqb_eq in E. subst. split; eauto.
    + apply String.eqb_neq in E. rewrite <- IH. split.
      * intros [H|H]; [congruence | assumption].
      * now right.
Qed.

Lemma all_objects_get {T} (k : string) (d : dict (stored T)) e :
  all_objects d = true -> dict_get k d = Some e -> exists o, e = Obj o.
Proof.
  induction d as [|[k' e'] d IH]; simpl; [discriminate|].
  intros H. apply andb_true_iff in H. destruct H as [H1 H2].
  destruct (String.eqb k k').
  - intros [= <-]. destruct e'; [eauto | discriminate].
  - now apply IH.
Qed.

Lemma all_objects_set {T} (k : string) (o : T) (d : dict (stored T)) :
  all_objects d = true -> all_objects (dict_set k (Obj o) d) = true.
Proof.
  induction d as [|[k' e'] d IH]; simpl; [reflexivity|].
  intros H. apply andb_true_iff in H. destruct H as [H1 H2].
  destruct (String.eqb k k'); simpl.
  - assumption.
  - now rewrite H1, IH.
Qed.

Lemma to_dicts_all_objects {T} (f : T -> dict json) (d : dict (stored T)) :
  all_objects d = true -> exists doc, to_dicts f d = Return doc.
Proof.
  induction d as [|[k e] d IH]; simpl; [eauto|].
  intros H. apply andb_true_iff in H. destruct H as [H1 H2].
  destruct e; [|discriminate]. simpl.
  destruct (IH H2) as [doc ->]. simpl. eauto.
Qed.

(** ** [save] *)

Ltac unfold_method :=
  unfold Library.bind, Library.gets, Library.eval, Library.modify, Library.ret,
    Library.the_book, Library.the_borrower, subscript.

Lemma save_typed (self : Library.t) :
  typed self ->
  exists books borrowers,
    to_dicts Book.to_dict (Library.books self) = Return books /\
    to_dicts Borrower.to_dict (Library.borrowers self) = Return borrowers /\
    Library.save self =
      (Return tt,
       Library.mk (Library.name self) (Library.books self) (Library.borrowers self)
                  (Some books) (Some borrowers)).
Proof.
  intros [Hb Hu].
  destruct (to_dicts_all_objects Book.to_dict _ Hb) as [bj Ebj].
  destruct (to_dicts_all_objects Borrower.to_dict _ Hu) as [uj Euj].
  exists bj, uj. repeat split; trivial.
  unfold Library.save. unfold_method. rewrite Ebj. simpl. now rewrite Euj.
Qed.

(** [save] only writes the files, whether it returns or raises. *)
Lemma save_frame (self : Library.t) :
  Library.books (snd (Library.save self)) = Library.books self /\
  Library.borrowers (snd (Library.save self)) = Library.borrowers self /\
  Library.name (snd (Library.save self)) = Library.name self.
Proof.
  unfold Library.save. unfold_method.
  destruct (to_dicts Book.to_dict (Library.books self)); simpl; [|tauto].
  destruct (to_dicts Borrower.to_dict (Library.borrowers self)); simpl; tauto.
Qed.

(** ** [checkout_book] and [return_book] *)

Lemma typed_checked_out book_id borrower_id b u self :
  typed self -> typed (checked_out book_id borrower_id b u self).
Proof.
  intros [Hb Hu]. split; simpl; now apply all_objects_set.
Qed.

Lemma typed_returned book_id borrower_id b u self :
  typed self -> typed (returned book_id borrower_id b u self).
Proof.
  intros [Hb Hu]. split; simpl; now apply all_objects_set.
Qed.

(** The body of [checkout_book] with the monad unfolded: which lookup decides
    the outcome, and the state the final [save] starts from. *)
Lemma checkout_book_eq (book_id borrower_id : string) (self : Library.t) :
  Library.checkout_book book_id borrower_id self =
  match dict_get book_id (Library.books self) with
  | None => (Return false, self)
  | Some (Raw _) => (Raise AttributeError, self)
  | Some (Obj b) =>
      if negb (Book.available b) then (Return false, self) else
      match dict_get borrower_id (Library.borrowers self) with
      | None => (Return false, self)
      | Some (Raw _) => (Raise AttributeError, self)
      | Some (Obj u) =>
          if negb (Borrower.can_borrow u) then (Return false, self) else
          Library.bind Library.save (fun _ => Library.ret true)
            (checked_out book_id borrower_id b u self)
      end
  end.
Proof.
  unfold Library.checkout_book. unfold_method. unfold dict_mem. cbv beta.
  destruct (dict_get book_id (Library.books self)) as [[b|j]|] eqn:Eb; simpl;
    rewrite ?Eb; simpl; try reflexivity.
  destruct (Book.available b) eqn:Ea; simpl; [ | reflexivity ].
  destruct (dict_get borrower_id (Library.borrowers self)) as [[u|j]|] eqn:Eu; simpl;
    rewrite ?Eu; simpl; try reflexivity.
  destruct (Borrower.can_borrow u) eqn:Ec; simpl; [ | reflexivity ].
  rewrite ?Eb, ?Eu. simpl. rewrite ?Eb. simpl.
  unfold Borrower.borrow_book. rewrite Ec. reflexivity.
Qed.

Lemma return_book_eq (book_id borrower_id : string) (self : Library.t) :
  Library.return_book book_id borrower_id self =
  match dict_get book_id (Library.books self),
        dict_get borrower_id (Library.borrowers self) with
  | None, _ | _, None => (Return false, self)
  | Some _, Some (Raw _) => (Raise AttributeError, self)
  | Some e, Some (Obj u) =>
      if negb (contains book_id (Borrower.borrowed_books u))
      then (Return false, self) else
      match e with
      | Obj b =>
          Library.bind Library.save (fun _ => Library.ret true)
            (returned book_id borrower_id b u self)
      | Raw _ =>
          (Raise AttributeError,
           Library.set_borrowers
             (dict_set borrower_id
                (Obj (Borrower.set_borrowed_books
                        (remove_first book_id (Borrower.borrowed_books u)) u)))
             self)
      end
  end.
Proof.
  unfold Library.return_book. unfold_method. unfold dict_mem. cbv beta.
  destruct (dict_get book_id (Library.books self)) as [e|] eqn:Eb; simpl;
    rewrite ?Eb; simpl; [ | reflexivity ].
  destruct (dict_get borrower_id (Library.borrowers self)) as [[u|j]|] eqn:Eu; simpl;
    rewrite ?Eu; simpl; try reflexivity.
  destruct (contains book_id (Borrower.borrowed_books u)) eqn:Ec; simpl;
    [ | reflexivity ].
  rewrite ?Eb, ?Eu. simpl. rewrite ?Eb. simpl.
  unfold Borrower.return_book. rewrite Ec.
  destruct e; reflexivity.
Qed.

Lemma save_then_true (self : Library.t) :
  typed self ->
  exists after,
    Library.bind Library.save (fun _ => Library.ret true) self = (Return true, after) /\
    Library.books after = Library.books self /\
    Library.borrowers after = Library.borrowers self /\
    Library.name after = Library.name self /\
    persisted after.
Proof.
  intros H. destruct (save_typed self H) as (bj & uj & Ebj & Euj & E).
  unfold Library.bind, Library.ret. rewrite E.
  eexists. split; [reflexivity|]. simpl. repeat split; trivial.
  exists bj, uj. simpl. tauto.
Qed.

(** The four refusals of [checkout_book]. *)
Lemma checkout_book_refused (self : Library.t) (book_id borrower_id : string) :
  typed self ->
  dict_get book_id (Library.books self) = None \/
  (exists b, dict_get book_id (Library.books self) = Some (Obj b) /\
             Book.available b = false) \/
  dict_get borrower_id (Library.borrowers self) = None \/
  (exists u, dict_get borrower_id (Library.borrowers self) = Some (Obj u) /\
             3 <= List.length (Borrower.borrowed_books u)) ->
  Library.checkout_book book_id borrower_id self = (Return false, self).
Proof.
  intros [Hb Hu] H. rewrite checkout_book_eq.
  destruct (dict_get book_id (Library.books self)) as [[b|j]|] eqn:Eb;
    [ | destruct (all_objects_get _ _ _ Hb Eb); discriminate | reflexivity ].
  destruct (Book.available b) eqn:Ea; simpl; [ | reflexivity ].
  destruct (dict_get borrower_id (Library.borrowers self)) as [[u|j]|] eqn:Eu;
    [ | destruct (all_objects_get _ _ _ Hu Eu); discriminate | reflexivity ].
  destruct (Borrower.can_borrow u) eqn:Ec; simpl; [ | reflexivity ].
  exfalso. destruct H as [H | [(b' & H & Hb') | [H | (u' & H & Hu')]]];
    try discriminate.
  - injection H as <-. congruence.
  - injection H as <-. unfold Borrower.can_borrow, Borrower.MAX_BOOKS in Ec.
    apply Nat.ltb_lt in Ec. lia.
Qed.

(** What [save] leaves in the files, entry by entry. *)
Lemma to_dicts_holds {T} (f : T -> dict json) (entry : T -> json)
  (d : dict (stored T)) (doc : dict json) :
  (forall o, JDict (f o) = entry o) ->
  to_dicts f d = Return doc ->
  Forall2 (fun line kept =>
             fst line = fst kept /\
             exists o, snd kept = Obj o /\ snd line = entry o)
          doc d.
Proof.
  intros Hf. revert doc. induction d as [|[k e] d IH]; intros doc H; simpl in H.
  - injection H as <-. constructor.
  - destruct e as [o|j]; simpl in H; [|discriminate].
    destruct (to_dicts f d) as [r|]; simpl in H; [|discriminate].
    injection H as <-. constructor; [|now apply IH].
    simpl. split; [reflexivity|]. exists o. split; [reflexivity|apply Hf].
Qed.

Lemma persisted_holds (self : Library.t) :
  persisted self ->
  file_holds book_entry (Library.books_file self) (Library.books self) /\
  file_holds borrower_entry (Library.borrowers_file self) (Library.borrowers self).
Proof.
  intros (bj & uj & Ebj & Euj & Fb & Fu). split.
  - exists bj. split; [exact Fb|].
    now apply (to_dicts_holds Book.to_dict book_entry).
  - exists uj. split; [exact Fu|].
    now apply (to_dicts_holds Borrower.to_dict borrower_entry).
Qed.

Lemma file_holds_get {T} (entry : T -> json) (file : option (dict json))
  (collection : dict (stored T)) (k : string) (o : T) :
  file_holds entry file collection ->
  dict_get k collection = Some (Obj o) ->
  exists doc, file = Some doc /\ dict_get k doc = Some (entry o).
Proof.
  intros (doc & E & H) Hget. exists doc. split; [exact E|]. clear E.
  induction H as [|[k1 x] [k2 e] doc d [Hk (o' & Ho & Hx)] H IH]; simpl in *.
  - discriminate.
  - subst k1 e x. destruct (String.eqb k k2).
    + now injection Hget as ->.
    + now apply IH.
Qed.

Lemma contains_In (x : string) (l : list string) :
  contains x l = true <-> In x l.
Proof.
  unfold contains. rewrite existsb_exists. split.
  - intros (y & Hin & E). apply String.eqb_eq in E. now subst y.
  - intros Hin. exists x. split; [exact Hin | apply String.eqb_refl].
Qed.

(** [list.remove] takes out the first occurrence. *)
Lemma remove_first_split (x : string) (l : list string) :
  In x l ->
  exists before rest,
    l = (before ++ x :: rest)%list /\ ~ In x before /\
    remove_first x l = (before ++ rest)%list.
Proof.
  induction l as [|y l IH]; simpl; [intros []|].
  destruct (String.eqb x y) eqn:E.
  - intros _. apply String.eqb_eq in E. subst y. exists [], l. simpl. tauto.
  - intros [->|Hin]; [rewrite String.eqb_refl in E; discriminate|].
    destruct (IH Hin) as (before & rest & -> & Hn & ->).
    exists (y :: before), rest. simpl. repeat split.
    intros [->|H]; [rewrite String.eqb_refl in E; discriminate | auto].
Qed.

(** C3. [checkout_book] returns [False] and leaves the whole state (both
    collections and both files) as it was when the book id is unknown, the
    book is not available, the borrower id is unknown, or the borrower
    already holds three books. Otherwise it returns [True], and afterwards
    the book stored under the id is the same book with [available] false,
    the borrower stored under the borrower id has the book id added at the
    end of the list, nothing else in the two collections has changed, and
    each of the two files holds the entries of its collection: in the books
    file the entry of this book reads [available] false, in the borrowers
    file the entry of this borrower lists the book id last. The library
    holds instances in both collections. *)
Theorem checkout_book_spec (self : Library.t) (book_id borrower_id : string) :
  typed self ->
  ((dict_get book_id (Library.books self) = None \/
    (exists b, dict_get book_id (Library.books self) = Some (Obj b) /\
               Book.available b = false) \/
    dict_get borrower_id (Library.borrowers self) = None \/
    (exists u, dict_get borrower_id (Library.borrowers self) = Some (Obj u) /\
               3 <= List.length (Borrower.borrowed_books u))) ->
   Library.checkout_book book_id borrower_id self = (Return false, self))
  /\
  (forall b u,
      dict_get book_id (Library.books self) = Some (Obj b) ->
      Book.available b = true ->
      dict_get borrower_id (Library.borrowers self) = Some (Obj u) ->
      List.length (Borrower.borrowed_books u) < 3 ->
      exists after,
        Library.checkout_book book_id borrower_id self = (Return true, after) /\
        Library.books after =
          dict_set book_id
            (Obj (Book.mk (Book.book_id b) (Book.title b) (Book.author b)
                          (Book.genre b) false))
            (Library.books self) /\
        Library.borrowers after =
          dict_set borrower_id
            (Obj (Borrower.mk (Borrower.borrower_id u) (Borrower.name u)
                              (Borrower.email u)
                              (Borrower.borrowed_books u ++ [book_id])%list))
            (Library.borrowers self) /\
        dict_get book_id (Library.books after) =
          Some (Obj (Book.mk (Book.book_id b) (Book.title b) (Book.author b)
                             (Book.genre b) false)) /\
        dict_get borrower_id (Library.borrowers after) =
          Some (Obj (Borrower.mk (Borrower.borrower_id u) (Borrower.name u)
                                 (Borrower.email u)
                                 (Borrower.borrowed_books u ++ [book_id])%list)) /\
        Library.name after = Library.name self /\
        file_holds book_entry (Library.books_file after) (Library.books after) /\
        file_holds borrower_entry (Library.borrowers_file after)
                   (Library.borrowers after) /\
        (exists doc,
            Library.books_file after = Some doc /\
            dict_get book_id doc =
              Some (JDict [("book_id", JStr (Book.book_id b));
                           ("title", JStr (Book.title b));
                           ("author", JStr (Book.author b));
                           ("genre", JStr (Book.genre b));
                           ("available", JBool false)])) /\
        (exists doc,
            Library.borrowers_file after = Some doc /\
            dict_get borrower_id doc =
              Some (JDict [("borrower_id", JStr (Borrower.borrower_id u));
                           ("name", JStr (Borrower.name u));
                           ("email", JStr (Borrower.email u));
                           ("borrowed_books",
                            JList (map JStr (Borrower.borrowed_books u
                                             ++ [book_id])%list))]))).
Proof.
  intros Ht. split; [now apply checkout_book_refused|].
  rewrite checkout_book_eq.
  intros b u Eb Ea Eu Hlen. rewrite Eb, Ea, Eu. simpl.
  assert (Ec : Borrower.can_borrow u = true) by (now apply Nat.ltb_lt).
  rewrite Ec. simpl.
  destruct (save_then_true (checked_out book_id borrower_id b u self))
    as (after & E & E1 & E2 & E3 & E4).
  { now apply typed_checked_out. }
  simpl in E1, E2, E3.
  assert (G1 : dict_get book_id (Library.books after) =
               Some (Obj (Book.set_available false b)))
    by (rewrite E1; apply dict_get_set_same).
  assert (G2 : dict_get borrower_id (Library.borrowers after) =
               Some (Obj (Borrower.set_borrowed_books
                            (Borrower.borrowed_books u ++ [book_id])%list u)))
    by (rewrite E2; apply dict_get_set_same).
  destruct (persisted_holds after E4) as [F1 F2].
  exists after.
  split; [exact E|]. split; [exact E1|]. split; [exact E2|].
  split; [exact G1|]. split; [exact G2|]. split; [exact E3|].
  split; [exact F1|]. split; [exact F2|]. split.
  - exact (file_holds_get _ _ _ _ _ F1 G1).
  - exact (file_holds_get _ _ _ _ _ F2 G2).
Qed.

Lemma scenario_typed : typed scenario.
Proof. split; reflexivity. Defined.

Lemma on_shelf_typed : typed on_shelf.
Proof. split; reflexivity. Defined.

Lemma checkout_book_spec_witness :
  typed on_shelf /\
  Library.checkout_book "BOOK_0002" "USER_0001" on_shelf = (Return false, on_shelf) /\
  exists after,
    Library.checkout_book "BOOK_0001" "USER_0001" on_shelf = (Return true, after) /\
    Library.books after =
      [("BOOK_0001", Obj (Book.mk "BOOK_0001" "Dune" "Herbert" "Science" false))] /\
    Library.borrowers after =
      [("USER_0001", Obj (Borrower.mk "USER_0001" "Alice" "a@x.com" ["BOOK_0001"]));
       ("USER_0002", Obj (Borrower.mk "USER_0002" "Bob" "b@x.com" []))] /\
    (exists doc,
        Library.books_file after = Some doc /\
        dict_get "BOOK_0001" doc =
          Some (JDict [("book_id", JStr "BOOK_0001"); ("title", JStr "Dune");
                       ("author", JStr "Herbert"); ("genre", JStr "Science");
                       ("available", JBool false)])) /\
    (exists doc,
        Library.borrowers_file after = Some doc /\
        dict_get "USER_0001" doc =
          Some (JDict [("borrower_id", JStr "USER_0001"); ("name", JStr "Alice");
                       ("email", JStr "a@x.com");
                       ("borrowed_books", JList [JStr "BOOK_0001"])])).
Proof.
  split; [exact on_shelf_typed|].
  destruct (checkout_book_spec on_shelf "BOOK_0001" "USER_0001" on_shelf_typed)
    as [_ Hok].
  destruct (checkout_book_spec on_shelf "BOOK_0002" "USER_0001" on_shelf_typed)
    as [Hfail _].
  split.
  - apply Hfail. left. reflexivity.
  - destruct (Hok (Book.mk "BOOK_0001" "Dune" "Herbert" "Science" true)
                  (Borrower.mk "USER_0001" "Alice" "a@x.com" [])
                  eq_refl eq_refl eq_refl)
      as (after & E & E1 & E2 & _ & _ & _ & _ & _ & F1 & F2).
    + simpl. lia.
    + exists after. split; [exact E|]. split; [exact E1|]. split; [exact E2|].
      split; [exact F1 | exact F2].
Defined.

(** C4. [return_book] returns [False] and changes nothing when the book id
    or the borrower id is unknown, or when the book id is not in that
    borrower's own list, also when another borrower holds the book.
    Otherwise it returns [True], and afterwards the borrower's list is the
    old list without the first occurrence of the book id, the book stored
    under the id is the same book with [available] true, nothing else in
    the two collections has changed, and each of the two files holds the
    entries of its collection: in the books file the entry of this book
    reads [available] true, in the borrowers file the entry of this
    borrower has the shortened list. *)
Theorem return_book_spec (self : Library.t) (book_id borrower_id : string) :
  typed self ->
  ((dict_get book_id (Library.books self) = None \/
    dict_get borrower_id (Library.borrowers self) = None \/
    (exists u, dict_get borrower_id (Library.borrowers self) = Some (Obj u) /\
               ~ In book_id (Borrower.borrowed_books u))) ->
   Library.return_book book_id borrower_id self = (Return false, self))
  /\
  (forall u b other v,
      dict_get borrower_id (Library.borrowers self) = Some (Obj u) ->
      ~ In book_id (Borrower.borrowed_books u) ->
      dict_get book_id (Library.books self) = Some (Obj b) ->
      Book.available b = false ->
      dict_get other (Library.borrowers self) = Some (Obj v) ->
      In book_id (Borrower.borrowed_books v) ->
      Library.return_book book_id borrower_id self = (Return false, self))
  /\
  (forall b u,
      dict_get book_id (Library.books self) = Some (Obj b) ->
      dict_get borrower_id (Library.borrowers self) = Some (Obj u) ->
      In book_id (Borrower.borrowed_books u) ->
      exists after before rest,
        Borrower.borrowed_books u = (before ++ book_id :: rest)%list /\
        ~ In book_id before /\
        Library.return_book book_id borrower_id self = (Return true, after) /\
        Library.books after =
          dict_set book_id
            (Obj (Book.mk (Book.book_id b) (Book.title b) (Book.author b)
                          (Book.genre b) true))
            (Library.books self) /\
        Library.borrowers after =
          dict_set borrower_id
            (Obj (Borrower.mk (Borrower.borrower_id u) (Borrower.name u)
                              (Borrower.email u) (before ++ rest)%list))
            (Library.borrowers self) /\
        dict_get book_id (Library.books after) =
          Some (Obj (Book.mk (Book.book_id b) (Book.title b) (Book.author b)
                             (Book.genre b) true)) /\
        dict_get borrower_id (Library.borrowers after) =
          Some (Obj (Borrower.mk (Borrower.borrower_id u) (Borrower.name u)
                                 (Borrower.email u) (before ++ rest)%list)) /\
        Library.name after = Library.name self /\
        file_holds book_entry (Library.books_file after) (Library.books after) /\
        file_holds borrower_entry (Library.borrowers_file after)
                   (Library.borrowers after) /\
        (exists doc,
            Library.books_file after = Some doc /\
            dict_get book_id doc =
              Some (JDict [("book_id", JStr (Book.book_id b));
                           ("title", JStr (Book.title b));
                           ("author", JStr (Book.author b));
                           ("genre", JStr (Book.genre b));
                           ("available", JBool true)])) /\
        (exists doc,
            Library.borrowers_file after = Some doc /\
            dict_get borrower_id doc =
              Some (JDict [("borrower_id", JStr (Borrower.borrower_id u));
                           ("name", JStr (Borrower.name u));
                           ("email", JStr (Borrower.email u));
                           ("borrowed_books",
                            JList (map JStr (before ++ rest)%list))]))).
Proof.
  intros Ht. pose proof Ht as [Hb Hu].
  assert (Hfail :
    dict_get book_id (Library.books self) = None \/
    dict_get borrower_id (Library.borrowers self) = None \/
    (exists u, dict_get borrower_id (Library.borrowers self) = Some (Obj u) /\
               ~ In book_id (Borrower.borrowed_books u)) ->
    Library.return_book book_id borrower_id self = (Return false, self)).
  { intros H. rewrite return_book_eq.
    destruct (dict_get book_id (Library.books self)) as [e|] eqn:Eb;
      [ | reflexivity ].
    destruct (dict_get borrower_id (Library.borrowers self)) as [[u|j]|] eqn:Eu;
      [ | destruct (all_objects_get _ _ _ Hu Eu); discriminate | reflexivity ].
    destruct (contains book_id (Borrower.borrowed_books u)) eqn:Ec; simpl;
      [ | reflexivity ].
    exfalso. destruct H as [H | [H | (u' & H & Hu')]]; try discriminate.
    injection H as <-. apply Hu'. now apply contains_In. }
  split; [exact Hfail|]. split.
  - intros u b other v Eu Ec _ _ _ _. apply Hfail. right; right. eauto.
  - intros b u Eb Eu Hin. rewrite return_book_eq, Eb, Eu.
    rewrite (proj2 (contains_In _ _) Hin). simpl.
    destruct (remove_first_split _ _ Hin) as (before & rest & El & Hn & Er).
    destruct (save_then_true (returned book_id borrower_id b u self))
      as (after & E & E1 & E2 & E3 & E4).
    { now apply typed_returned. }
    simpl in E1, E2, E3. rewrite Er in E2.
    assert (G1 : dict_get book_id (Library.books after) =
                 Some (Obj (Book.set_available true b)))
      by (rewrite E1; apply dict_get_set_same).
    assert (G2 : dict_get borrower_id (Library.borrowers after) =
                 Some (Obj (Borrower.set_borrowed_books (before ++ rest)%list u)))
      by (rewrite E2; apply dict_get_set_same).
    destruct (persisted_holds after E4) as [F1 F2].
    exists after, before, rest.
    split; [exact El|]. split; [exact Hn|].
    split; [exact E|]. split; [exact E1|]. split; [exact E2|].
    split; [exact G1|]. split; [exact G2|]. split; [exact E3|].
    split; [exact F1|]. split; [exact F2|]. split.
    + exact (file_holds_get _ _ _ _ _ F1 G1).
    + exact (file_holds_get _ _ _ _ _ F2 G2).
Qed.

Lemma scenario_out_typed : typed scenario_out.
Proof. split; reflexivity. Defined.

Lemma lent_out_typed : typed lent_out.
Proof. split; reflexivity. Defined.

Lemma return_book_spec_witness :
  typed lent_out /\
  Library.return_book "BOOK_0001" "USER_0002" lent_out = (Return false, lent_out) /\
  exists after,
    Library.return_book "BOOK_0001" "USER_0001" lent_out = (Return true, after) /\
    Library.books after =
      [("BOOK_0001", Obj (Book.mk "BOOK_0001" "Dune" "Herbert" "Science" true))] /\
    Library.borrowers after =
      [("USER_0001", Obj (Borrower.mk "USER_0001" "Alice" "a@x.com" []));
       ("USER_0002", Obj (Borrower.mk "USER_0002" "Bob" "b@x.com" []))] /\
    (exists doc,
        Library.books_file after = Some doc /\
        dict_get "BOOK_0001" doc =
          Some (JDict [("book_id", JStr "BOOK_0001"); ("title", JStr "Dune");
                       ("author", JStr "Herbert"); ("genre", JStr "Science");
                       ("available", JBool true)])) /\
    (exists doc,
        Library.borrowers_file after = Some doc /\
        dict_get "USER_0001" doc =
          Some (JDict [("borrower_id", JStr "USER_0001"); ("name", JStr "Alice");
                       ("email", JStr "a@x.com");
                       ("borrowed_books", JList [])])).
Proof.
  split; [exact lent_out_typed|].
  destruct (return_book_spec lent_out "BOOK_0001" "USER_0002" lent_out_typed)
    as (_ & Hwrong & _).
  destruct (return_book_spec lent_out "BOOK_0001" "USER_0001" lent_out_typed)
    as (_ & _ & Hok).
  split.
  - apply (Hwrong (Borrower.mk "USER_0002" "Bob" "b@x.com" [])
             (Book.mk "BOOK_0001" "Dune" "Herbert" "Science" false) "USER_0001"
             (Borrower.mk "USER_0001" "Alice" "a@x.com" ["BOOK_0001"]));
      try reflexivity; simpl; tauto.
  - destruct (Hok (Book.mk "BOOK_0001" "Dune" "Herbert" "Science" false)
                  (Borrower.mk "USER_0001" "Alice" "a@x.com" ["BOOK_0001"])
                  eq_refl eq_refl (or_introl eq_refl))
      as (after & before & rest & El & Hn & E & E1 & E2 & _ & _ & _ & _ & _ & F1 & F2).
    assert (Hl : (before ++ rest)%list = []).
    { destruct before as [|x before]; simpl in El.
      - now injection El as <-.
      - injection El as <- El. destruct Hn. now left. }
    rewrite Hl in E2, F2.
    exists after. split; [exact E|]. split; [exact E1|]. split; [exact E2|].
    split; [exact F1 | exact F2].
Defined.

(** ** The instances of a collection after an update *)

Lemma objects_set_In {T} (k : string) (o x : T) (d : dict (stored T)) :
  In x (objects (dict_set k (Obj o) d)) -> x = o \/ In x (objects d).
Proof.
  induction d as [|[k' e] d IH]; simpl.
  - intros [H|[]]. now left.
  - destruct (String.eqb k k'); simpl.
    + intros [H|H]; [now left|]. right. destruct e; simpl; tauto.
    + destruct e; simpl; [intros [H|H]|]; try tauto;
        intros; destruct IH; tauto.
Qed.

Lemma dict_get_objects_In {T} (k : string) (o : T) (d : dict (stored T)) :
  dict_get k d = Some (Obj o) -> In o (objects d).
Proof.
  induction d as [|[k' e] d IH]; simpl; [discriminate|].
  destruct (String.eqb k k').
  - intros [= ->]. now left.
  - intros H. destruct e; simpl; auto.
Qed.

(** Replacing the instance found under [k] trades its share of a sum for
    the share of the new instance. *)
Lemma objects_sum_set {T} (f : T -> nat) (k : string) (o o' : T)
  (d : dict (stored T)) :
  dict_get k d = Some (Obj o) ->
  list_sum (map f (objects (dict_set k (Obj o') d))) + f o =
  list_sum (map f (objects d)) + f o'.
Proof.
  induction d as [|[k' e] d IH]; simpl; [discriminate|].
  destruct (String.eqb k k'); simpl.
  - intros [= ->]. simpl. lia.
  - intros H. specialize (IH H). destruct e; simpl; lia.
Qed.

Lemma contains_count (x : string) (l : list string) :
  contains x l = true <-> 0 < count_occ string_dec l x.
Proof.
  unfold contains. rewrite existsb_exists. split.
  - intros (y & Hy & E). apply String.eqb_eq in E. subst y.
    now apply (count_occ_In string_dec) in Hy.
  - intros H. apply (count_occ_In string_dec) in H.
    exists x. split; [assumption | apply String.eqb_refl].
Qed.

Lemma count_remove_first_same (x : string) (l : list string) :
  contains x l = true ->
  S (count_occ string_dec (remove_first x l) x) = count_occ string_dec l x.
Proof.
  induction l as [|y l IH]; simpl; [discriminate|].
  destruct (String.eqb x y) eqn:E.
  - apply String.eqb_eq in E. subst y. intros _.
    destruct (string_dec x x); congruence.
  - simpl. intros H. apply String.eqb_neq in E.
    destruct (string_dec y x); [congruence|]. now apply IH.
Qed.

Lemma count_remove_first_other (x y : string) (l : list string) :
  x <> y ->
  count_occ string_dec (remove_first x l) y = count_occ string_dec l y.
Proof.
  intros Hne. induction l as [|z l IH]; simpl; [reflexivity|].
  destruct (String.eqb x z) eqn:E.
  - apply String.eqb_eq in E. subst z.
    destruct (string_dec x y); congruence.
  - simpl. destruct (string_dec z y); congruence.
Qed.

Lemma remove_first_length (x : string) (l : list string) :
  List.length (remove_first x l) <= List.length l.
Proof.
  induction l as [|y l IH]; simpl; [lia|].
  destruct (String.eqb x y); simpl; lia.
Qed.

(** ** What each call does to the two collections *)

Lemma exec_save_then (self : Library.t) {A} (a : A) :
  Library.books (snd (Library.bind Library.save (fun _ => Library.ret a) self)) =
    Library.books self /\
  Library.borrowers (snd (Library.bind Library.save (fun _ => Library.ret a) self)) =
    Library.borrowers self.
Proof.
  destruct (save_frame self) as (H1 & H2 & _).
  unfold Library.bind, Library.ret.
  destruct (Library.save self) as [[[]|e] s]; simpl in *; tauto.
Qed.

Inductive collections_step (self after : Library.t) : Prop :=
| step_same :
    Library.books after = Library.books self ->
    Library.borrowers after = Library.borrowers self ->
    collections_step self after
| step_checked_out book_id borrower_id b u :
    dict_get book_id (Library.books self) = Some (Obj b) ->
    Book.available b = true ->
    dict_get borrower_id (Library.borrowers self) = Some (Obj u) ->
    Borrower.can_borrow u = true ->
    Library.books after = Library.books (checked_out book_id borrower_id b u self) ->
    Library.borrowers after =
      Library.borrowers (checked_out book_id borrower_id b u self) ->
    collections_step self after
| step_returned book_id borrower_id b u :
    dict_get book_id (Library.books self) = Some (Obj b) ->
    dict_get borrower_id (Library.borrowers self) = Some (Obj u) ->
    contains book_id (Borrower.borrowed_books u) = true ->
    Library.books after = Library.books (returned book_id borrower_id b u self) ->
    Library.borrowers after =
      Library.borrowers (returned book_id borrower_id b u self) ->
    collections_step self after
| step_returned_raw book_id borrower_id j u :
    dict_get book_id (Library.books self) = Some (Raw j) ->
    dict_get borrower_id (Library.borrowers self) = Some (Obj u) ->
    contains book_id (Borrower.borrowed_books u) = true ->
    Library.books after = Library.books self ->
    Library.borrowers after =
      dict_set borrower_id
        (Obj (Borrower.set_borrowed_books
                (remove_first book_id (Borrower.borrowed_books u)) u))
        (Library.borrowers self) ->
    collections_step self after.

Lemma checkout_book_step (book_id borrower_id : string) (self : Library.t) :
  collections_step self (snd (Library.checkout_book book_id borrower_id self)).
Proof.
  rewrite checkout_book_eq.
  destruct (dict_get book_id (Library.books self)) as [[b|j]|] eqn:Eb;
    try (now apply step_same).
  destruct (Book.available b) eqn:Ea; simpl; try (now apply step_same).
  destruct (dict_get borrower_id (Library.borrowers self)) as [[u|j]|] eqn:Eu;
    try (now apply step_same).
  destruct (Borrower.can_borrow u) eqn:Ec; simpl; try (now apply step_same).
  apply (step_checked_out _ _ book_id borrower_id b u); trivial;
    apply exec_save_then.
Qed.

Lemma return_book_step (book_id borrower_id : string) (self : Library.t) :
  collections_step self (snd (Library.return_book book_id borrower_id self)).
Proof.
  rewrite return_book_eq.
  destruct (dict_get book_id (Library.books self)) as [e|] eqn:Eb;
    try (now apply step_same).
  destruct (dict_get borrower_id (Library.borrowers self)) as [[u|j]|] eqn:Eu;
    try (now apply step_same).
  destruct (contains book_id (Borrower.borrowed_books u)) eqn:Ec; simpl;
    try (now apply step_same).
  destruct e as [b|j].
  - apply (step_returned _ _ book_id borrower_id b u); trivial;
      apply exec_save_then.
  - now apply (step_returned_raw _ _ book_id borrower_id j u).
Qed.

Lemma add_book_borrowers (title author genre : string) (self : Library.t) :
  Library.borrowers (snd (Library.add_book title author genre self)) =
  Library.borrowers self.
Proof.
  unfold Library.add_book. unfold_method. cbv beta.
  destruct (fst (generate_id "BOOK" (dict_keys (Library.books self))));
    [ | reflexivity ].
  destruct (Book.init a title author genre true) as [b|e]; [ | reflexivity ].
  match goal with
  | |- context [Library.save ?s] =>
      destruct (save_frame s) as (_ & H & _); destruct (Library.save s) as [[[]|e] s']
  end; simpl in *; rewrite H; reflexivity.
Qed.

Lemma add_borrower_borrowers (name email : string) (self : Library.t) :
  Library.borrowers (snd (Library.add_borrower name email self)) =
    Library.borrowers self \/
  exists new_id,
    Library.borrowers (snd (Library.add_borrower name email self)) =
    dict_set new_id (Obj (Borrower.mk new_id name email []))
             (Library.borrowers self).
Proof.
  unfold Library.add_borrower. unfold_method. cbv beta.
  destruct (fst (generate_id "USER" (dict_keys (Library.borrowers self))))
    as [new_id|e]; [ | left; reflexivity ].
  right. exists new_id.
  match goal with
  | |- context [Library.save ?s] =>
      destruct (save_frame s) as (_ & H & _); destruct (Library.save s) as [[[]|e] s']
  end; simpl in *; rewrite H; reflexivity.
Qed.

(** ** The three-book limit *)

Lemma within_limit_set (self after : Library.t) (k : string) (u : Borrower.t) :
  within_limit self ->
  List.length (Borrower.borrowed_books u) <= Borrower.MAX_BOOKS ->
  Library.borrowers after = dict_set k (Obj u) (Library.borrowers self) ->
  within_limit after.
Proof.
  intros H Hu E x Hx. rewrite E in Hx.
  destruct (objects_set_In _ _ _ _ Hx) as [-> | Hin]; [assumption | now apply H].
Qed.

Lemma within_limit_collections_step (self after : Library.t) :
  collections_step self after -> within_limit self -> within_limit after.
Proof.
  intros Hstep H.
  destruct Hstep as [Eb Eu | bid uid b u _ _ _ Hc _ Eu | bid uid b u _ Hu _ _ Eu
                    | bid uid j u _ Hu _ _ Eu].
  - intros x Hx. rewrite Eu in Hx. now apply H.
  - eapply within_limit_set; [exact H | | exact Eu].
    simpl. rewrite length_app. simpl.
    unfold Borrower.can_borrow in Hc. apply Nat.ltb_lt in Hc. lia.
  - pose proof (dict_get_objects_In _ _ _ Hu) as Hin.
    eapply within_limit_set; [exact H | | exact Eu].
    simpl. pose proof (remove_first_length bid (Borrower.borrowed_books u)).
    specialize (H u Hin). lia.
  - pose proof (dict_get_objects_In _ _ _ Hu) as Hin.
    eapply within_limit_set; [exact H | | exact Eu].
    simpl. pose proof (remove_first_length bid (Borrower.borrowed_books u)).
    specialize (H u Hin). lia.
Qed.

Lemma within_limit_step (self : Library.t) (c : Library.call) :
  within_limit self -> within_limit (Library.step self c).
Proof.
  intros H. destruct c as [t a g | n e | bid uid | bid uid]; simpl;
    unfold Library.exec.
  - intros x Hx. rewrite add_book_borrowers in Hx. now apply H.
  - destruct (add_borrower_borrowers n e self) as [E | [new_id E]].
    + intros x Hx. rewrite E in Hx. now apply H.
    + eapply within_limit_set; [exact H | | exact E]. simpl. lia.
  - eapply within_limit_collections_step; [apply checkout_book_step | exact H].
  - eapply within_limit_collections_step; [apply return_book_step | exact H].
Qed.

Lemma within_limit_run (calls : list Library.call) (self : Library.t) :
  within_limit self -> within_limit (Library.run calls self).
Proof.
  revert self. induction calls as [|c calls IH]; intros self H; simpl.
  - exact H.
  - apply IH. now apply within_limit_step.
Qed.

Lemma within_limit_init (name : string) (books_file borrowers_file : option (dict json)) :
  within_limit (Library.init name books_file borrowers_file).
Proof.
  intros u. unfold Library.init, Library.load. unfold_method. simpl.
  destruct books_file as [bd|], borrowers_file as [ud|]; simpl; try tauto;
    induction ud as [|[k j] ud IH]; simpl; tauto.
Qed.

(** After construction, with or without storage files, the limit holds
    whatever is called. *)
Lemma within_limit_always (name : string)
  (books_file borrowers_file : option (dict json)) (calls : list Library.call) :
  within_limit (Library.run calls (Library.init name books_file borrowers_file)).
Proof. apply within_limit_run, within_limit_init. Qed.

(** C5. Whatever calls are made on a library in which no borrower holds
    more than three books (a newly constructed one, in particular), no
    borrower ever holds more than three; and [checkout_book] for a borrower
    who holds three returns [False] and leaves the whole state as it was. *)
Theorem borrow_limit (self0 : Library.t) (calls : list Library.call) :
  within_limit self0 ->
  let self := Library.run calls self0 in
  (forall u, In u (objects (Library.borrowers self)) ->
             List.length (Borrower.borrowed_books u) <= 3) /\
  (forall book_id borrower_id u,
      typed self ->
      dict_get borrower_id (Library.borrowers self) = Some (Obj u) ->
      List.length (Borrower.borrowed_books u) = 3 ->
      Library.checkout_book book_id borrower_id self = (Return false, self)).
Proof.
  intros H self. split.
  - exact (within_limit_run calls self0 H).
  - intros book_id borrower_id u Ht Eu Hlen.
    apply (checkout_book_refused self book_id borrower_id Ht).
    right; right; right. exists u. split; [exact Eu | lia].
Qed.

Lemma borrow_limit_witness :
  within_limit scenario /\
  let self := Library.run four_books scenario in
  Library.checkout_book "BOOK_0004" "USER_0001" self = (Return false, self).
Proof.
  assert (H : within_limit scenario).
  { intros u [<- | []]. simpl. unfold Borrower.MAX_BOOKS. lia. }
  split; [exact H|].
  destruct (borrow_limit scenario four_books H) as [_ Hfourth].
  apply (Hfourth "BOOK_0004" "USER_0001"
           (Borrower.mk "USER_0001" "Alice" "a@x.com"
                        ["BOOK_0001"; "BOOK_0002"; "BOOK_0003"])).
  - split; reflexivity.
  - reflexivity.
  - reflexivity.
Defined.

(** ** Availability against the borrowers' lists *)

Lemma occurrences_borrowers (book_id : string) (s1 s2 : Library.t) :
  Library.borrowers s1 = Library.borrowers s2 ->
  occurrences book_id s1 = occurrences book_id s2.
Proof. unfold occurrences. now intros ->. Qed.

Lemma occurrences_set (id k : string) (u u' : Borrower.t) (self after : Library.t) :
  dict_get k (Library.borrowers self) = Some (Obj u) ->
  Library.borrowers after = dict_set k (Obj u') (Library.borrowers self) ->
  occurrences id after + count_occ string_dec (Borrower.borrowed_books u) id =
  occurrences id self + count_occ string_dec (Borrower.borrowed_books u') id.
Proof.
  intros Hu E. unfold occurrences. rewrite E.
  exact (objects_sum_set
           (fun x => count_occ string_dec (Borrower.borrowed_books x) id)
           k u u' _ Hu).
Qed.

Lemma occurrences_holder (id k : string) (u : Borrower.t) (self : Library.t) :
  dict_get k (Library.borrowers self) = Some (Obj u) ->
  count_occ string_dec (Borrower.borrowed_books u) id <= occurrences id self.
Proof.
  intros Hu. unfold occurrences.
  induction (Library.borrowers self) as [|[k' e] d IH]; simpl in *; [discriminate|].
  destruct (String.eqb k k').
  - injection Hu as ->. simpl. lia.
  - specialize (IH Hu). destruct e; simpl; lia.
Qed.

Lemma consistent_collections_step (self after : Library.t) :
  collections_step self after -> consistent self -> consistent after.
Proof.
  intros Hstep H.
  destruct Hstep as [Eb Eu | bid uid b u Hb Ha Hu Hc Eb Eu
                    | bid uid b u Hb Hu Hc Eb Eu | bid uid j u Hb Hu Hc Eb Eu].
  - intros id b' Hget. rewrite Eb in Hget.
    rewrite (occurrences_borrowers id after self Eu). now apply H.
  - intros id b' Hget. rewrite Eb in Hget. simpl in Hget, Eu.
    pose proof (occurrences_set id uid u _ self after Hu Eu) as Hocc.
    simpl in Hocc. rewrite count_occ_app in Hocc. simpl in Hocc.
    destruct (string_dec bid id) as [<- | Hne].
    + rewrite dict_get_set_same in Hget. injection Hget as <-. simpl.
      destruct (H bid b Hb) as [Hid Ho]. rewrite Ha in Ho. split; [exact Hid | lia].
    + rewrite dict_get_set_other in Hget by congruence.
      destruct (H id b' Hget) as [Hid Ho]. split; [exact Hid | lia].
  - intros id b' Hget. rewrite Eb in Hget. simpl in Hget, Eu.
    pose proof (occurrences_set id uid u _ self after Hu Eu) as Hocc.
    simpl in Hocc.
    destruct (string_dec bid id) as [<- | Hne].
    + rewrite dict_get_set_same in Hget. injection Hget as <-. simpl.
      destruct (H bid b Hb) as [Hid Ho].
      pose proof (count_remove_first_same bid _ Hc) as Hrm.
      pose proof (occurrences_holder bid uid u self Hu) as Hle.
      split; [exact Hid|]. destruct (Book.available b); lia.
    + rewrite dict_get_set_other in Hget by congruence.
      destruct (H id b' Hget) as [Hid Ho].
      rewrite (count_remove_first_other bid id _ Hne) in Hocc.
      split; [exact Hid | lia].
  - intros id b' Hget. rewrite Eb in Hget.
    pose proof (occurrences_set id uid u _ self after Hu Eu) as Hocc.
    simpl in Hocc.
    destruct (string_dec bid id) as [<- | Hne]; [congruence|].
    destruct (H id b' Hget) as [Hid Ho].
    rewrite (count_remove_first_other bid id _ Hne) in Hocc.
    split; [exact Hid | lia].
Qed.

Lemma consistent_run (calls : list Library.call) (self : Library.t) :
  forallb is_circulation calls = true ->
  consistent self -> consistent (Library.run calls self).
Proof.
  revert self. induction calls as [|c calls IH]; intros self Hc H; simpl.
  - exact H.
  - simpl in Hc. apply andb_true_iff in Hc. destruct Hc as [Hc Hcs].
    apply IH; [exact Hcs|].
    destruct c as [t a g | n e | bid uid | bid uid]; try discriminate; simpl;
      unfold Library.exec.
    + exact (consistent_collections_step _ _ (checkout_book_step bid uid self) H).
    + exact (consistent_collections_step _ _ (return_book_step bid uid self) H).
Qed.

(** *** Libraries in which nothing has been borrowed yet *)

Lemma load_absent (name : string) (borrowers_file : option (dict json)) :
  Library.books (Library.init name None borrowers_file) = [] /\
  forall books_file, Library.borrowers (Library.init name books_file None) = [].
Proof.
  split.
  - now destruct borrowers_file.
  - intros books_file. now destruct books_file.
Qed.

Lemma load_present (name : string) (doc : dict json) (other : option (dict json)) :
  Library.books (Library.init name (Some doc) other) = raw_collection doc /\
  Library.borrowers (Library.init name other (Some doc)) = raw_collection doc.
Proof. split; now destruct other. Qed.

Lemma raw_collection_no_object {T} (doc : dict json) :
  objects (@raw_collection T doc) = [].
Proof. induction doc as [|[k j] doc IH]; simpl; [reflexivity | exact IH]. Qed.

Lemma add_book_books_cases (title author genre : string) (self : Library.t) :
  Library.books (snd (Library.add_book title author genre self)) =
    Library.books self \/
  exists new_id,
    Library.books (snd (Library.add_book title author genre self)) =
    dict_set new_id (Obj (Book.mk new_id title author genre true))
             (Library.books self).
Proof.
  unfold Library.add_book. unfold_method. cbv beta.
  destruct (fst (generate_id "BOOK" (dict_keys (Library.books self))))
    as [new_id|e]; [ | left; reflexivity ].
  unfold Book.init. destruct (Book.valid_genre genre); [ | left; reflexivity ].
  right. exists new_id.
  match goal with
  | |- context [Library.save ?s] =>
      destruct (save_frame s) as (H & _ & _); destruct (Library.save s) as [[[]|e] s']
  end; simpl in *; rewrite H; reflexivity.
Qed.

Lemma add_borrower_books (name email : string) (self : Library.t) :
  Library.books (snd (Library.add_borrower name email self)) = Library.books self.
Proof.
  unfold Library.add_borrower. unfold_method. cbv beta.
  destruct (fst (generate_id "USER" (dict_keys (Library.borrowers self))))
    as [new_id|e]; [ | reflexivity ].
  match goal with
  | |- context [Library.save ?s] =>
      destruct (save_frame s) as (H & _ & _); destruct (Library.save s) as [[[]|e] s']
  end; simpl in *; rewrite H; reflexivity.
Qed.

Lemma nothing_out_init (name : string) (books_file borrowers_file : option (dict json)) :
  nothing_out (Library.init name books_file borrowers_file).
Proof.
  split.
  - intros book_id b. destruct books_file as [doc|].
    + rewrite (proj1 (load_present name doc borrowers_file)).
      induction doc as [|[k j] doc IH]; simpl; [discriminate|].
      destruct (String.eqb book_id k); [discriminate | exact IH].
    + rewrite (proj1 (load_absent name borrowers_file)). discriminate.
  - intros u. destruct borrowers_file as [doc|].
    + rewrite (proj2 (load_present name doc books_file)).
      now rewrite raw_collection_no_object.
    + rewrite (proj2 (load_absent name books_file) books_file). intros [].
Qed.

Lemma nothing_out_step (self : Library.t) (c : Library.call) :
  is_circulation c = false -> nothing_out self -> nothing_out (Library.step self c).
Proof.
  intros Hc [Hb Hu].
  destruct c as [t a g | n e | bid uid | bid uid]; try discriminate; simpl;
    unfold Library.exec; split.
  - intros book_id b.
    destruct (add_book_books_cases t a g self) as [-> | [new_id ->]]; [apply Hb|].
    destruct (string_dec new_id book_id) as [<- | Hne].
    + rewrite dict_get_set_same. intros [= <-]. now split.
    + rewrite dict_get_set_other by congruence. apply Hb.
  - rewrite add_book_borrowers. exact Hu.
  - rewrite add_borrower_books. exact Hb.
  - intros u. destruct (add_borrower_borrowers n e self) as [-> | [new_id ->]];
      [apply Hu|].
    intros Hin. apply objects_set_In in Hin.
    destruct Hin as [-> | Hin]; [reflexivity | now apply Hu].
Qed.

Lemma nothing_out_consistent (self : Library.t) :
  nothing_out self -> consistent self.
Proof.
  intros [Hb Hu] book_id b Hget. destruct (Hb book_id b Hget) as [Hid Ha].
  split; [exact Hid|]. rewrite Ha. unfold occurrences.
  induction (objects (Library.borrowers self)) as [|u us IH]; [reflexivity|].
  simpl. rewrite (Hu u (or_introl eq_refl)). simpl.
  apply IH. intros v Hv. apply Hu. now right.
Qed.

(** A library that was constructed and then only had books and borrowers
    added is consistent. *)
Lemma consistent_after_adds (name : string)
  (books_file borrowers_file : option (dict json)) (calls : list Library.call) :
  forallb (fun c => negb (is_circulation c)) calls = true ->
  consistent (Library.run calls (Library.init name books_file borrowers_file)).
Proof.
  intros Hc. apply nothing_out_consistent.
  generalize (nothing_out_init name books_file borrowers_file).
  generalize (Library.init name books_file borrowers_file).
  induction calls as [|c calls IH]; intros self H; simpl; [exact H|].
  simpl in Hc. apply andb_true_iff in Hc. destruct Hc as [Hc Hcs].
  apply (IH Hcs). apply nothing_out_step; [|exact H].
  now apply negb_true_iff.
Qed.

(** One occurrence in all the lists means one holder, none means none. *)
Lemma holders_of_occurrences (id : string) (us : list Borrower.t) :
  let total :=
    list_sum (map (fun u => count_occ string_dec (Borrower.borrowed_books u) id) us) in
  let holding :=
    List.length (filter (fun u => contains id (Borrower.borrowed_books u)) us) in
  (total = 0 -> holding = 0) /\ (total = 1 -> holding = 1).
Proof.
  induction us as [|u us [IH0 IH1]]; simpl; [split; intros; [reflexivity | discriminate]|].
  destruct (contains id (Borrower.borrowed_books u)) eqn:Ec.
  - apply contains_count in Ec. simpl. split; intros Ht; [lia|].
    f_equal. apply IH0. lia.
  - assert (count_occ string_dec (Borrower.borrowed_books u) id = 0).
    { destruct (count_occ string_dec (Borrower.borrowed_books u) id) eqn:E;
        [reflexivity|].
      assert (Hc : contains id (Borrower.borrowed_books u) = true)
        by (apply contains_count; lia).
      congruence. }
    split; intros Ht; [apply IH0 | apply IH1]; lia.
Qed.

(** The two circulation calls keep the invariant. Starting from a library
    in which every book that is out sits once in the borrowers' lists and
    every available book sits in none, after any sequence of
    [checkout_book] and [return_book] calls every book of the collection is
    unavailable exactly when its id is in the [borrowed_books] of exactly
    one borrower. What [add_book] does to the invariant is settled further
    down, with the ids. *)
Theorem availability_invariant (self0 : Library.t) (calls : list Library.call) :
  consistent self0 ->
  forallb is_circulation calls = true ->
  let self := Library.run calls self0 in
  forall book_id b,
    dict_get book_id (Library.books self) = Some (Obj b) ->
    (Book.available b = false <->
     List.length (holders (Book.book_id b) self) = 1).
Proof.
  intros H0 Hc self book_id b Hget.
  destruct (consistent_run calls self0 Hc H0 book_id b Hget) as [-> Hocc].
  destruct (holders_of_occurrences book_id (objects (Library.borrowers self)))
    as [Hnone Hone].
  fold (occurrences book_id self) in Hnone, Hone.
  fold (holders book_id self) in Hnone, Hone.
  destruct (Book.available b).
  - split; [discriminate|]. intros Hl. rewrite (Hnone Hocc) in Hl. discriminate.
  - split; [intros _; exact (Hone Hocc) | reflexivity].
Qed.

Lemma scenario_consistent : consistent scenario.
Proof.
  intros id b Hget. cbn in Hget.
  destruct (String.eqb id "BOOK_0001") eqn:E; [|discriminate].
  apply String.eqb_eq in E. subst id. injection Hget as <-.
  split; reflexivity.
Defined.

Lemma availability_invariant_witness :
  consistent scenario /\
  let self := Library.run [Library.CheckoutBook "BOOK_0001" "USER_0001"] scenario in
  List.length (holders "BOOK_0001" self) = 1.
Proof.
  split; [exact scenario_consistent|].
  exact (proj1 (availability_invariant scenario
                  [Library.CheckoutBook "BOOK_0001" "USER_0001"]
                  scenario_consistent eq_refl
                  "BOOK_0001" (Book.set_available false dune) eq_refl)
               eq_refl).
Defined.

(** ** Genre validation *)

Lemma valid_genre_In (g : string) :
  Book.valid_genre g = true <-> In g Book.GENRES.
Proof.
  unfold Book.valid_genre. rewrite existsb_exists. split.
  - intros (x & Hx & E). apply String.eqb_eq in E. now subst.
  - intros H. exists g. split; [assumption | apply String.eqb_refl].
Qed.

Lemma int_raises (s : string) (e : exn) : Py.int s = Raise e -> e = ValueError.
Proof.
  unfold Py.int.
  match goal with |- match ?p with _ => _ end = _ -> _ => destruct p end;
    congruence.
Qed.

Lemma generate_id_raises (prefix : string) (ids : list string) (e : exn) :
  fst (generate_id prefix ids) = Raise e -> e = ValueError.
Proof.
  unfold generate_id. cbn [fst]. unfold rmap, rbind.
  destruct (Py.sort ids) as [|x l]; [discriminate|].
  destruct (Py.int (Py.last4 (last (x :: l) EmptyString))) eqn:E; [discriminate|].
  intros [= <-]. exact (int_raises _ _ E).
Qed.

(** C6. Constructing a [Book] succeeds exactly for the five genres; for any
    other string the constructor raises [ValueError] and yields no object,
    and [add_book] then raises with the collections and both files
    untouched, so that no id is used up and nothing is written. *)
Theorem book_genre_validation (g : string) :
  (forall i t a v, (exists b, Book.init i t a g v = Return b) <-> In g Book.GENRES) /\
  (~ In g Book.GENRES ->
   (forall i t a v, Book.init i t a g v = Raise ValueError) /\
   (forall t a self, Library.add_book t a g self = (Raise ValueError, self))).
Proof.
  split.
  - intros i t a v. rewrite <- valid_genre_In. unfold Book.init.
    destruct (Book.valid_genre g); split; eauto; try discriminate.
    intros [b H]. discriminate.
  - intros Hg. rewrite <- valid_genre_In in Hg.
    destruct (Book.valid_genre g) eqn:E; [congruence|]. clear Hg.
    assert (Hinit : forall i t a v, Book.init i t a g v = Raise ValueError).
    { intros. unfold Book.init. now rewrite E. }
    split; [exact Hinit|].
    intros t a self. unfold Library.add_book. unfold_method. cbv beta.
    destruct (fst (generate_id "BOOK" (dict_keys (Library.books self))))
      as [new_id|e] eqn:Eg.
    + now rewrite Hinit.
    + now rewrite (generate_id_raises _ _ _ Eg).
Qed.

Lemma book_genre_validation_witness :
  ~ In "Poetry" Book.GENRES /\
  Library.add_book "Odes" "Keats" "Poetry" scenario = (Raise ValueError, scenario).
Proof.
  assert (H : ~ In "Poetry" Book.GENRES).
  { simpl. intros [H|[H|[H|[H|[H|[]]]]]]; discriminate. }
  split; [exact H|].
  exact (proj2 (proj2 (book_genre_validation "Poetry") H) "Odes" "Keats" scenario).
Defined.

(** ** Serialization *)

Lemma as_str_list_map (l : list string) : as_str_list (map JStr l) = Return l.
Proof. induction l as [|x l IH]; simpl; [reflexivity | now rewrite IH]. Qed.

(** C7. Reading back what [to_dict] produced gives an object with the same
    field values, for every [Book] the constructor builds and for every
    [Borrower]; [Book.from_dict] checks the genre again. *)
Theorem serialization_round_trip :
  (forall i t a g v b,
      Book.init i t a g v = Return b ->
      Book.from_dict (Book.to_dict b) = Return b) /\
  (forall u, Borrower.from_dict (Borrower.to_dict u) = Return u) /\
  (forall b, Book.valid_genre (Book.genre b) = false ->
             Book.from_dict (Book.to_dict b) = Raise ValueError).
Proof.
  split; [|split].
  - intros i t a g v b. unfold Book.init.
    destruct (Book.valid_genre g) eqn:E; [|discriminate].
    intros [= <-]. cbn -[Book.valid_genre]. now rewrite E.
  - intros [i n e l]. cbn. rewrite as_str_list_map. cbn.
    unfold Borrower.init. now destruct l.
  - intros [i t a g v] E. cbn -[Book.valid_genre] in *. now rewrite E.
Qed.

Lemma serialization_round_trip_witness :
  Book.init "BOOK_0001" "Dune" "Herbert" "Science" true = Return dune /\
  Book.from_dict (Book.to_dict dune) = Return dune /\
  Book.from_dict (Book.to_dict (Book.mk "BOOK_0009" "Odes" "Keats" "Poetry" true)) =
    Raise ValueError.
Proof.
  split; [reflexivity|]. split.
  - exact (proj1 serialization_round_trip
             "BOOK_0001" "Dune" "Herbert" "Science" true dune eq_refl).
  - exact (proj2 (proj2 serialization_round_trip)
             (Book.mk "BOOK_0009" "Odes" "Keats" "Poetry" true) eq_refl).
Defined.

(** ** Loading *)

(** C1, what the code does. With a books file written by an earlier [save],
    the constructor leaves the decoded mapping in [books] although
    [Book.from_dict] would rebuild the book from it; the operations that
    follow then raise [AttributeError]. An absent file gives an empty
    collection. *)
Theorem load_keeps_decoded_mappings :
  let self := Library.init "City" (Some dune_file) None in
  Library.books self = [("BOOK_0001", Raw (JDict (Book.to_dict dune)))] /\
  Book.from_dict (Book.to_dict dune) = Return dune /\
  objects (Library.books self) = [] /\
  Library.borrowers self = [] /\
  fst (Library.get_available_books self) = Raise AttributeError /\
  fst (Library.checkout_book "BOOK_0001" "USER_0001" self) = Raise AttributeError /\
  fst (Library.add_borrower "Alice" "a@x.com" self) = Raise AttributeError.
Proof. repeat split. Qed.

(** ** Searching *)

Lemma values_to_dicts_objects {T} (f : T -> dict json) (d : dict (stored T)) :
  all_objects d = true ->
  values_to_dicts f (dict_values d) = Return (map f (objects d)).
Proof.
  induction d as [|[k e] d IH]; simpl; [reflexivity|].
  intros H. apply andb_true_iff in H. destruct H as [H1 H2].
  destruct e; [|discriminate]. unfold dict_values in *. simpl.
  now rewrite (IH H2).
Qed.

(** Apart from [available], the serialized form of a book has text only. *)
Lemma book_field_text (b : Book.t) (key : string) :
  String.eqb key "available" = false ->
  dict_get key (Book.to_dict b) = None \/
  exists x, dict_get key (Book.to_dict b) = Some (JStr x).
Proof.
  intros Hk. unfold Book.to_dict. cbn [dict_get].
  destruct (String.eqb key "book_id"); [right; eauto|].
  destruct (String.eqb key "title"); [right; eauto|].
  destruct (String.eqb key "author"); [right; eauto|].
  destruct (String.eqb key "genre"); [right; eauto|].
  rewrite Hk. now left.
Qed.

Lemma item_matches_book (b : Book.t) (criteria : dict json) (m : bool) :
  text_criteria criteria = true ->
  item_matches (Book.to_dict b) criteria m =
  Return (m && satisfies criteria (Book.to_dict b)).
Proof.
  revert m. induction criteria as [|[key value] criteria IH]; intros m Hc.
  - simpl. now rewrite andb_true_r.
  - simpl in Hc. apply andb_true_iff in Hc. destruct Hc as [Hkv Hc].
    unfold text_criterion in Hkv. simpl in Hkv.
    apply andb_true_iff in Hkv. destruct Hkv as [Hk Hv].
    apply andb_true_iff in Hk. destruct Hk as [Hk _].
    apply negb_true_iff in Hk.
    destruct value as [| | |v| |]; try discriminate.
    cbn [item_matches criterion_fails].
    unfold satisfies. cbn [forallb]. fold (satisfies criteria (Book.to_dict b)).
    unfold criterion_holds. cbn [fst snd].
    destruct (book_field_text b key Hk) as [-> | [x ->]]; cbn [rbind str_lower].
    + rewrite (IH false Hc). now destruct m.
    + destruct (String.eqb (Py.lower x) (Py.lower v)); cbn [negb].
      * now rewrite (IH m Hc).
      * rewrite (IH false Hc). now destruct m.
Qed.

Lemma search_loop_filter (items : list (dict json)) (criteria : dict json) :
  (forall item, In item items ->
                item_matches item criteria true = Return (satisfies criteria item)) ->
  forall result_list,
    search_loop items criteria result_list =
    Return (result_list ++ filter (satisfies criteria) items)%list.
Proof.
  induction items as [|item items IH]; intros H result_list; simpl.
  - now rewrite app_nil_r.
  - rewrite (H item (or_introl eq_refl)). simpl.
    rewrite IH by (intros; apply H; now right).
    destruct (satisfies criteria item); [|reflexivity].
    now rewrite <- app_assoc.
Qed.

(** No text criterion is named [items], so the keyword arguments that
    [search_books] passes on leave the parameter [items] alone. *)
Lemma text_criteria_no_items (criteria : dict json) :
  text_criteria criteria = true -> dict_mem "items" criteria = false.
Proof.
  unfold dict_mem. induction criteria as [|[key value] criteria IH]; intros H.
  - reflexivity.
  - simpl in H. apply andb_true_iff in H. destruct H as [Hkv H].
    unfold text_criterion in Hkv. cbn [fst snd] in Hkv.
    apply andb_true_iff in Hkv. destruct Hkv as [Hk _].
    apply andb_true_iff in Hk. destruct Hk as [_ Hk].
    apply negb_true_iff in Hk. cbn [dict_get].
    rewrite String.eqb_sym, Hk. now apply IH.
Qed.

(** C8, what the code returns. For criteria whose values are strings and
    whose keys are neither [available] nor [items], [search_books] returns,
    in collection order, the serialized forms (dictionaries, not [Book]
    objects) of exactly the books that have every criterion key with a value
    equal to the criterion once both are lower-cased; a book whose
    serialized form lacks a criterion key is not in the result, and the call
    returns; with no criteria every book is returned. The state is not
    changed. *)
Theorem search_books_spec (self : Library.t) (criteria : dict json) :
  all_objects (Library.books self) = true ->
  text_criteria criteria = true ->
  Library.search_books criteria self =
    (Return (filter (satisfies criteria)
               (map Book.to_dict (objects (Library.books self)))), self) /\
  Library.search_books [] self =
    (Return (map Book.to_dict (objects (Library.books self))), self) /\
  (forall key value item,
      In (key, value) criteria -> dict_get key item = None ->
      satisfies criteria item = false) /\
  (forall key value b,
      In (key, value) criteria -> dict_get key (Book.to_dict b) = None ->
      exists found,
        Library.search_books criteria self = (Return found, self) /\
        ~ In (Book.to_dict b) found).
Proof.
  intros Hb Hc.
  assert (Hsearch : forall crit, text_criteria crit = true ->
    Library.search_books crit self =
      (Return (filter (satisfies crit)
                 (map Book.to_dict (objects (Library.books self)))), self)).
  { intros crit Hcrit. unfold Library.search_books. unfold_method.
    rewrite (values_to_dicts_objects Book.to_dict _ Hb).
    rewrite (text_criteria_no_items crit Hcrit).
    unfold search_items. rewrite search_loop_filter; [reflexivity|].
    intros item Hin. apply in_map_iff in Hin. destruct Hin as (b & <- & _).
    now rewrite item_matches_book. }
  assert (Habsent : forall key value item,
      In (key, value) criteria -> dict_get key item = None ->
      satisfies criteria item = false).
  { intros key value item Hin Hget. unfold satisfies.
    destruct (forallb (criterion_holds item) criteria) eqn:E; [|reflexivity].
    rewrite forallb_forall in E. specialize (E _ Hin).
    unfold criterion_holds in E. simpl in E. rewrite Hget in E. discriminate. }
  split; [now apply Hsearch|]. split; [|split; [exact Habsent|]].
  - rewrite (Hsearch [] eq_refl). f_equal. f_equal. unfold satisfies.
    clear Hsearch.
    induction (map Book.to_dict (objects (Library.books self))) as [|x l IH];
      simpl; [reflexivity | now f_equal].
  - intros key value b Hin Hget. eexists. split; [now apply Hsearch|].
    intros Hfound. apply filter_In in Hfound. destruct Hfound as [_ Hsat].
    rewrite (Habsent key value _ Hin Hget) in Hsat. discriminate.
Qed.

Lemma search_books_spec_witness :
  Library.search_books [("genre", JStr "science")] scenario =
    (Return [[("book_id", JStr "BOOK_0001"); ("title", JStr "Dune");
              ("author", JStr "Herbert"); ("genre", JStr "Science");
              ("available", JBool true)]], scenario) /\
  Library.search_books [("genre", JStr "history")] scenario = (Return [], scenario) /\
  Library.search_books [("pages", JStr "412")] scenario = (Return [], scenario).
Proof.
  split; [|split].
  - exact (proj1 (search_books_spec scenario [("genre", JStr "science")]
                    eq_refl eq_refl)).
  - exact (proj1 (search_books_spec scenario [("genre", JStr "history")]
                    eq_refl eq_refl)).
  - exact (proj1 (search_books_spec scenario [("pages", JStr "412")]
                    eq_refl eq_refl)).
Defined.

(** C8, against the specification as worded: the result holds dictionaries,
    a criterion on [available] does not give a list at all, and a criterion
    named [items], a key that no serialized book has, raises as well. *)
Lemma search_books_not_as_claimed :
  fst (Library.search_books [("genre", JStr "science")] scenario) =
    Return [[("book_id", JStr "BOOK_0001"); ("title", JStr "Dune");
             ("author", JStr "Herbert"); ("genre", JStr "Science");
             ("available", JBool true)]] /\
  (forall found,
      fst (Library.search_books [("available", JBool true)] scenario) <> Return found) /\
  fst (Library.search_books [("available", JStr "true")] scenario) =
    Raise AttributeError /\
  fst (Library.search_books [("items", JStr "dune")] scenario) =
    Raise TypeError_multiple_values.
Proof. repeat split. intros found H. discriminate H. Qed.

(** ** String order *)

Lemma ascii_compare_refl (c : ascii) : Ascii.compare c c = Eq.
Proof. unfold Ascii.compare. apply N.compare_refl. Qed.

Lemma ascii_compare_trans (a b c : ascii) :
  Ascii.compare a b <> Gt -> Ascii.compare b c <> Gt ->
  Ascii.compare a c <> Gt /\
  (Ascii.compare a c = Eq -> Ascii.compare a b = Eq /\ Ascii.compare b c = Eq).
Proof.
  unfold Ascii.compare.
  rewrite !N.compare_gt_iff, !N.compare_eq_iff. lia.
Qed.

Lemma string_compare_refl (s : string) : String.compare s s = Eq.
Proof.
  induction s as [|c s IH]; simpl; [reflexivity|].
  now rewrite ascii_compare_refl.
Qed.

Lemma leb_refl (s : string) : str_le s s.
Proof. unfold str_le, String.leb. now rewrite string_compare_refl. Qed.

Lemma leb_trans (a b c : string) : str_le a b -> str_le b c -> str_le a c.
Proof.
  unfold str_le, String.leb. revert b c.
  induction a as [|x a IH]; intros [|y b] [|z c]; simpl; try congruence.
  intros Hab Hbc.
  destruct (ascii_compare_trans x y z) as [Hxz Heq].
  - destruct (Ascii.compare x y); congruence.
  - destruct (Ascii.compare y z); congruence.
  - destruct (Ascii.compare x z) eqn:Exz; try congruence.
    destruct (Heq eq_refl) as [Exy Eyz]. rewrite Exy in Hab. rewrite Eyz in Hbc.
    now apply (IH b c).
Qed.

Lemma compare_app_prefix (p a b : string) :
  String.compare (p ++ a) (p ++ b) = String.compare a b.
Proof.
  induction p as [|c p IH]; simpl; [reflexivity|].
  now rewrite ascii_compare_refl.
Qed.

Lemma app_inj_prefix (p a b : string) : p ++ a = p ++ b -> a = b.
Proof.
  induction p as [|c p IH]; simpl; [trivial|]. intros [= H]. now apply IH.
Qed.

Lemma length_app_string (p s : string) :
  String.length (p ++ s) = String.length p + String.length s.
Proof. induction p as [|c p IH]; simpl; [reflexivity | now rewrite IH]. Qed.

Lemma drop_app (p s : string) : Py.drop (String.length p) (p ++ s) = s.
Proof. induction p as [|c p IH]; simpl; [now destruct s | exact IH]. Qed.

Lemma last4_suffix (p s : string) :
  String.length s = 4 -> Py.last4 (p ++ s) = s.
Proof.
  intros H. unfold Py.last4. rewrite length_app_string, H.
  replace (String.length p + 4 - 4) with (String.length p) by lia.
  apply drop_app.
Qed.

(** ** [list.sort] *)

Lemma insert_perm (x : string) (l : list string) :
  Permutation (x :: l) (Py.insert x l).
Proof.
  induction l as [|y l IH]; simpl; [reflexivity|].
  destruct (String.leb x y); [reflexivity|].
  rewrite perm_swap. now constructor.
Qed.

Lemma sort_perm (l : list string) : Permutation l (Py.sort l).
Proof.
  induction l as [|x l IH]; simpl; [constructor|].
  rewrite <- insert_perm. now constructor.
Qed.

Lemma insert_sorted (x : string) (l : list string) :
  StronglySorted str_le l -> StronglySorted str_le (Py.insert x l).
Proof.
  induction l as [|y l IH]; intros Hs; simpl.
  - repeat constructor.
  - apply StronglySorted_inv in Hs. destruct Hs as [Hs Hy].
    destruct (String.leb x y) eqn:E.
    + constructor; [now constructor|]. constructor; [exact E|].
      rewrite Forall_forall in *. intros z Hz.
      apply (leb_trans x y z); [exact E | now apply Hy].
    + constructor; [now apply IH|].
      assert (Hyx : str_le y x).
      { destruct (String.leb_total x y); [congruence | assumption]. }
      rewrite Forall_forall in *. intros z Hz.
      apply (Permutation_in _ (Permutation_sym (insert_perm x l))) in Hz.
      destruct Hz as [<- | Hz]; [exact Hyx | now apply Hy].
Qed.

Lemma sort_sorted (l : list string) : StronglySorted str_le (Py.sort l).
Proof.
  induction l as [|x l IH]; simpl; [constructor | now apply insert_sorted].
Qed.

Lemma insert_below (x : string) (l : list string) :
  Forall (str_le x) l -> Py.insert x l = x :: l.
Proof.
  destruct l as [|y l]; [reflexivity|]. intros H. simpl.
  apply Forall_inv in H. unfold str_le in H. now rewrite H.
Qed.

Lemma sort_of_sorted (l : list string) :
  StronglySorted str_le l -> Py.sort l = l.
Proof.
  induction l as [|x l IH]; intros Hs; simpl; [reflexivity|].
  apply StronglySorted_inv in Hs. destruct Hs as [Hs Hx].
  rewrite (IH Hs). now apply insert_below.
Qed.

(** The last element of a sorted list is above all the others. *)
Lemma sorted_last_max (l : list string) (d x : string) :
  StronglySorted str_le l -> In x l -> str_le x (last l d).
Proof.
  induction l as [|y l IH]; intros Hs Hin; [destruct Hin|].
  apply StronglySorted_inv in Hs. destruct Hs as [Hs Hy].
  destruct l as [|z l].
  - destruct Hin as [<- | []]. apply leb_refl.
  - change (last (y :: z :: l) d) with (last (z :: l) d).
    destruct Hin as [<- | Hin]; [|now apply IH].
    rewrite Forall_forall in Hy. apply Hy.
    clear. revert z. induction l as [|w l IH]; intros z; [now left|].
    change (last (z :: w :: l) d) with (last (w :: l) d). right. apply IH.
Qed.

Lemma last_In (l : list string) (d : string) : l <> [] -> In (last l d) l.
Proof.
  induction l as [|x [|y l] IH]; intros H; [congruence | now left |].
  right. apply IH. discriminate.
Qed.

Lemma sort_last (l : list string) (x : string) :
  In x l -> In (last (Py.sort l) EmptyString) l /\ str_le x (last (Py.sort l) EmptyString).
Proof.
  intros Hin. split.
  - apply (Permutation_in _ (Permutation_sym (sort_perm l))).
    apply last_In. intros E.
    apply (Permutation_in _ (sort_perm l)) in Hin. rewrite E in Hin. destruct Hin.
  - apply sorted_last_max; [apply sort_sorted|].
    now apply (Permutation_in _ (sort_perm l)).
Qed.

(** ** [generate_id] *)

(** The two examples of the docstring. *)
Example generate_id_doc1 :
  fst (generate_id "BOOK" ["BOOK_0001"; "BOOK_0002"]) = Return "BOOK_0003".
Proof. reflexivity. Qed.

Example generate_id_doc2 : fst (generate_id "USER" []) = Return "USER_0001".
Proof. reflexivity. Qed.

(** C9, what the code does. [generate_id] sorts the list it is given in
    place: afterwards the list holds the same ids in ascending string
    order, and only a list that was already ascending is left as it was. *)
Theorem generate_id_sorts_argument (prefix : string) (existing_ids : list string) :
  let after := snd (generate_id prefix existing_ids) in
  after = Py.sort existing_ids /\
  Permutation existing_ids after /\
  StronglySorted str_le after /\
  (StronglySorted str_le existing_ids -> after = existing_ids).
Proof.
  simpl. split; [reflexivity|]. split; [apply sort_perm|].
  split; [apply sort_sorted | apply sort_of_sorted].
Qed.

Lemma generate_id_sorts_argument_witness :
  snd (generate_id "BOOK" ["BOOK_0001"; "BOOK_0002"]) = ["BOOK_0001"; "BOOK_0002"].
Proof.
  apply (generate_id_sorts_argument "BOOK" ["BOOK_0001"; "BOOK_0002"]).
  repeat constructor.
Defined.

(** C9, against the specification as worded: the caller's list comes back reordered. *)
Lemma generate_id_reorders_argument :
  snd (generate_id "BOOK" ["BOOK_0002"; "BOOK_0001"]) = ["BOOK_0001"; "BOOK_0002"] /\
  snd (generate_id "BOOK" ["BOOK_0002"; "BOOK_0001"]) <> ["BOOK_0002"; "BOOK_0001"].
Proof. split; [reflexivity | discriminate]. Qed.

(** *** Four-digit suffixes *)

Lemma is_digit_chars (c : ascii) : Py.is_digit c = true -> In c digit_chars.
Proof.
  destruct c as [b0 b1 b2 b3 b4 b5 b6 b7].
  destruct b0, b1, b2, b3, b4, b5, b6, b7; intros H; try discriminate H;
    unfold digit_chars; simpl; auto 12.
Qed.

Lemma four_digits_enumerated (s : string) :
  four_digits s = true -> In s four_digit_strings.
Proof.
  unfold four_digits, all_digits. intros H. apply andb_true_iff in H.
  destruct H as [Hlen Hd]. apply Nat.eqb_eq in Hlen.
  destruct s as [|a [|b [|c [|d [|e s]]]]]; try discriminate Hlen.
  simpl in Hd. repeat (apply andb_true_iff in Hd; destruct Hd as [? Hd]).
  unfold four_digit_strings.
  apply in_flat_map. exists a. split; [now apply is_digit_chars|].
  apply in_flat_map. exists b. split; [now apply is_digit_chars|].
  apply in_flat_map. exists c. split; [now apply is_digit_chars|].
  apply in_map_iff. exists d. split; [reflexivity | now apply is_digit_chars].
Qed.

Lemma four_digit_strings_ok : forallb suffix_ok four_digit_strings = true.
Proof. vm_compute. reflexivity. Qed.

Lemma four_digits_int (s : string) :
  four_digits s = true ->
  exists n, Py.int s = Return n /\ (0 <= n <= 9999)%Z /\ Py.format_04d n = s.
Proof.
  intros H. apply four_digits_enumerated in H.
  pose proof four_digit_strings_ok as Hall. rewrite forallb_forall in Hall.
  specialize (Hall s H). unfold suffix_ok in Hall.
  destruct (Py.int s) as [n|e]; [|discriminate]. exists n.
  apply andb_true_iff in Hall. destruct Hall as [Hall Hfmt].
  apply andb_true_iff in Hall. destruct Hall as [H0 H1].
  apply String.eqb_eq in Hfmt. split; [reflexivity|]. split; [lia | exact Hfmt].
Qed.

Lemma in_z_range (z start : Z) (len : nat) :
  (start <= z < start + Z.of_nat len)%Z -> In z (z_range start len).
Proof.
  revert start. induction len as [|len IH]; intros start H; simpl; [lia|].
  destruct (Z.eq_dec start z) as [-> | Hne]; [now left|].
  right. apply IH. lia.
Qed.

Lemma format_04d_prints : forallb prints_ok (z_range 0 (Z.to_nat 10000)) = true.
Proof. vm_compute. reflexivity. Qed.

Lemma format_04d_ok (n : Z) :
  (0 <= n <= 9999)%Z ->
  four_digits (Py.format_04d n) = true /\
  Py.int (Py.format_04d n) = Return n /\
  ((n < 9999)%Z -> String.ltb (Py.format_04d n) (Py.format_04d (n + 1)) = true).
Proof.
  intros Hn. pose proof format_04d_prints as H. rewrite forallb_forall in H.
  specialize (H n (in_z_range n 0 (Z.to_nat 10000) ltac:(lia))). unfold prints_ok in H.
  apply andb_true_iff in H. destruct H as [H Hs].
  apply andb_true_iff in H. destruct H as [H4 Hi].
  split; [exact H4|]. split.
  - destruct (Py.int (Py.format_04d n)) as [m|e]; [|discriminate].
    apply Z.eqb_eq in Hi. now subst.
  - intros Hlt. apply orb_true_iff in Hs. destruct Hs as [Hs | Hs]; [|exact Hs].
    apply Z.eqb_eq in Hs. lia.
Qed.

Lemma ltb_leb (a b : string) : String.ltb a b = true -> str_le a b.
Proof.
  unfold str_le, String.ltb, String.leb. now destruct (String.compare a b).
Qed.

Lemma ltb_not_leb (a b : string) : String.ltb a b = true -> ~ str_le b a.
Proof.
  unfold str_le, String.ltb, String.leb. rewrite (String.compare_antisym b a).
  destruct (String.compare a b); simpl; congruence.
Qed.

(** Below ten thousand, a larger number never prints to a smaller string. *)
Lemma format_04d_increasing (i j : Z) :
  (0 <= i < j)%Z -> (j <= 9999)%Z ->
  ~ str_le (Py.format_04d j) (Py.format_04d i).
Proof.
  intros Hij Hj.
  assert (Hnext : forall m, (0 <= m < 9999)%Z ->
                            String.ltb (Py.format_04d m) (Py.format_04d (m + 1)) = true).
  { intros m Hm. apply format_04d_ok; lia. }
  assert (Hup : forall k : nat, (i + Z.of_nat k <= 9999)%Z ->
                                str_le (Py.format_04d i)
                                       (Py.format_04d (i + Z.of_nat k))).
  { induction k as [|k IH]; intros Hk.
    - rewrite Z.add_0_r. apply leb_refl.
    - apply (leb_trans _ (Py.format_04d (i + Z.of_nat k))); [apply IH; lia|].
      replace (i + Z.of_nat (S k))%Z with (i + Z.of_nat k + 1)%Z by lia.
      apply ltb_leb, Hnext. lia. }
  intros Hle.
  assert (Hlt : String.ltb (Py.format_04d (j - 1)) (Py.format_04d j) = true).
  { replace j with (j - 1 + 1)%Z at 2 by lia. apply Hnext. lia. }
  apply (ltb_not_leb _ _ Hlt).
  apply (leb_trans _ (Py.format_04d i)); [exact Hle|].
  replace (j - 1)%Z with (i + Z.of_nat (Z.to_nat (j - 1 - i)))%Z by lia.
  apply Hup. lia.
Qed.

Lemma app_string_assoc (a b c : string) : (a ++ b) ++ c = a ++ b ++ c.
Proof. induction a as [|x a IH]; simpl; [reflexivity | now rewrite IH]. Qed.

Lemma last4_id (prefix suffix : string) :
  four_digits suffix = true -> Py.last4 (prefix ++ "_" ++ suffix) = suffix.
Proof.
  intros H. unfold four_digits in H. apply andb_true_iff in H.
  destruct H as [Hlen _]. apply Nat.eqb_eq in Hlen.
  rewrite <- app_string_assoc. now apply last4_suffix.
Qed.

Lemma str_le_id (prefix a b : string) :
  str_le (prefix ++ "_" ++ a) (prefix ++ "_" ++ b) <-> str_le a b.
Proof.
  unfold str_le, String.leb.
  now rewrite <- !app_string_assoc, compare_app_prefix.
Qed.

(** On ids of the form [prefix_dddd] the generated id is a new one. *)
Lemma generate_id_fresh (prefix : string) (existing_ids : list string) :
  (forall id, In id existing_ids -> well_formed_id prefix id) ->
  exists new_id,
    fst (generate_id prefix existing_ids) = Return new_id /\
    ~ In new_id existing_ids.
Proof.
  intros Hwf. unfold generate_id. cbn [fst].
  destruct (Py.sort existing_ids) as [|x l] eqn:Es.
  - pose proof (sort_perm existing_ids) as Hp. rewrite Es in Hp.
    apply Permutation_sym, Permutation_nil in Hp. subst existing_ids.
    eexists. split; [reflexivity | intros []].
  - assert (Hx : In x existing_ids).
    { apply (Permutation_in _ (Permutation_sym (sort_perm existing_ids))).
      rewrite Es. now left. }
    rewrite <- Es.
    destruct (sort_last existing_ids x Hx) as [Hlast _].
    destruct (Hwf _ Hlast) as (sl & Hsl & El).
    destruct (four_digits_int sl Hsl) as (n & Hint & Hn & Hfmt).
    rewrite El, (last4_id prefix sl Hsl), Hint. cbn [rmap rbind].
    eexists. split; [reflexivity|]. intros Hin.
    destruct (Hwf _ Hin) as (s' & Hs' & E').
    apply app_inj_prefix in E'. injection E' as E'.
    destruct (Z.eq_dec n 9999) as [-> | Hne].
    + rewrite <- E' in Hs'. vm_compute in Hs'. discriminate.
    + destruct (sort_last existing_ids _ Hin) as [_ Hle].
      rewrite El, <- Hfmt in Hle. apply str_le_id in Hle.
      revert Hle. apply format_04d_increasing; lia.
Qed.

(** ** [add_book] and the ids it assigns *)

Lemma add_book_books (title author genre new_id : string) (self : Library.t) :
  fst (generate_id "BOOK" (dict_keys (Library.books self))) = Return new_id ->
  Book.valid_genre genre = true ->
  Library.books (snd (Library.add_book title author genre self)) =
  dict_set new_id (Obj (Book.mk new_id title author genre true)) (Library.books self).
Proof.
  intros Eg Ev. unfold Library.add_book. unfold_method. cbv beta.
  rewrite Eg. unfold Book.init. rewrite Ev.
  match goal with
  | |- context [Library.save ?s] =>
      destruct (save_frame s) as (H & _ & _); destruct (Library.save s) as [[[]|e] s']
  end; simpl in *; rewrite H; reflexivity.
Qed.

(** While every key has the form [BOOK_dddd], [add_book] stores the new book
    under a key that was not in the collection. *)
Lemma add_book_fresh_key (title author genre : string) (self : Library.t) :
  (forall id, In id (dict_keys (Library.books self)) -> well_formed_id "BOOK" id) ->
  Book.valid_genre genre = true ->
  exists new_id,
    dict_get new_id (Library.books self) = None /\
    Library.books (snd (Library.add_book title author genre self)) =
    dict_set new_id (Obj (Book.mk new_id title author genre true)) (Library.books self).
Proof.
  intros Hwf Ev.
  destruct (generate_id_fresh "BOOK" _ Hwf) as (new_id & Eg & Hnew).
  exists new_id. split; [|now apply add_book_books].
  destruct (dict_get new_id (Library.books self)) eqn:E; [|reflexivity].
  exfalso. apply Hnew. apply dict_get_In_keys. eauto.
Qed.

(** Once the collection holds [BOOK_9999] and [BOOK_10000] and no key sorts
    after [BOOK_9999], [generate_id] answers [BOOK_10000] again and
    [add_book] replaces the book stored under that key: the collection does
    not grow. *)
Lemma add_book_overflow (title author genre : string) (self : Library.t) :
  Book.valid_genre genre = true ->
  In "BOOK_9999" (dict_keys (Library.books self)) ->
  In "BOOK_10000" (dict_keys (Library.books self)) ->
  (forall k, In k (dict_keys (Library.books self)) -> str_le k "BOOK_9999") ->
  let after := snd (Library.add_book title author genre self) in
  fst (generate_id "BOOK" (dict_keys (Library.books self))) = Return "BOOK_10000" /\
  Library.books after =
    dict_set "BOOK_10000" (Obj (Book.mk "BOOK_10000" title author genre true))
             (Library.books self) /\
  dict_keys (Library.books after) = dict_keys (Library.books self).
Proof.
  intros Ev H9 H10 Hmax.
  assert (Eg : fst (generate_id "BOOK" (dict_keys (Library.books self))) =
               Return "BOOK_10000").
  { destruct (sort_last _ _ H9) as [Hin Hle].
    assert (El : last (Py.sort (dict_keys (Library.books self))) EmptyString = "BOOK_9999").
    { apply String.leb_antisym; [now apply Hmax | exact Hle]. }
    unfold generate_id. cbn [fst].
    destruct (Py.sort (dict_keys (Library.books self))) as [|x l] eqn:Es.
    - discriminate El.
    - rewrite El. reflexivity. }
  split; [exact Eg|]. cbv zeta.
  rewrite (add_book_books _ _ _ _ _ Eg Ev). split; [reflexivity|].
  apply dict_get_In_keys in H10. destruct H10 as [v Hv].
  exact (dict_set_keys_present _ _ _ _ Hv).
Qed.

Example add_book_overflow_small :
  Library.add_book "Cosmos" "Sagan" "Science" overflowing =
    (Return (Book.mk "BOOK_10000" "Cosmos" "Sagan" "Science" true),
     snd (Library.add_book "Cosmos" "Sagan" "Science" overflowing)) /\
  dict_keys (Library.books (snd (Library.add_book "Cosmos" "Sagan" "Science" overflowing)))
  = ["BOOK_9999"; "BOOK_10000"] /\
  holders "BOOK_10000" (snd (Library.add_book "Cosmos" "Sagan" "Science" overflowing))
  = [Borrower.mk "USER_0001" "Alice" "a@x.com" ["BOOK_10000"]].
Proof. repeat split. Qed.

(** *** The ten thousand and first book *)

Lemma format_04d_int (n : Z) :
  (0 <= n <= 9999)%Z ->
  four_digits (Py.format_04d n) = true /\ Py.int (Py.format_04d n) = Return n.
Proof. intros Hn. destruct (format_04d_ok n Hn) as (H4 & Hi & _). now split. Qed.

Lemma format_04d_le (i j : Z) :
  (0 <= i <= j)%Z -> (j <= 9999)%Z ->
  str_le (Py.format_04d i) (Py.format_04d j).
Proof.
  intros Hij Hj.
  destruct (String.leb_total (Py.format_04d i) (Py.format_04d j)) as [H | H];
    [exact H|].
  destruct (Z.eq_dec i j) as [-> | Hne]; [apply leb_refl|].
  exfalso. apply (format_04d_increasing i j); trivial. lia.
Qed.

Lemma numbered_keys_well_formed (n : nat) (id : string) :
  (Z.of_nat n <= 9999)%Z -> In id (numbered_keys n) -> well_formed_id "BOOK" id.
Proof.
  intros Hn Hin. apply in_map_iff in Hin. destruct Hin as (k & <- & Hk).
  apply in_seq in Hk. exists (Py.format_04d (Z.of_nat k)).
  split; [|reflexivity]. apply format_04d_int. lia.
Qed.

Lemma keys_sorted (len start : nat) :
  (Z.of_nat (start + len) <= 10000)%Z ->
  StronglySorted str_le (map (fun k => book_key (Z.of_nat k)) (seq start len)).
Proof.
  revert start. induction len as [|len IH]; intros start H; simpl; constructor.
  - apply IH. lia.
  - apply Forall_forall. intros x Hx. apply in_map_iff in Hx.
    destruct Hx as (k & <- & Hk). apply in_seq in Hk.
    apply str_le_id. apply format_04d_le; lia.
Qed.

Lemma numbered_keys_succ (n : nat) :
  numbered_keys (S n) = (numbered_keys n ++ [book_key (Z.of_nat (S n))])%list.
Proof. unfold numbered_keys. now rewrite seq_S, map_app. Qed.

Lemma generate_id_numbered (n : nat) :
  (Z.of_nat n <= 9999)%Z ->
  fst (generate_id "BOOK" (numbered_keys n)) = Return (book_key (Z.of_nat (S n))).
Proof.
  intros Hn. unfold generate_id. cbn [fst].
  rewrite sort_of_sorted by (apply keys_sorted; lia).
  destruct n as [|m]; [reflexivity|].
  rewrite numbered_keys_succ.
  destruct (numbered_keys m ++ [book_key (Z.of_nat (S m))])%list eqn:E;
    [now destruct (numbered_keys m)|].
  rewrite <- E, last_last. unfold book_key at 1.
  destruct (format_04d_int (Z.of_nat (S m))) as [H4 Hi]; [lia|].
  rewrite (last4_id "BOOK" _ H4), Hi. cbn [rmap rbind]. unfold book_key.
  replace (Z.of_nat (S (S m))) with (Z.of_nat (S m) + 1)%Z by lia. reflexivity.
Qed.

Lemma dict_set_keys_absent {V} (k : string) (v : V) (d : dict V) :
  ~ In k (dict_keys d) -> dict_keys (dict_set k v d) = (dict_keys d ++ [k])%list.
Proof.
  induction d as [|[k' v'] d IH]; simpl; [reflexivity|]. intros H.
  destruct (String.eqb k k') eqn:E.
  - apply String.eqb_eq in E. subst. tauto.
  - simpl. f_equal. apply IH. tauto.
Qed.

Lemma add_book_numbered (n : nat) (title author genre : string) (self : Library.t) :
  (Z.of_nat n <= 9999)%Z ->
  Book.valid_genre genre = true ->
  dict_keys (Library.books self) = numbered_keys n ->
  dict_keys (Library.books (Library.exec (Library.add_book title author genre) self)) =
  numbered_keys (S n).
Proof.
  intros Hn Ev Ek. unfold Library.exec.
  pose proof (generate_id_numbered n Hn) as Eg. rewrite <- Ek in Eg.
  rewrite (add_book_books _ _ _ _ _ Eg Ev), numbered_keys_succ, <- Ek.
  apply dict_set_keys_absent.
  destruct (generate_id_fresh "BOOK" (dict_keys (Library.books self)))
    as (new_id & Eg' & Hnew).
  - rewrite Ek. intros id. now apply numbered_keys_well_formed.
  - congruence.
Qed.

Lemma add_books_keys (n : nat) (name title author genre : string) :
  (Z.of_nat n <= 10000)%Z ->
  Book.valid_genre genre = true ->
  dict_keys (Library.books (add_books n title author genre
                              (Library.init name None None))) =
  numbered_keys n.
Proof.
  intros Hn Ev. induction n as [|n IH]; [reflexivity|].
  unfold add_books. cbn [Nat.iter]. apply add_book_numbered; [lia | exact Ev |].
  apply IH. lia.
Qed.

(** C10, where the code goes wrong. After ten thousand [add_book] calls on
    a new library, one more call is given [BOOK_10000] a second time: the
    book already stored under that key is replaced and the collection keeps
    its ten thousand keys. *)
Theorem add_book_reuses_id (name title author genre : string) :
  Book.valid_genre genre = true ->
  let self := add_books (Z.to_nat 10000) title author genre
                        (Library.init name None None) in
  let after := snd (Library.add_book "Cosmos" "Sagan" "Science" self) in
  In "BOOK_10000" (dict_keys (Library.books self)) /\
  fst (generate_id "BOOK" (dict_keys (Library.books self))) = Return "BOOK_10000" /\
  dict_keys (Library.books after) = dict_keys (Library.books self) /\
  dict_get "BOOK_10000" (Library.books after) =
    Some (Obj (Book.mk "BOOK_10000" "Cosmos" "Sagan" "Science" true)).
Proof.
  intros Ev self.
  assert (Ek : dict_keys (Library.books self) = numbered_keys (Z.to_nat 10000)).
  { apply add_books_keys; [lia | exact Ev]. }
  clearbody self. intros after. subst after.
  assert (Hkey : forall k, (1 <= k <= 10000)%Z ->
                           In (book_key k) (dict_keys (Library.books self))).
  { intros k Hk. rewrite Ek. apply in_map_iff. exists (Z.to_nat k).
    split; [f_equal; lia | apply in_seq; lia]. }
  assert (H10 : In "BOOK_10000" (dict_keys (Library.books self)))
    by exact (Hkey 10000%Z ltac:(lia)).
  assert (H9 : In "BOOK_9999" (dict_keys (Library.books self)))
    by exact (Hkey 9999%Z ltac:(lia)).
  assert (Hmax : forall k, In k (dict_keys (Library.books self)) ->
                           str_le k "BOOK_9999").
  { intros k Hk. rewrite Ek in Hk. apply in_map_iff in Hk.
    destruct Hk as (i & <- & Hi). apply in_seq in Hi.
    destruct (Z.eq_dec (Z.of_nat i) 10000) as [-> | Hne]; [reflexivity|].
    change "BOOK_9999" with (book_key 9999). apply str_le_id.
    apply format_04d_le; lia. }
  destruct (add_book_overflow "Cosmos" "Sagan" "Science" self eq_refl H9 H10 Hmax)
    as (Eg & Eb & Ekeys).
  split; [exact H10|]. split; [exact Eg|]. split; [exact Ekeys|].
  rewrite Eb. apply dict_get_set_same.
Qed.

Lemma add_book_reuses_id_witness :
  let self := add_books (Z.to_nat 10000) "Emma" "Austen" "Fiction"
                        (Library.init "City" None None) in
  In "BOOK_10000" (dict_keys (Library.books self)) /\
  fst (generate_id "BOOK" (dict_keys (Library.books self))) = Return "BOOK_10000".
Proof.
  destruct (add_book_reuses_id "City" "Emma" "Austen" "Fiction" eq_refl)
    as (H10 & Eg & _).
  split; [exact H10 | exact Eg].
Defined.

(** ** The scenario of the specification, run on the model *)

Example scenario_walkthrough :
  let fresh := Library.init "City" None None in
  let s1 := snd (Library.add_book "Dune" "Herbert" "Science" fresh) in
  let s2 := snd (Library.add_borrower "Alice" "a@x.com" s1) in
  let s3 := snd (Library.checkout_book "BOOK_0001" "USER_0001" s2) in
  let s4 := snd (Library.return_book "BOOK_0001" "USER_0001" s3) in
  fst (Library.add_book "Dune" "Herbert" "Science" fresh) = Return dune /\
  fst (Library.add_borrower "Alice" "a@x.com" s1) = Return alice /\
  fst (Library.checkout_book "BOOK_0001" "USER_0001" s2) = Return true /\
  fst (Library.get_available_books s3) = Return [] /\
  fst (Library.get_borrower_books "USER_0001" s3) = Return ["BOOK_0001"] /\
  fst (Library.checkout_book "BOOK_0001" "USER_0001" s3) = Return false /\
  fst (Library.return_book "BOOK_0001" "USER_0001" s3) = Return true /\
  fst (Library.get_available_books s4) = Return [dune] /\
  fst (Library.get_borrower_books "USER_0001" s4) = Return [] /\
  fst (Library.get_borrower_books "USER_0404" s4) = Raise KeyError.
Proof. repeat split. Qed.

(* ================================================================== *)
(** * Further properties of the code *)

(** ** [get_available_books] *)

Lemma available_loop_objects (d : dict (stored Book.t)) (acc : list Book.t) :
  all_objects d = true ->
  Library.available_loop (dict_values d) acc =
  Return (acc ++ filter Book.available (objects d))%list.
Proof.
  revert acc. induction d as [|[k e] d IH]; intros acc H; simpl.
  - now rewrite app_nil_r.
  - apply andb_true_iff in H. destruct H as [H1 H2].
    destruct e as [b|j]; [|discriminate]. simpl.
    unfold dict_values in IH. rewrite (IH _ H2).
    destruct (Book.available b); [|reflexivity].
    now rewrite <- app_assoc.
Qed.

Lemma available_loop_raw (d : dict (stored Book.t)) (acc : list Book.t) :
  all_objects d = false ->
  Library.available_loop (dict_values d) acc = Raise AttributeError.
Proof.
  revert acc. induction d as [|[k e] d IH]; intros acc H; simpl in *;
    [discriminate|].
  destruct e as [b|j]; [|reflexivity]. simpl in *.
  unfold dict_values in IH. now rewrite IH.
Qed.

(** X1. [get_available_books] returns the stored books whose [available]
    flag is set, in the order of the collection, and changes nothing; when
    the collection holds a decoded mapping instead of a [Book] it raises
    [AttributeError], wherever that entry sits. *)
Theorem get_available_books_spec (self : Library.t) :
  (all_objects (Library.books self) = true ->
   Library.get_available_books self =
     (Return (filter Book.available (objects (Library.books self))), self)) /\
  (all_objects (Library.books self) = false ->
   Library.get_available_books self = (Raise AttributeError, self)).
Proof.
  unfold Library.get_available_books, Library.eval. split; intros H.
  - now rewrite (available_loop_objects _ [] H).
  - now rewrite (available_loop_raw _ [] H).
Qed.

Lemma get_available_books_spec_witness :
  Library.get_available_books scenario = (Return [dune], scenario) /\
  Library.get_available_books (Library.init "City" (Some dune_file) None) =
    (Raise AttributeError, Library.init "City" (Some dune_file) None).
Proof.
  split.
  - exact (proj1 (get_available_books_spec scenario) eq_refl).
  - exact (proj2 (get_available_books_spec (Library.init "City" (Some dune_file) None))
                 eq_refl).
Defined.

(** ** [get_statistics] *)

Lemma dict_set_NoDup {V} (k : string) (v : V) (d : dict V) :
  NoDup (dict_keys d) -> NoDup (dict_keys (dict_set k v d)).
Proof.
  intros H. destruct (dict_get k d) as [v0|] eqn:E.
  - now rewrite (dict_set_keys_present k v v0 d E).
  - rewrite dict_set_keys_absent.
    + apply NoDup_app; [exact H | repeat constructor; intros [] |].
      intros x Hx [<- | []]. apply dict_get_In_keys in Hx.
      destruct Hx as [v0 Hv]. congruence.
    + intros Hin. apply dict_get_In_keys in Hin. destruct Hin as [v0 Hv].
      congruence.
Qed.

Lemma count_of_set (g k : string) (n : Z) (gc : dict Z) :
  count_of g (dict_set k n gc) = if String.eqb k g then n else count_of g gc.
Proof.
  unfold count_of. destruct (String.eqb k g) eqn:E.
  - apply String.eqb_eq in E. subst. now rewrite dict_get_set_same.
  - apply String.eqb_neq in E. rewrite dict_get_set_other by congruence.
    reflexivity.
Qed.

Lemma genre_loop_counts (d : dict (stored Book.t)) (gc : dict Z) :
  all_objects d = true ->
  NoDup (dict_keys gc) ->
  (forall g n, dict_get g gc = Some n -> (0 < n)%Z) ->
  exists gc',
    Library.genre_loop (dict_values d) gc = Return gc' /\
    NoDup (dict_keys gc') /\
    (forall g n, dict_get g gc' = Some n -> (0 < n)%Z) /\
    (forall g, count_of g gc' = (count_of g gc + tally g (objects d))%Z).
Proof.
  revert gc. induction d as [|[k e] d IH]; intros gc H Hnd Hpos.
  - exists gc. repeat split; trivial. intros g. unfold tally. simpl. lia.
  - simpl in H. apply andb_true_iff in H. destruct H as [H1 H2].
    destruct e as [b|j]; [|discriminate]. simpl.
    fold (count_of (Book.genre b) gc).
    assert (Hge : (0 <= count_of (Book.genre b) gc)%Z).
    { unfold count_of. destruct (dict_get (Book.genre b) gc) eqn:E; [|lia].
      specialize (Hpos _ _ E). lia. }
    destruct (IH (dict_set (Book.genre b) (count_of (Book.genre b) gc + 1)%Z gc) H2)
      as (gc' & E & Hnd' & Hpos' & Hc).
    + now apply dict_set_NoDup.
    + intros g n. destruct (string_dec (Book.genre b) g) as [<- | Hne].
      * rewrite dict_get_set_same. intros [= <-]. lia.
      * rewrite dict_get_set_other by congruence. apply Hpos.
    + exists gc'. unfold dict_values in E. split; [exact E|].
      split; [exact Hnd'|]. split; [exact Hpos'|].
      intros g. rewrite Hc, count_of_set. unfold tally. simpl.
      destruct (String.eqb (Book.genre b) g) eqn:Eg; simpl.
      * apply String.eqb_eq in Eg. subst g. lia.
      * lia.
Qed.

Lemma all_objects_length {T} (d : dict (stored T)) :
  all_objects d = true -> List.length (objects d) = List.length d.
Proof.
  induction d as [|[k e] d IH]; simpl; [reflexivity|]. intros H.
  apply andb_true_iff in H. destruct H as [H1 H2].
  destruct e; [|discriminate]. simpl. now rewrite IH.
Qed.

Lemma filter_split_length {A} (f : A -> bool) (l : list A) :
  List.length (filter f l) + List.length (filter (fun x => negb (f x)) l) =
  List.length l.
Proof.
  induction l as [|x l IH]; simpl; [reflexivity|].
  destruct (f x); simpl; lia.
Qed.

(** X2. On a collection of [Book] objects [get_statistics] returns, without
    changing anything: the number of books; the number that are available;
    as [checked_out] the number that are not; the number of borrowers; and a
    genre table with one entry per genre that occurs, holding how many books
    have it, and no entry for a genre no book has. On a collection holding
    a decoded mapping it raises [AttributeError]. *)
Theorem get_statistics_spec (self : Library.t) :
  (all_objects (Library.books self) = true ->
   exists st,
     Library.get_statistics self = (Return st, self) /\
     Library.total_books st = Z.of_nat (List.length (Library.books self)) /\
     Library.available_books st =
       Z.of_nat (List.length (filter Book.available (objects (Library.books self)))) /\
     Library.checked_out st =
       Z.of_nat (List.length (filter (fun b => negb (Book.available b))
                                     (objects (Library.books self)))) /\
     Library.total_borrowers st = Z.of_nat (List.length (Library.borrowers self)) /\
     NoDup (dict_keys (Library.books_by_genre st)) /\
     (forall g,
         dict_get g (Library.books_by_genre st) =
         if (tally g (objects (Library.books self)) =? 0)%Z then None
         else Some (tally g (objects (Library.books self))))) /\
  (all_objects (Library.books self) = false ->
   Library.get_statistics self = (Raise AttributeError, self)).
Proof.
  split; intros H.
  - destruct (genre_loop_counts (Library.books self) [] H) as (gc & E & Hnd & Hpos & Hc);
      [constructor | discriminate |].
    unfold Library.get_statistics, Library.bind, Library.gets, Library.ret.
    unfold Library.get_available_books, Library.eval.
    rewrite (available_loop_objects _ [] H), E. cbn [app].
    eexists. split; [reflexivity|]. cbn [Library.total_books Library.available_books
      Library.checked_out Library.total_borrowers Library.books_by_genre].
    split; [reflexivity|]. split; [reflexivity|]. split.
    + pose proof (filter_split_length Book.available (objects (Library.books self))).
      rewrite (all_objects_length _ H) in *. lia.
    + split; [reflexivity|]. split; [exact Hnd|].
      intros g. specialize (Hc g). unfold count_of in Hc. simpl in Hc.
      destruct (dict_get g gc) as [n|] eqn:Eg.
      * specialize (Hpos g n Eg).
        destruct (Z.eqb_spec (tally g (objects (Library.books self))) 0);
          [lia | now rewrite Hc].
      * destruct (Z.eqb_spec (tally g (objects (Library.books self))) 0);
          [reflexivity | lia].
  - unfold Library.get_statistics, Library.bind, Library.gets.
    unfold Library.get_available_books, Library.eval.
    now rewrite (available_loop_raw _ [] H).
Qed.

Lemma get_statistics_spec_witness :
  exists st,
    Library.get_statistics scenario_out = (Return st, scenario_out) /\
    Library.checked_out st = 1%Z /\
    dict_get "Science" (Library.books_by_genre st) = Some 1%Z /\
    dict_get "History" (Library.books_by_genre st) = None.
Proof.
  destruct (proj1 (get_statistics_spec scenario_out) eq_refl)
    as (st & E & _ & _ & Hout & _ & _ & Hg).
  exists st. split; [exact E|]. split; [exact Hout|].
  split; [exact (Hg "Science") | exact (Hg "History")].
Defined.

(** ** A checkout followed by the matching return *)

Lemma dict_set_twice {V} (k : string) (v v' : V) (d : dict V) :
  dict_set k v (dict_set k v' d) = dict_set k v d.
Proof.
  induction d as [|[k' w] d IH]; simpl.
  - now rewrite String.eqb_refl.
  - destruct (String.eqb k k') eqn:E; simpl.
    + now rewrite String.eqb_refl.
    + now rewrite E, IH.
Qed.

Lemma dict_set_same {V} (k : string) (v : V) (d : dict V) :
  dict_get k d = Some v -> dict_set k v d = d.
Proof.
  induction d as [|[k' w] d IH]; simpl; [discriminate|].
  destruct (String.eqb k k') eqn:E.
  - apply String.eqb_eq in E. now intros [= ->]; subst.
  - intros H. now rewrite IH.
Qed.

Lemma remove_first_last (x : string) (l : list string) :
  contains x l = false -> remove_first x (l ++ [x]) = l.
Proof.
  unfold contains. induction l as [|y l IH]; simpl.
  - now rewrite String.eqb_refl.
  - intros H. apply orb_false_iff in H. destruct H as [E H].
    rewrite E. now rewrite IH.
Qed.

Lemma contains_last (x : string) (l : list string) : contains x (l ++ [x]) = true.
Proof.
  unfold contains. rewrite existsb_app. simpl.
  now rewrite String.eqb_refl, orb_true_r.
Qed.

(** X3. When a borrower who does not yet hold the book checks it out and
    then returns it, both calls return [True] and the two collections are
    exactly what they were before: same books with the same flags, same
    borrowers with the same lists in the same order; the files hold that
    state. *)
Theorem checkout_then_return (self : Library.t) (book_id borrower_id : string)
  (b : Book.t) (u : Borrower.t) :
  typed self ->
  dict_get book_id (Library.books self) = Some (Obj b) ->
  Book.available b = true ->
  dict_get borrower_id (Library.borrowers self) = Some (Obj u) ->
  List.length (Borrower.borrowed_books u) < 3 ->
  contains book_id (Borrower.borrowed_books u) = false ->
  exists out back,
    Library.checkout_book book_id borrower_id self = (Return true, out) /\
    Library.return_book book_id borrower_id out = (Return true, back) /\
    Library.books back = Library.books self /\
    Library.borrowers back = Library.borrowers self /\
    persisted back.
Proof.
  intros Ht Eb Ea Eu Hlen Hc.
  assert (Ecan : Borrower.can_borrow u = true) by (now apply Nat.ltb_lt).
  destruct (save_then_true (checked_out book_id borrower_id b u self))
    as (out & Eout & Ob & Ou & _ & _); [now apply typed_checked_out|].
  assert (Tout : typed out).
  { destruct (typed_checked_out book_id borrower_id b u self Ht) as [T1 T2].
    split; [now rewrite Ob | now rewrite Ou]. }
  simpl in Ob, Ou.
  set (b' := Book.set_available false b) in *.
  set (u' := Borrower.set_borrowed_books
               (Borrower.borrowed_books u ++ [book_id])%list u) in *.
  destruct (save_then_true (returned book_id borrower_id b' u' out))
    as (back & Eback & Bb & Bu & _ & Hp); [now apply typed_returned|].
  exists out, back. split; [|split; [|split; [|split]]].
  - rewrite checkout_book_eq, Eb, Ea, Eu, Ecan. exact Eout.
  - rewrite return_book_eq, Ob, Ou, !dict_get_set_same.
    unfold u' at 1. cbn [Borrower.borrowed_books Borrower.set_borrowed_books].
    rewrite contains_last. exact Eback.
  - rewrite Bb. simpl. rewrite Ob, dict_set_twice.
    apply dict_set_same. rewrite Eb. do 2 f_equal.
    destruct b as [i t a g v]. simpl in *. now subst.
  - rewrite Bu. simpl. rewrite Ou, dict_set_twice.
    apply dict_set_same. rewrite Eu. do 2 f_equal.
    unfold u'. cbn [Borrower.borrowed_books Borrower.set_borrowed_books].
    rewrite (remove_first_last _ _ Hc). now destruct u.
  - exact Hp.
Qed.

Lemma checkout_then_return_witness :
  exists out back,
    Library.checkout_book "BOOK_0001" "USER_0001" scenario = (Return true, out) /\
    Library.return_book "BOOK_0001" "USER_0001" out = (Return true, back) /\
    Library.books back = Library.books scenario /\
    Library.borrowers back = Library.borrowers scenario.
Proof.
  destruct (checkout_then_return scenario "BOOK_0001" "USER_0001" dune alice
              scenario_typed eq_refl eq_refl eq_refl) as (out & back & H1 & H2 & H3 & H4 & _).
  - simpl. lia.
  - reflexivity.
  - exists out, back. repeat split; assumption.
Defined.

(** ** What a successful checkout looks like from outside *)

Lemma filter_length_sum {A} (f : A -> bool) (l : list A) :
  List.length (filter f l) = list_sum (map (fun x => if f x then 1 else 0) l).
Proof.
  induction l as [|x l IH]; simpl; [reflexivity|].
  destruct (f x); simpl; now rewrite IH.
Qed.

(** X4. After a successful [checkout_book], [get_borrower_books] for that
    borrower returns the former list with the book id added at the end, and
    [get_available_books] returns one book fewer, all of them books it
    returned before. For an id that is not a key of [borrowers],
    [get_borrower_books] raises [KeyError] (it does not return an empty
    list) and leaves the state alone. *)
Theorem checkout_book_observed (self : Library.t) (book_id borrower_id : string)
  (b : Book.t) (u : Borrower.t) :
  typed self ->
  dict_get book_id (Library.books self) = Some (Obj b) ->
  Book.available b = true ->
  dict_get borrower_id (Library.borrowers self) = Some (Obj u) ->
  List.length (Borrower.borrowed_books u) < 3 ->
  (exists out before after,
      Library.checkout_book book_id borrower_id self = (Return true, out) /\
      Library.get_borrower_books borrower_id out =
        (Return (Borrower.borrowed_books u ++ [book_id])%list, out) /\
      Library.get_available_books self = (Return before, self) /\
      Library.get_available_books out = (Return after, out) /\
      List.length before = S (List.length after) /\
      (forall x, In x after -> In x before)) /\
  (forall unknown,
      dict_get unknown (Library.borrowers self) = None ->
      Library.get_borrower_books unknown self = (Raise KeyError, self)).
Proof.
  intros Ht Eb Ea Eu Hlen. split.
  - assert (Ecan : Borrower.can_borrow u = true) by (now apply Nat.ltb_lt).
    destruct (save_then_true (checked_out book_id borrower_id b u self))
      as (out & Eout & Ob & Ou & _ & _); [now apply typed_checked_out|].
    simpl in Ob, Ou.
    assert (Tb : all_objects (Library.books out) = true).
    { rewrite Ob. apply all_objects_set. apply Ht. }
    exists out, (filter Book.available (objects (Library.books self))),
      (filter Book.available (objects (Library.books out))).
    split; [rewrite checkout_book_eq, Eb, Ea, Eu, Ecan; exact Eout|].
    split.
    { unfold Library.get_borrower_books. unfold_method. unfold Library.eval.
      cbv beta. rewrite Ou, dict_get_set_same. reflexivity. }
    split.
    { unfold Library.get_available_books, Library.eval.
      now rewrite (available_loop_objects _ [] (proj1 Ht)). }
    split.
    { unfold Library.get_available_books, Library.eval.
      now rewrite (available_loop_objects _ [] Tb). }
    split.
    + rewrite !filter_length_sum, Ob.
      pose proof (objects_sum_set (fun x => if Book.available x then 1 else 0)
                    book_id b (Book.set_available false b) _ Eb) as Hs.
      simpl in Hs. rewrite Ea in Hs. lia.
    + intros x Hx. apply filter_In in Hx. destruct Hx as [Hx Hax].
      rewrite Ob in Hx. apply objects_set_In in Hx.
      destruct Hx as [-> | Hx]; [discriminate Hax|].
      apply filter_In. now split.
  - intros unknown Hn. unfold Library.get_borrower_books. unfold_method.
    unfold Library.eval. cbv beta. now rewrite Hn.
Qed.

Lemma checkout_book_observed_witness :
  exists out,
    Library.checkout_book "BOOK_0001" "USER_0001" scenario = (Return true, out) /\
    Library.get_borrower_books "USER_0001" out = (Return ["BOOK_0001"], out) /\
    Library.get_borrower_books "USER_0404" scenario = (Raise KeyError, scenario).
Proof.
  destruct (checkout_book_observed scenario "BOOK_0001" "USER_0001" dune alice
              scenario_typed eq_refl eq_refl eq_refl)
    as [(out & before & after & H1 & H2 & _) Hk].
  - simpl. lia.
  - exists out. split; [exact H1|]. split; [exact H2|].
    apply Hk. reflexivity.
Defined.

(** ** [save] and what it leaves in the files *)

Lemma to_dicts_keys {T} (f : T -> dict json) (d : dict (stored T)) (doc : dict json) :
  to_dicts f d = Return doc -> dict_keys doc = dict_keys d.
Proof.
  revert doc. induction d as [|[k e] d IH]; intros doc; simpl.
  - now intros [= <-].
  - destruct e as [o|j]; [|discriminate]. simpl.
    destruct (to_dicts f d) as [r|x]; [|discriminate]. simpl.
    intros [= <-]. simpl. f_equal. now apply IH.
Qed.

Lemma to_dicts_get {T} (f : T -> dict json) (d : dict (stored T)) (doc : dict json)
  (k : string) (o : T) :
  to_dicts f d = Return doc -> dict_get k d = Some (Obj o) ->
  dict_get k doc = Some (JDict (f o)).
Proof.
  revert doc. induction d as [|[k' e] d IH]; intros doc; simpl; [discriminate|].
  destruct e as [o'|j]; [|discriminate]. simpl.
  destruct (to_dicts f d) as [r|x]; [|discriminate]. simpl.
  intros [= <-]. simpl. destruct (String.eqb k k').
  - now intros [= ->].
  - now apply IH.
Qed.

Lemma to_dicts_raw {T} (f : T -> dict json) (d : dict (stored T)) :
  all_objects d = false -> to_dicts f d = Raise AttributeError.
Proof.
  induction d as [|[k e] d IH]; simpl; [discriminate|].
  destruct e as [o|j]; [|reflexivity]. simpl. intros H. now rewrite IH.
Qed.

Lemma book_round_trip (b : Book.t) :
  Book.valid_genre (Book.genre b) = true -> Book.from_dict (Book.to_dict b) = Return b.
Proof.
  destruct b as [i t a g v]. intros E. cbn -[Book.valid_genre] in *. now rewrite E.
Qed.

Lemma borrower_round_trip (u : Borrower.t) :
  Borrower.from_dict (Borrower.to_dict u) = Return u.
Proof.
  destruct u as [i n e l]. cbn. rewrite as_str_list_map. cbn.
  unfold Borrower.init. now destruct l.
Qed.

(** X5. On collections of objects [save] returns, leaves both collections
    as they are, and writes two files that list the same ids in the same
    order as the collections; under each id the file holds the serialized
    form of the object stored under that id, from which [from_dict] rebuilds
    the object (for a book, when its genre is one of [GENRES]). *)
Theorem save_writes_collections (self : Library.t) :
  typed self ->
  exists after books_doc borrowers_doc,
    Library.save self = (Return tt, after) /\
    Library.books after = Library.books self /\
    Library.borrowers after = Library.borrowers self /\
    Library.books_file after = Some books_doc /\
    Library.borrowers_file after = Some borrowers_doc /\
    dict_keys books_doc = dict_keys (Library.books self) /\
    dict_keys borrowers_doc = dict_keys (Library.borrowers self) /\
    (forall k b,
        dict_get k (Library.books self) = Some (Obj b) ->
        dict_get k books_doc = Some (JDict (Book.to_dict b)) /\
        (Book.valid_genre (Book.genre b) = true ->
         Book.from_dict (Book.to_dict b) = Return b)) /\
    (forall k u,
        dict_get k (Library.borrowers self) = Some (Obj u) ->
        dict_get k borrowers_doc = Some (JDict (Borrower.to_dict u)) /\
        Borrower.from_dict (Borrower.to_dict u) = Return u).
Proof.
  intros Ht. destruct (save_typed self Ht) as (bj & uj & Ebj & Euj & E).
  eexists; exists bj, uj. split; [exact E|]. simpl.
  repeat (split; [reflexivity|]).
  split; [exact (to_dicts_keys _ _ _ Ebj)|].
  split; [exact (to_dicts_keys _ _ _ Euj)|]. split.
  - intros k b Hk. split; [exact (to_dicts_get _ _ _ _ _ Ebj Hk)|].
    apply book_round_trip.
  - intros k u Hk. split; [exact (to_dicts_get _ _ _ _ _ Euj Hk)|].
    apply borrower_round_trip.
Qed.

Lemma save_writes_collections_witness :
  exists after,
    Library.save scenario_out = (Return tt, after) /\
    Library.books_file after =
      Some [("BOOK_0001", JDict (Book.to_dict (Book.set_available false dune)))].
Proof.
  destruct (save_writes_collections scenario_out scenario_out_typed)
    as (after & bd & ud & E & _ & _ & Eb & _ & Kb & _ & Hb & _).
  exists after. split; [exact E|]. rewrite Eb. f_equal.
  destruct (Hb "BOOK_0001" (Book.set_available false dune) eq_refl) as [Hg _].
  destruct bd as [|[k j] [|x bd]]; try discriminate Kb.
  injection Kb as ->. simpl in Hg. now injection Hg as ->.
Defined.

(** X6. [save] writes the books file before it looks at the borrowers. When
    [books] holds objects but [borrowers] holds a decoded mapping, it raises
    [AttributeError] after the books file has been rewritten and with the
    borrowers file untouched; when [books] itself holds a decoded mapping it
    raises before writing anything. *)
Theorem save_stops_half_way (self : Library.t) :
  (all_objects (Library.books self) = true ->
   all_objects (Library.borrowers self) = false ->
   exists books_doc,
     to_dicts Book.to_dict (Library.books self) = Return books_doc /\
     Library.save self =
       (Raise AttributeError, Library.write_books_file books_doc self)) /\
  (all_objects (Library.books self) = false ->
   Library.save self = (Raise AttributeError, self)).
Proof.
  split.
  - intros Hb Hu. destruct (to_dicts_all_objects Book.to_dict _ Hb) as [bj Ebj].
    exists bj. split; [exact Ebj|].
    unfold Library.save. unfold_method. rewrite Ebj. simpl.
    now rewrite (to_dicts_raw Borrower.to_dict _ Hu).
  - intros Hb. unfold Library.save. unfold_method.
    now rewrite (to_dicts_raw Book.to_dict _ Hb).
Qed.

Lemma save_stops_half_way_witness :
  let self := Library.init "City" None (Some alice_file) in
  let after := snd (Library.add_book "Dune" "Herbert" "Science" self) in
  fst (Library.add_book "Dune" "Herbert" "Science" self) = Raise AttributeError /\
  Library.books_file after = Some dune_file /\
  Library.borrowers_file after = Some alice_file /\
  (exists books_doc,
      to_dicts Book.to_dict (Library.books after) = Return books_doc /\
      Library.save after =
        (Raise AttributeError, Library.write_books_file books_doc after)) /\
  Library.save (Library.init "City" (Some dune_file) None) =
    (Raise AttributeError, Library.init "City" (Some dune_file) None).
Proof.
  split; [reflexivity|]. split; [reflexivity|]. split; [reflexivity|]. split.
  - exact (proj1 (save_stops_half_way
                    (snd (Library.add_book "Dune" "Herbert" "Science"
                            (Library.init "City" None (Some alice_file)))))
                 eq_refl eq_refl).
  - exact (proj2 (save_stops_half_way (Library.init "City" (Some dune_file) None))
                 eq_refl).
Defined.

(** ** A library that started on an empty data directory *)

Lemma save_then_ret {A} (x : A) (self : Library.t) :
  typed self ->
  exists after,
    Library.bind Library.save (fun _ => Library.ret x) self = (Return x, after) /\
    Library.books after = Library.books self /\
    Library.borrowers after = Library.borrowers self /\
    persisted after.
Proof.
  intros H. destruct (save_typed self H) as (bj & uj & Ebj & Euj & E).
  unfold Library.bind, Library.ret. rewrite E.
  eexists. split; [reflexivity|]. simpl. repeat split; trivial.
  exists bj, uj. simpl. tauto.
Qed.

Lemma updated_typed (self mid : Library.t) :
  sound self -> books_updated self mid -> borrowers_updated self mid -> typed mid.
Proof.
  intros ([Tb Tu] & _) Hb Hu. split.
  - destruct Hb as [-> | (k & b & -> & _)]; [exact Tb | now apply all_objects_set].
  - destruct Hu as [-> | (k & u & -> & _)]; [exact Tu | now apply all_objects_set].
Qed.

Lemma updated_sound (self mid after : Library.t) :
  sound self -> books_updated self mid -> borrowers_updated self mid ->
  Library.books after = Library.books mid ->
  Library.borrowers after = Library.borrowers mid ->
  persisted after ->
  sound after.
Proof.
  intros Hs Hb Hu Eb Eu Hp.
  pose proof (updated_typed self mid Hs Hb Hu) as [Tb Tu].
  destruct Hs as (_ & [Fb Fu] & Hg & Nb & Nu & _).
  unfold sound, typed, filed_by_id, genres_valid. rewrite Eb, Eu.
  split; [now split|]. split; [split|].
  - destruct Hb as [-> | (k & b & -> & Hid & _)]; [exact Fb|].
    intros k' b'. destruct (string_dec k k') as [<- | Hne].
    + rewrite dict_get_set_same. now intros [= <-].
    + rewrite dict_get_set_other by congruence. apply Fb.
  - destruct Hu as [-> | (k & u & -> & Hid)]; [exact Fu|].
    intros k' u'. destruct (string_dec k k') as [<- | Hne].
    + rewrite dict_get_set_same. now intros [= <-].
    + rewrite dict_get_set_other by congruence. apply Fu.
  - split.
    + destruct Hb as [-> | (k & b & -> & _ & Hv)]; [exact Hg|].
      intros x Hx. apply objects_set_In in Hx.
      destruct Hx as [-> | Hx]; [exact Hv | now apply Hg].
    + split; [|split; [|now right]].
      * destruct Hb as [-> | (k & b & -> & _)]; [exact Nb | now apply dict_set_NoDup].
      * destruct Hu as [-> | (k & u & -> & _)]; [exact Nu | now apply dict_set_NoDup].
Qed.

Lemma sound_saved {A} (x : A) (self mid : Library.t) :
  sound self -> books_updated self mid -> borrowers_updated self mid ->
  sound (snd (Library.bind Library.save (fun _ => Library.ret x) mid)).
Proof.
  intros Hs Hb Hu.
  destruct (save_then_ret x mid (updated_typed self mid Hs Hb Hu))
    as (after & E & Eb & Eu & Hp).
  rewrite E. exact (updated_sound self mid after Hs Hb Hu Eb Eu Hp).
Qed.

Lemma sound_step (self : Library.t) (c : Library.call) :
  sound self -> sound (Library.step self c).
Proof.
  intros Hs. pose proof Hs as ([Tb Tu] & [Fb Fu] & Hg & _).
  destruct c as [t a g | n e | bid uid | bid uid]; simpl; unfold Library.exec.
  - unfold Library.add_book. unfold_method. cbv beta.
    destruct (fst (generate_id "BOOK" (dict_keys (Library.books self))))
      as [new_id|x]; [|exact Hs].
    unfold Book.init. destruct (Book.valid_genre g) eqn:Ev; [|exact Hs].
    cbn [Book.book_id].
    apply (sound_saved _ self); [exact Hs | | now left].
    right. exists new_id, (Book.mk new_id t a g true). now repeat split.
  - unfold Library.add_borrower. unfold_method. cbv beta.
    destruct (fst (generate_id "USER" (dict_keys (Library.borrowers self))))
      as [new_id|x]; [|exact Hs].
    cbn [Borrower.borrower_id Borrower.init].
    apply (sound_saved _ self); [exact Hs | now left |].
    right. exists new_id, (Borrower.mk new_id n e []). now split.
  - rewrite checkout_book_eq.
    destruct (dict_get bid (Library.books self)) as [[b|j]|] eqn:Eb; try exact Hs.
    destruct (Book.available b); simpl; try exact Hs.
    destruct (dict_get uid (Library.borrowers self)) as [[u|j]|] eqn:Eu; try exact Hs.
    destruct (Borrower.can_borrow u); simpl; try exact Hs.
    apply (sound_saved _ self); [exact Hs | right | right].
    + exists bid, (Book.set_available false b). split; [reflexivity|].
      split; [exact (Fb _ _ Eb)|]. simpl. apply Hg.
      exact (dict_get_objects_In _ _ _ Eb).
    + eexists uid, _. split; [reflexivity|]. exact (Fu _ _ Eu).
  - rewrite return_book_eq.
    destruct (dict_get bid (Library.books self)) as [e|] eqn:Eb; try exact Hs.
    destruct (dict_get uid (Library.borrowers self)) as [[u|j]|] eqn:Eu; try exact Hs.
    destruct (contains bid (Borrower.borrowed_books u)); simpl; try exact Hs.
    destruct e as [b|j]; [|destruct (all_objects_get _ _ _ Tb Eb); discriminate].
    apply (sound_saved _ self); [exact Hs | right | right].
    + exists bid, (Book.set_available true b). split; [reflexivity|].
      split; [exact (Fb _ _ Eb)|]. simpl. apply Hg.
      exact (dict_get_objects_In _ _ _ Eb).
    + eexists uid, _. split; [reflexivity|]. exact (Fu _ _ Eu).
Qed.

Lemma sound_init (name : string) : sound (Library.init name None None).
Proof.
  split; [split; reflexivity|]. split; [split; intros k x; discriminate|].
  split; [intros b []|]. split; [constructor|]. split; [constructor|].
  left. repeat split.
Qed.

(** X7. A library constructed on an empty data directory keeps, whatever
    sequence of [add_book], [add_borrower], [checkout_book] and
    [return_book] calls follows, also the calls that refuse or raise: both
    collections hold objects; every book and every borrower is stored under
    its own id; every stored book has one of the five genres; and unless
    nothing was ever stored, the two files hold exactly the serialized
    current collections. *)
Theorem library_stays_sound (name : string) (calls : list Library.call) :
  let self := Library.run calls (Library.init name None None) in
  typed self /\ filed_by_id self /\ genres_valid self /\
  (untouched self \/ persisted self).
Proof.
  assert (H : sound (Library.run calls (Library.init name None None))).
  { generalize (sound_init name). generalize (Library.init name None None).
    induction calls as [|c calls IH]; intros self Hs; simpl; [exact Hs|].
    apply IH. now apply sound_step. }
  destruct H as (Ht & Hf & Hg & _ & _ & Hp). cbv zeta. tauto.
Qed.

(** ** [add_book] and [add_borrower] when they succeed *)

Lemma dict_set_absent {V} (k : string) (v : V) (d : dict V) :
  dict_get k d = None -> dict_set k v d = (d ++ [(k, v)])%list.
Proof.
  induction d as [|[k' w] d IH]; simpl; [reflexivity|].
  destruct (String.eqb k k'); [discriminate|]. intros H. now rewrite IH.
Qed.

Lemma not_In_keys_get {V} (k : string) (d : dict V) :
  ~ In k (dict_keys d) -> dict_get k d = None.
Proof.
  intros H. destruct (dict_get k d) eqn:E; [|reflexivity].
  exfalso. apply H, dict_get_In_keys. eauto.
Qed.

Lemma add_book_returns (title author genre new_id : string) (self : Library.t) :
  typed self ->
  fst (generate_id "BOOK" (dict_keys (Library.books self))) = Return new_id ->
  Book.valid_genre genre = true ->
  exists after,
    Library.add_book title author genre self =
      (Return (Book.mk new_id title author genre true), after) /\
    Library.books after =
      dict_set new_id (Obj (Book.mk new_id title author genre true))
               (Library.books self) /\
    Library.borrowers after = Library.borrowers self /\
    persisted after.
Proof.
  intros [Tb Tu] Eg Ev. unfold Library.add_book. unfold_method. cbv beta.
  rewrite Eg. unfold Book.init. rewrite Ev. cbn [Book.book_id].
  match goal with
  | |- context [Library.save ?s] =>
      destruct (save_then_ret (Book.mk new_id title author genre true) s)
        as (after & E & Eb & Eu & Hp)
  end.
  { split; simpl; [now apply all_objects_set | exact Tu]. }
  unfold Library.bind, Library.ret in E.
  exists after. split; [exact E|]. now repeat split.
Qed.

Lemma add_borrower_returns (name email new_id : string) (self : Library.t) :
  typed self ->
  fst (generate_id "USER" (dict_keys (Library.borrowers self))) = Return new_id ->
  exists after,
    Library.add_borrower name email self =
      (Return (Borrower.mk new_id name email []), after) /\
    Library.borrowers after =
      dict_set new_id (Obj (Borrower.mk new_id name email []))
               (Library.borrowers self) /\
    Library.books after = Library.books self /\
    persisted after.
Proof.
  intros [Tb Tu] Eg. unfold Library.add_borrower. unfold_method. cbv beta.
  rewrite Eg. cbn [Borrower.borrower_id Borrower.init].
  match goal with
  | |- context [Library.save ?s] =>
      destruct (save_then_ret (Borrower.mk new_id name email []) s)
        as (after & E & Eb & Eu & Hp)
  end.
  { split; simpl; [exact Tb | now apply all_objects_set]. }
  unfold Library.bind, Library.ret in E.
  exists after. split; [exact E|]. now repeat split.
Qed.

(** X8. On a library of objects whose book keys all have the form
    [BOOK_dddd], [add_book] with one of the five genres returns a new
    available [Book] carrying the title, author and genre given, under an
    id that was not a key before; the book is added after all the others,
    the borrowers are untouched and both files are rewritten. *)
Theorem add_book_spec (title author genre : string) (self : Library.t) :
  typed self ->
  Book.valid_genre genre = true ->
  (forall id, In id (dict_keys (Library.books self)) -> well_formed_id "BOOK" id) ->
  exists new_id after,
    Library.add_book title author genre self =
      (Return (Book.mk new_id title author genre true), after) /\
    dict_get new_id (Library.books self) = None /\
    Library.books after =
      (Library.books self ++ [(new_id, Obj (Book.mk new_id title author genre true))])%list /\
    Library.borrowers after = Library.borrowers self /\
    persisted after.
Proof.
  intros Ht Ev Hwf.
  destruct (generate_id_fresh "BOOK" _ Hwf) as (new_id & Eg & Hnew).
  destruct (add_book_returns title author genre new_id self Ht Eg Ev)
    as (after & E & Eb & Eu & Hp).
  pose proof (not_In_keys_get _ _ Hnew) as Hnone.
  exists new_id, after. split; [exact E|]. split; [exact Hnone|].
  split; [|now split]. rewrite Eb. now apply dict_set_absent.
Qed.

Lemma add_book_spec_witness :
  exists after,
    Library.add_book "Emma" "Austen" "Fiction" scenario =
      (Return (Book.mk "BOOK_0002" "Emma" "Austen" "Fiction" true), after) /\
    dict_keys (Library.books after) = ["BOOK_0001"; "BOOK_0002"].
Proof.
  destruct (add_book_spec "Emma" "Austen" "Fiction" scenario scenario_typed eq_refl)
    as (new_id & after & E & _ & Eb & _).
  - intros id [<- | []]. exists "0001". split; reflexivity.
  - exists after. assert (En : new_id = "BOOK_0002").
    { assert (H := f_equal fst E). simpl in H. now injection H as <-. }
    subst new_id. split; [exact E|]. now rewrite Eb.
Defined.

(** X9. On a library of objects whose borrower keys all have the form
    [USER_dddd], [add_borrower] returns a new [Borrower] with the name and
    email given and an empty [borrowed_books], under an id that was not a
    key before; the borrower is added after all the others, the books are
    untouched and both files are rewritten. *)
Theorem add_borrower_spec (name email : string) (self : Library.t) :
  typed self ->
  (forall id, In id (dict_keys (Library.borrowers self)) -> well_formed_id "USER" id) ->
  exists new_id after,
    Library.add_borrower name email self =
      (Return (Borrower.mk new_id name email []), after) /\
    dict_get new_id (Library.borrowers self) = None /\
    Library.borrowers after =
      (Library.borrowers self ++ [(new_id, Obj (Borrower.mk new_id name email []))])%list /\
    Library.books after = Library.books self /\
    persisted after.
Proof.
  intros Ht Hwf.
  destruct (generate_id_fresh "USER" _ Hwf) as (new_id & Eg & Hnew).
  destruct (add_borrower_returns name email new_id self Ht Eg)
    as (after & E & Eu & Eb & Hp).
  pose proof (not_In_keys_get _ _ Hnew) as Hnone.
  exists new_id, after. split; [exact E|]. split; [exact Hnone|].
  split; [|now split]. rewrite Eu. now apply dict_set_absent.
Qed.

Lemma add_borrower_spec_witness :
  exists after,
    Library.add_borrower "Bob" "b@x.com" scenario = (Return bob, after) /\
    dict_keys (Library.borrowers after) = ["USER_0001"; "USER_0002"].
Proof.
  destruct (add_borrower_spec "Bob" "b@x.com" scenario scenario_typed)
    as (new_id & after & E & _ & Eu & _).
  - intros id [<- | []]. exists "0001". split; reflexivity.
  - exists after. assert (En : new_id = "USER_0002").
    { assert (H := f_equal fst E). simpl in H. now injection H as <-. }
    subst new_id. split; [exact E|]. now rewrite Eu.
Defined.

(** ** The ids [generate_id] gives *)

Lemma add_books_sound (n : nat) (name title author genre : string) :
  sound (add_books n title author genre (Library.init name None None)).
Proof.
  induction n as [|n IH]; [apply sound_init|].
  unfold add_books. cbn [Nat.iter].
  exact (sound_step _ (Library.AddBook title author genre) IH).
Qed.

(** X10. On a library constructed on an empty data directory, [add_book]
    numbers the books in sequence: after [n] calls the keys are [BOOK_0001]
    to the four-digit form of [n], in that order, and the next call returns
    a book whose id is the form of [n + 1] (up to the ten thousandth book,
    whose id is [BOOK_10000]). *)
Theorem add_book_numbers_in_sequence
  (n : nat) (name title author genre title' author' genre' : string) :
  (Z.of_nat n <= 9999)%Z ->
  Book.valid_genre genre = true ->
  Book.valid_genre genre' = true ->
  let self := add_books n title author genre (Library.init name None None) in
  dict_keys (Library.books self) = numbered_keys n /\
  fst (Library.add_book title' author' genre' self) =
    Return (Book.mk (book_key (Z.of_nat n + 1)) title' author' genre' true).
Proof.
  intros Hn Ev Ev' self.
  assert (Ek : dict_keys (Library.books self) = numbered_keys n).
  { apply add_books_keys; [lia | exact Ev]. }
  split; [exact Ek|].
  pose proof (generate_id_numbered n Hn) as Eg. rewrite <- Ek in Eg.
  destruct (add_book_returns title' author' genre' _ self
              (proj1 (add_books_sound n name title author genre)) Eg Ev')
    as (after & E & _).
  rewrite E. cbn [fst]. do 3 f_equal. lia.
Qed.

Lemma add_book_numbers_in_sequence_witness :
  let self := add_books 2 "Emma" "Austen" "Fiction" (Library.init "City" None None) in
  dict_keys (Library.books self) = ["BOOK_0001"; "BOOK_0002"] /\
  fst (Library.add_book "Dune" "Herbert" "Science" self) =
    Return (Book.mk "BOOK_0003" "Dune" "Herbert" "Science" true).
Proof.
  exact (add_book_numbers_in_sequence 2 "City" "Emma" "Austen" "Fiction"
           "Dune" "Herbert" "Science" ltac:(simpl; lia) eq_refl eq_refl).
Defined.

(** ** The availability invariant and the ids *)

(** *** Numbered ids for any prefix *)

Lemma numbered_succ (prefix : string) (n : nat) :
  numbered prefix (S n) =
  (numbered prefix n ++ [(prefix ++ "_" ++ Py.format_04d (Z.of_nat (S n)))%string])%list.
Proof. unfold numbered. now rewrite seq_S, map_app. Qed.

Lemma numbered_well_formed (prefix : string) (n : nat) (id : string) :
  (Z.of_nat n <= 9999)%Z -> In id (numbered prefix n) -> well_formed_id prefix id.
Proof.
  intros Hn Hin. apply in_map_iff in Hin. destruct Hin as (k & <- & Hk).
  apply in_seq in Hk. exists (Py.format_04d (Z.of_nat k)).
  split; [|reflexivity]. apply format_04d_int. lia.
Qed.

Lemma numbered_sorted (prefix : string) (len start : nat) :
  (Z.of_nat (start + len) <= 10000)%Z ->
  StronglySorted str_le
    (map (fun k => prefix ++ "_" ++ Py.format_04d (Z.of_nat k)) (seq start len)).
Proof.
  revert start. induction len as [|len IH]; intros start H; simpl; constructor.
  - apply IH. lia.
  - apply Forall_forall. intros x Hx. apply in_map_iff in Hx.
    destruct Hx as (k & <- & Hk). apply in_seq in Hk.
    apply str_le_id. apply format_04d_le; lia.
Qed.

Lemma generate_id_on_numbered (prefix : string) (n : nat) :
  (Z.of_nat n <= 9999)%Z ->
  fst (generate_id prefix (numbered prefix n)) =
  Return (prefix ++ "_" ++ Py.format_04d (Z.of_nat (S n))) /\
  ~ In (prefix ++ "_" ++ Py.format_04d (Z.of_nat (S n))) (numbered prefix n).
Proof.
  intros Hn.
  assert (Eg : fst (generate_id prefix (numbered prefix n)) =
               Return (prefix ++ "_" ++ Py.format_04d (Z.of_nat (S n)))).
  { unfold generate_id. cbn [fst].
    rewrite sort_of_sorted by (apply numbered_sorted; lia).
    destruct n as [|m]; [reflexivity|].
    rewrite numbered_succ.
    destruct (numbered prefix m
              ++ [(prefix ++ "_" ++ Py.format_04d (Z.of_nat (S m)))%string])%list
      eqn:E;
      [now destruct (numbered prefix m)|].
    rewrite <- E, last_last.
    destruct (format_04d_int (Z.of_nat (S m))) as [H4 Hi]; [lia|].
    rewrite (last4_id prefix _ H4), Hi. cbn [rmap rbind].
    replace (Z.of_nat (S (S m))) with (Z.of_nat (S m) + 1)%Z by lia. reflexivity. }
  split; [exact Eg|].
  destruct (generate_id_fresh prefix (numbered prefix n)) as (new_id & Eg' & Hnew).
  - intros id. now apply numbered_well_formed.
  - congruence.
Qed.

(** *** What the two [add] calls do to the collections *)

Lemma add_book_refused (title author genre : string) (self : Library.t) :
  Book.valid_genre genre = false ->
  Library.books (Library.exec (Library.add_book title author genre) self) =
  Library.books self.
Proof.
  intros Ev. unfold Library.exec, Library.add_book. unfold_method. cbv beta.
  destruct (fst (generate_id "BOOK" (dict_keys (Library.books self))));
    [|reflexivity].
  unfold Book.init. now rewrite Ev.
Qed.

Lemma add_borrower_collections (name email new_id : string) (self : Library.t) :
  fst (generate_id "USER" (dict_keys (Library.borrowers self))) = Return new_id ->
  Library.borrowers (Library.exec (Library.add_borrower name email) self) =
  dict_set new_id (Obj (Borrower.mk new_id name email [])) (Library.borrowers self).
Proof.
  intros Eg. unfold Library.exec, Library.add_borrower. unfold_method. cbv beta.
  rewrite Eg.
  match goal with
  | |- context [Library.save ?s] =>
      destruct (save_frame s) as (_ & H & _); destruct (Library.save s) as [[[]|e] s']
  end; simpl in *; rewrite H; reflexivity.
Qed.

Lemma objects_set_absent {T} (k : string) (o : T) (d : dict (stored T)) :
  ~ In k (dict_keys d) -> objects (dict_set k (Obj o) d) = (objects d ++ [o])%list.
Proof.
  induction d as [|[k' e] d IH]; simpl; [reflexivity|]. intros H.
  destruct (String.eqb k k') eqn:E.
  - apply String.eqb_eq in E. subst. tauto.
  - simpl. rewrite IH by tauto. now destruct e.
Qed.

Lemma occurrences_none (id : string) (self : Library.t) :
  (forall u, In u (objects (Library.borrowers self)) ->
             ~ In id (Borrower.borrowed_books u)) ->
  occurrences id self = 0.
Proof.
  unfold occurrences.
  induction (objects (Library.borrowers self)) as [|u us IH]; intros H;
    [reflexivity|].
  simpl. rewrite IH by (intros v Hv; apply H; now right).
  rewrite Nat.add_0_r. apply count_occ_not_In. apply H. now left.
Qed.

Lemma remove_first_In (x y : string) (l : list string) :
  In y (remove_first x l) -> In y l.
Proof.
  induction l as [|z l IH]; simpl; [tauto|].
  destruct (String.eqb x z); simpl; tauto.
Qed.

(** *** One call on an orderly library *)

Lemma collections_step_keys (self after : Library.t) :
  collections_step self after ->
  dict_keys (Library.books after) = dict_keys (Library.books self) /\
  dict_keys (Library.borrowers after) = dict_keys (Library.borrowers self).
Proof.
  intros [Eb Eu | bid uid b u Hb Ha Hu Hc Eb Eu
         | bid uid b u Hb Hu Hc Eb Eu | bid uid j u Hb Hu Hc Eb Eu];
    rewrite Eb, Eu; simpl; split; trivial;
    try (now apply (dict_set_keys_present _ _ _ _ Hb));
    try (now apply (dict_set_keys_present _ _ _ _ Hu)).
Qed.

Lemma collections_step_no_stray (self after : Library.t) :
  collections_step self after -> no_stray_ids self -> no_stray_ids after.
Proof.
  intros Hstep H. destruct (collections_step_keys _ _ Hstep) as [Kb _].
  intros v id Hv Hid. rewrite Kb.
  destruct Hstep as [Eb Eu | bid uid b u Hb Ha Hu Hc Eb Eu
                    | bid uid b u Hb Hu Hc Eb Eu | bid uid j u Hb Hu Hc Eb Eu];
    rewrite Eu in Hv; simpl in Hv.
  - now apply (H v).
  - apply objects_set_In in Hv. destruct Hv as [-> | Hv]; [|now apply (H v)].
    simpl in Hid. apply in_app_or in Hid. destruct Hid as [Hid | [<- | []]].
    + apply (H u); [exact (dict_get_objects_In _ _ _ Hu) | exact Hid].
    + apply dict_get_In_keys. eauto.
  - apply objects_set_In in Hv. destruct Hv as [-> | Hv]; [|now apply (H v)].
    simpl in Hid. apply remove_first_In in Hid.
    apply (H u); [exact (dict_get_objects_In _ _ _ Hu) | exact Hid].
  - apply objects_set_In in Hv. destruct Hv as [-> | Hv]; [|now apply (H v)].
    simpl in Hid. apply remove_first_In in Hid.
    apply (H u); [exact (dict_get_objects_In _ _ _ Hu) | exact Hid].
Qed.

Lemma orderly_circulation (n m : nat) (self after : Library.t) :
  sound after -> collections_step self after ->
  orderly n m self -> orderly n m after.
Proof.
  intros Hs Hstep (_ & Hc & Hn & Kb & Ku).
  destruct (collections_step_keys _ _ Hstep) as [Eb Eu].
  split; [exact Hs|]. split; [exact (consistent_collections_step _ _ Hstep Hc)|].
  split; [exact (collections_step_no_stray _ _ Hstep Hn)|].
  split; congruence.
Qed.

Lemma orderly_add_book (n m : nat) (title author genre : string) (self : Library.t) :
  (Z.of_nat n <= 9999)%Z ->
  orderly n m self ->
  let after := Library.exec (Library.add_book title author genre) self in
  orderly n m after \/ orderly (S n) m after.
Proof.
  intros Hn Ho after.
  assert (Hs : sound after)
    by exact (sound_step self (Library.AddBook title author genre) (proj1 Ho)).
  assert (Eu : Library.borrowers after = Library.borrowers self)
    by apply add_book_borrowers.
  destruct (Book.valid_genre genre) eqn:Ev.
  - right. destruct Ho as (_ & Hc & Hstray & Kb & Ku).
    destruct (generate_id_on_numbered "BOOK" n Hn) as [Eg Hfresh].
    rewrite <- Kb in Eg, Hfresh.
    set (new_id := "BOOK" ++ "_" ++ Py.format_04d (Z.of_nat (S n))) in *.
    assert (Eb : Library.books after =
                 dict_set new_id (Obj (Book.mk new_id title author genre true))
                          (Library.books self))
      by (now apply add_book_books).
    assert (Kb' : dict_keys (Library.books after) =
                  (dict_keys (Library.books self) ++ [new_id])%list)
      by (rewrite Eb; now apply dict_set_keys_absent).
    split; [exact Hs|]. split; [|split; [|split]].
    + intros id b Hget. rewrite Eb in Hget.
      rewrite (occurrences_borrowers id after self Eu).
      destruct (string_dec new_id id) as [<- | Hne].
      * rewrite dict_get_set_same in Hget. injection Hget as <-. simpl.
        split; [reflexivity|]. apply occurrences_none.
        intros u Hu Hin. apply Hfresh. exact (Hstray u new_id Hu Hin).
      * rewrite dict_get_set_other in Hget by congruence. now apply Hc.
    + intros u id Hu Hin. rewrite Eu in Hu. rewrite Kb'.
      apply in_or_app. left. exact (Hstray u id Hu Hin).
    + now rewrite Kb', Kb, numbered_succ.
    + now rewrite Eu.
  - left. apply (orderly_circulation n m self); [exact Hs | | exact Ho].
    apply step_same; [now apply add_book_refused | exact Eu].
Qed.

Lemma orderly_add_borrower (n m : nat) (name email : string) (self : Library.t) :
  (Z.of_nat m <= 9999)%Z ->
  orderly n m self ->
  orderly n (S m) (Library.exec (Library.add_borrower name email) self).
Proof.
  intros Hm Ho. set (after := Library.exec (Library.add_borrower name email) self).
  assert (Hs : sound after)
    by exact (sound_step self (Library.AddBorrower name email) (proj1 Ho)).
  assert (Eb : Library.books after = Library.books self)
    by apply add_borrower_books.
  destruct Ho as (_ & Hc & Hstray & Kb & Ku).
  destruct (generate_id_on_numbered "USER" m Hm) as [Eg Hfresh].
  rewrite <- Ku in Eg, Hfresh.
  set (new_id := "USER" ++ "_" ++ Py.format_04d (Z.of_nat (S m))) in *.
  pose proof (add_borrower_collections name email new_id self Eg) as Eu.
  fold after in Eu.
  assert (Eo : objects (Library.borrowers after) =
               (objects (Library.borrowers self)
                ++ [Borrower.mk new_id name email []])%list)
    by (rewrite Eu; now apply objects_set_absent).
  split; [exact Hs|]. split; [|split; [|split]].
  - intros id b Hget. rewrite Eb in Hget.
    destruct (Hc id b Hget) as [Hid Hocc]. split; [exact Hid|].
    rewrite <- Hocc. unfold occurrences. rewrite Eo, map_app, list_sum_app.
    simpl. lia.
  - intros u id Hu Hin. rewrite Eo in Hu. rewrite Eb.
    apply in_app_or in Hu. destruct Hu as [Hu | [<- | []]].
    + exact (Hstray u id Hu Hin).
    + destruct Hin.
  - now rewrite Eb.
  - rewrite Eu, dict_set_keys_absent by exact Hfresh.
    now rewrite Ku, numbered_succ.
Qed.

(** *** Any number of calls *)

Lemma orderly_run (calls : list Library.call) (n m : nat) (self : Library.t) :
  (Z.of_nat n + count_calls is_add_book calls <= 10000)%Z ->
  (Z.of_nat m + count_calls is_add_borrower calls <= 10000)%Z ->
  orderly n m self ->
  exists n' m', orderly n' m' (Library.run calls self).
Proof.
  unfold count_calls.
  revert n m self. induction calls as [|c calls IH]; intros n m self Hn Hm Ho.
  - exists n, m. exact Ho.
  - simpl. destruct c as [t a g | nm e | bid uid | bid uid]; simpl in Hn, Hm.
    + destruct (orderly_add_book n m t a g self ltac:(lia) Ho) as [H | H].
      * apply (IH n m); [lia | lia | exact H].
      * apply (IH (S n) m); [lia | lia | exact H].
    + apply (IH n (S m)); [lia | lia |].
      apply orderly_add_borrower; [lia | exact Ho].
    + apply (IH n m); [lia | lia |].
      apply (orderly_circulation n m self); [|apply checkout_book_step | exact Ho].
      exact (sound_step self (Library.CheckoutBook bid uid) (proj1 Ho)).
    + apply (IH n m); [lia | lia |].
      apply (orderly_circulation n m self); [|apply return_book_step | exact Ho].
      exact (sound_step self (Library.ReturnBook bid uid) (proj1 Ho)).
Qed.

Lemma orderly_init (name : string) : orderly 0 0 (Library.init name None None).
Proof.
  split; [apply sound_init|]. split; [|split; [|split; reflexivity]].
  - apply nothing_out_consistent, nothing_out_init.
  - intros u id [].
Qed.

Lemma consistent_matches (self : Library.t) :
  consistent self -> availability_matches self.
Proof.
  intros Hc book_id b Hget.
  destruct (Hc book_id b Hget) as [-> Hocc].
  destruct (holders_of_occurrences book_id (objects (Library.borrowers self)))
    as [Hnone Hone].
  fold (occurrences book_id self) in Hnone, Hone.
  fold (holders book_id self) in Hnone, Hone.
  destruct (Book.available b).
  - split; [discriminate|]. intros Hl. rewrite (Hnone Hocc) in Hl. discriminate.
  - split; [intros _; exact (Hone Hocc) | reflexivity].
Qed.

(** On a library constructed on an empty data directory the invariant holds
    after every sequence of [add_book], [add_borrower], [checkout_book] and
    [return_book] calls in which no more than ten thousand calls add a book
    and no more than ten thousand add a borrower. *)
Lemma availability_while_ids_last (name : string) (calls : list Library.call) :
  (count_calls is_add_book calls <= 10000)%Z ->
  (count_calls is_add_borrower calls <= 10000)%Z ->
  availability_matches (Library.run calls (Library.init name None None)).
Proof.
  intros Hn Hm.
  destruct (orderly_run calls 0 0 (Library.init name None None))
    as (n' & m' & _ & Hc & _); [simpl; lia | simpl; lia | apply orderly_init |].
  now apply consistent_matches.
Qed.

(** *** The ten thousand and first book, when the ten thousandth is out *)

Lemma numbered_keys_full (k : string) :
  In "BOOK_9999" (numbered_keys (Z.to_nat 10000)) /\
  In "BOOK_10000" (numbered_keys (Z.to_nat 10000)) /\
  (In k (numbered_keys (Z.to_nat 10000)) -> str_le k "BOOK_9999").
Proof.
  assert (Hkey : forall i, (1 <= i <= 10000)%Z ->
                           In (book_key i) (numbered_keys (Z.to_nat 10000))).
  { intros i Hi. apply in_map_iff. exists (Z.to_nat i).
    split; [f_equal; lia | apply in_seq; lia]. }
  split; [exact (Hkey 9999%Z ltac:(lia))|].
  split; [exact (Hkey 10000%Z ltac:(lia))|].
  intros Hk. apply in_map_iff in Hk.
  destruct Hk as (i & <- & Hi). apply in_seq in Hi.
  destruct (Z.eq_dec (Z.of_nat i) 10000) as [-> | Hne]; [reflexivity|].
  change "BOOK_9999" with (book_key 9999). apply str_le_id.
  apply format_04d_le; lia.
Qed.

Lemma ten_thousand : Z.to_nat 10000 = S (Z.to_nat 9999).
Proof. change 10000%Z with (Z.succ 9999). now apply Z2Nat.inj_succ. Qed.

(** The book that the last of [n + 1] calls of [add_book] stores. *)
Lemma add_books_last (n : nat) (name title author genre : string) :
  (Z.of_nat n <= 9999)%Z ->
  Book.valid_genre genre = true ->
  Library.books (add_books (S n) title author genre (Library.init name None None)) =
  dict_set (book_key (Z.of_nat (S n)))
    (Obj (Book.mk (book_key (Z.of_nat (S n))) title author genre true))
    (Library.books (add_books n title author genre (Library.init name None None))).
Proof.
  intros Hn Ev.
  change (add_books (S n) title author genre (Library.init name None None))
    with (Library.exec (Library.add_book title author genre)
            (add_books n title author genre (Library.init name None None))).
  unfold Library.exec. apply add_book_books; [|exact Ev].
  rewrite add_books_keys by (trivial; lia). now apply generate_id_numbered.
Qed.

Lemma add_books_borrowers (n : nat) (title author genre : string) (self : Library.t) :
  Library.borrowers (add_books n title author genre self) = Library.borrowers self.
Proof.
  induction n as [|n IH]; [reflexivity|].
  exact (eq_trans (add_book_borrowers title author genre
                     (add_books n title author genre self)) IH).
Qed.

(** C2, where the code goes wrong. Ten thousand [add_book] calls on a new
    library, [add_borrower], and [checkout_book] of [BOOK_10000] by that
    borrower leave the book out and in one list, as the invariant has it.
    The next [add_book] is given the id [BOOK_10000] again and stores a new,
    available book under it, while the borrower still lists the id: after
    this successful call a book is available and in exactly one borrower's
    list, and the invariant does not hold. *)
Theorem availability_lost_on_reused_id (name title author genre : string) :
  Book.valid_genre genre = true ->
  let shelves := add_books (Z.to_nat 10000) title author genre
                           (Library.init name None None) in
  let lent := Library.run [Library.AddBorrower "Alice" "a@x.com";
                           Library.CheckoutBook "BOOK_10000" "USER_0001"]
                          shelves in
  let added := Library.add_book "Cosmos" "Sagan" "Science" lent in
  dict_get "BOOK_10000" (Library.books lent) =
    Some (Obj (Book.mk "BOOK_10000" title author genre false)) /\
  holders "BOOK_10000" lent =
    [Borrower.mk "USER_0001" "Alice" "a@x.com" ["BOOK_10000"]] /\
  fst added = Return (Book.mk "BOOK_10000" "Cosmos" "Sagan" "Science" true) /\
  dict_get "BOOK_10000" (Library.books (snd added)) =
    Some (Obj (Book.mk "BOOK_10000" "Cosmos" "Sagan" "Science" true)) /\
  holders "BOOK_10000" (snd added) =
    [Borrower.mk "USER_0001" "Alice" "a@x.com" ["BOOK_10000"]] /\
  ~ availability_matches (snd added).
Proof.
  intros Ev shelves lent.
  (* the ten thousandth book *)
  pose proof (add_books_last (Z.to_nat 9999) name title author genre) as Bs.
  rewrite <- ten_thousand in Bs. fold shelves in Bs.
  change (book_key (Z.of_nat (Z.to_nat 10000))) with "BOOK_10000" in Bs.
  specialize (Bs ltac:(rewrite Z2Nat.id; easy) Ev).
  assert (Ks : dict_keys (Library.books shelves) = numbered_keys (Z.to_nat 10000))
    by (apply add_books_keys; [lia | exact Ev]).
  assert (Us : Library.borrowers shelves = [])
    by (unfold shelves; now rewrite add_books_borrowers).
  assert (Ts : typed shelves) by (apply add_books_sound).
  clearbody shelves.
  (* the borrower *)
  destruct (add_borrower_returns "Alice" "a@x.com" "USER_0001" shelves Ts)
    as (s1 & E1 & U1 & B1 & _); [now rewrite Us|].
  rewrite Us in U1. cbn [dict_set] in U1.
  (* the checkout *)
  assert (G1 : dict_get "BOOK_10000" (Library.books s1) =
               Some (Obj (Book.mk "BOOK_10000" title author genre true)))
    by (rewrite B1, Bs; apply dict_get_set_same).
  assert (El : lent = Library.exec (Library.checkout_book "BOOK_10000" "USER_0001") s1).
  { unfold lent. cbn [Library.run fold_left Library.step].
    unfold Library.exec at 2. now rewrite E1. }
  assert (Hl : Library.books lent =
               dict_set "BOOK_10000"
                 (Obj (Book.mk "BOOK_10000" title author genre false))
                 (Library.books s1) /\
               Library.borrowers lent =
               [("USER_0001",
                 Obj (Borrower.mk "USER_0001" "Alice" "a@x.com" ["BOOK_10000"]))]).
  { rewrite El. unfold Library.exec. rewrite checkout_book_eq, G1. cbn [Book.available negb].
    rewrite U1. cbn.
    match goal with
    | |- context [Library.bind Library.save ?k ?s] =>
        destruct (exec_save_then s true) as [H1 H2]
    end.
    rewrite H1, H2. cbn. rewrite U1. split; reflexivity. }
  destruct Hl as [Bl Ul]. clear El. clearbody lent.
  assert (Gl : dict_get "BOOK_10000" (Library.books lent) =
               Some (Obj (Book.mk "BOOK_10000" title author genre false)))
    by (rewrite Bl; apply dict_get_set_same).
  assert (Kl : dict_keys (Library.books lent) = numbered_keys (Z.to_nat 10000)).
  { rewrite Bl, (dict_set_keys_present _ _ _ _ G1), B1. exact Ks. }
  assert (Tl : typed lent).
  { split; [|now rewrite Ul]. rewrite Bl. apply all_objects_set.
    rewrite B1. exact (proj1 Ts). }
  (* the ten thousand and first book *)
  intros added.
  destruct (add_book_overflow "Cosmos" "Sagan" "Science" lent eq_refl)
    as (Ego & Ba & _).
  { rewrite Kl. apply (numbered_keys_full EmptyString). }
  { rewrite Kl. apply (numbered_keys_full EmptyString). }
  { intros k. rewrite Kl. apply numbered_keys_full. }
  cbv zeta in Ba. fold added in Ba.
  destruct (add_book_returns "Cosmos" "Sagan" "Science" "BOOK_10000" lent Tl Ego eq_refl)
    as (s3 & E3 & _ & U3 & _).
  assert (Ua : Library.borrowers (snd added) = Library.borrowers lent)
    by apply add_book_borrowers.
  assert (Ga : dict_get "BOOK_10000" (Library.books (snd added)) =
               Some (Obj (Book.mk "BOOK_10000" "Cosmos" "Sagan" "Science" true)))
    by (rewrite Ba; apply dict_get_set_same).
  assert (Ha : holders "BOOK_10000" (snd added) =
               [Borrower.mk "USER_0001" "Alice" "a@x.com" ["BOOK_10000"]])
    by (unfold holders; rewrite Ua, Ul; reflexivity).
  split; [exact Gl|].
  split; [unfold holders; rewrite Ul; reflexivity|].
  split; [unfold added; now rewrite E3|].
  split; [exact Ga|]. split; [exact Ha|].
  intros H. specialize (H "BOOK_10000" _ Ga). cbn [Book.book_id Book.available] in H.
  rewrite Ha in H. destruct H as [_ H]. discriminate (H eq_refl).
Qed.

Lemma availability_lost_on_reused_id_witness :
  let shelves := add_books (Z.to_nat 10000) "Emma" "Austen" "Fiction"
                           (Library.init "City" None None) in
  let lent := Library.run [Library.AddBorrower "Alice" "a@x.com";
                           Library.CheckoutBook "BOOK_10000" "USER_0001"]
                          shelves in
  let added := Library.add_book "Cosmos" "Sagan" "Science" lent in
  fst added = Return (Book.mk "BOOK_10000" "Cosmos" "Sagan" "Science" true) /\
  dict_get "BOOK_10000" (Library.books (snd added)) =
    Some (Obj (Book.mk "BOOK_10000" "Cosmos" "Sagan" "Science" true)) /\
  holders "BOOK_10000" (snd added) =
    [Borrower.mk "USER_0001" "Alice" "a@x.com" ["BOOK_10000"]].
Proof.
  destruct (availability_lost_on_reused_id "City" "Emma" "Austen" "Fiction" eq_refl)
    as (_ & _ & E & G & H & _).
  split; [exact E|]. split; [exact G | exact H].
Defined.

Lemma sorted_perm_unique (l1 l2 : list string) :
  StronglySorted str_le l1 -> StronglySorted str_le l2 ->
  Permutation l1 l2 -> l1 = l2.
Proof.
  revert l2. induction l1 as [|x l1 IH]; intros l2 S1 S2 Hp.
  - now apply Permutation_nil in Hp.
  - destruct l2 as [|y l2]; [now apply Permutation_sym, Permutation_nil in Hp|].
    apply StronglySorted_inv in S1. destruct S1 as [S1 Hx].
    apply StronglySorted_inv in S2. destruct S2 as [S2 Hy].
    rewrite Forall_forall in Hx, Hy.
    assert (Exy : x = y).
    { assert (H1 : In x (y :: l2)) by (apply (Permutation_in _ Hp); now left).
      assert (H2 : In y (x :: l1))
        by (apply (Permutation_in _ (Permutation_sym Hp)); now left).
      destruct H1 as [-> | H1]; [reflexivity|].
      destruct H2 as [-> | H2]; [reflexivity|].
      apply String.leb_antisym; [now apply Hx | now apply Hy]. }
    subst y. f_equal. apply IH; trivial.
    now apply Permutation_cons_inv in Hp.
Qed.

(** X11. [generate_id] does not depend on the order in which the existing
    ids are listed: two lists holding the same ids, each as many times,
    give the same result (the same new id or the same [ValueError]) and are
    left as the same sorted list. *)
Theorem generate_id_order_independent (prefix : string) (ids1 ids2 : list string) :
  Permutation ids1 ids2 ->
  generate_id prefix ids1 = generate_id prefix ids2.
Proof.
  intros Hp. unfold generate_id.
  assert (E : Py.sort ids1 = Py.sort ids2).
  { apply sorted_perm_unique; try apply sort_sorted.
    rewrite <- (sort_perm ids1), <- (sort_perm ids2). exact Hp. }
  now rewrite E.
Qed.

Lemma generate_id_order_independent_witness :
  generate_id "BOOK" ["BOOK_0002"; "BOOK_0001"] =
  generate_id "BOOK" ["BOOK_0001"; "BOOK_0002"].
Proof.
  apply generate_id_order_independent. apply perm_swap.
Defined.

(** X12. On a non-empty list of ids of the form [prefix_dddd], [generate_id]
    returns [prefix_] followed by the [:04d] form of one more than the
    largest number in the list: some id of the list carries the number [n],
    none carries a larger one, and the result carries [n + 1]. *)
Theorem generate_id_next_number (prefix : string) (existing_ids : list string) :
  existing_ids <> [] ->
  (forall id, In id existing_ids -> well_formed_id prefix id) ->
  exists n,
    (0 <= n <= 9999)%Z /\
    fst (generate_id prefix existing_ids) =
      Return (prefix ++ "_" ++ Py.format_04d (n + 1)) /\
    In (prefix ++ "_" ++ Py.format_04d n) existing_ids /\
    (forall id, In id existing_ids ->
                exists m, (0 <= m <= n)%Z /\ id = prefix ++ "_" ++ Py.format_04d m).
Proof.
  intros Hne Hwf. destruct existing_ids as [|x0 rest]; [congruence|]. clear Hne.
  set (ids := x0 :: rest) in *.
  assert (Hx0 : In x0 ids) by now left.
  destruct (sort_last ids x0 Hx0) as [Hlast _].
  destruct (Hwf _ Hlast) as (sl & Hsl & El).
  destruct (four_digits_int sl Hsl) as (n & Hint & Hn & Hfmt).
  exists n. split; [exact Hn|]. split; [|split].
  - unfold generate_id. cbn [fst].
    destruct (Py.sort ids) as [|y l] eqn:Es.
    + pose proof (sort_perm ids) as Hp. rewrite Es in Hp.
      apply Permutation_sym, Permutation_nil in Hp. discriminate Hp.
    + rewrite El, (last4_id prefix sl Hsl), Hint. reflexivity.
  - rewrite Hfmt, <- El. exact Hlast.
  - intros id Hin. destruct (Hwf _ Hin) as (s & Hs & Eid).
    destruct (four_digits_int s Hs) as (m & _ & Hm & Hfm).
    exists m. split; [|now rewrite Hfm].
    destruct (sort_last ids id Hin) as [_ Hle].
    rewrite Eid, El, <- Hfm, <- Hfmt in Hle. apply str_le_id in Hle.
    destruct (Z_le_gt_dec m n) as [Hok | Hgt]; [lia|].
    exfalso. apply (format_04d_increasing n m); [lia | lia | exact Hle].
Qed.

Lemma generate_id_next_number_witness :
  exists n,
    fst (generate_id "USER" ["USER_0007"; "USER_0003"]) =
      Return ("USER" ++ "_" ++ Py.format_04d (n + 1)) /\
    In ("USER" ++ "_" ++ Py.format_04d n) ["USER_0007"; "USER_0003"].
Proof.
  destruct (generate_id_next_number "USER" ["USER_0007"; "USER_0003"])
    as (n & _ & E & Hin & _).
  - discriminate.
  - intros id [<- | [<- | []]]; [exists "0007" | exists "0003"]; split; reflexivity.
  - exists n. split; [exact E | exact Hin].
Defined.

(** ** [search_items] on any list of dictionaries *)

Lemma criterion_fails_comparable (item : dict json) (kv : string * json) :
  criterion_fails item kv =
  if comparable item kv then Return (negb (criterion_holds item kv))
  else Raise AttributeError.
Proof.
  destruct kv as [key value]. unfold criterion_fails, comparable, criterion_holds.
  cbn [fst snd]. destruct (dict_get key item) as [x|]; [|reflexivity].
  destruct x; try reflexivity. destruct value; reflexivity.
Qed.

Lemma item_matches_comparable (item : dict json) (criteria : dict json) (m : bool) :
  item_matches item criteria m =
  if forallb (comparable item) criteria
  then Return (m && satisfies criteria item)
  else Raise AttributeError.
Proof.
  revert m. induction criteria as [|kv criteria IH]; intros m.
  - simpl. now rewrite andb_true_r.
  - cbn [item_matches forallb]. rewrite criterion_fails_comparable.
    destruct (comparable item kv); [|reflexivity]. cbn [rbind andb].
    rewrite IH. destruct (forallb (comparable item) criteria); [|reflexivity].
    unfold satisfies. cbn [forallb].
    destruct (criterion_holds item kv); cbn [negb andb]; [reflexivity|].
    now destruct m.
Qed.

Lemma search_loop_comparable (items : list (dict json)) (criteria : dict json)
  (acc : list (dict json)) :
  search_loop items criteria acc =
  if all_comparable items criteria
  then Return (acc ++ filter (satisfies criteria) items)%list
  else Raise AttributeError.
Proof.
  unfold all_comparable. revert acc.
  induction items as [|item items IH]; intros acc.
  - simpl. now rewrite app_nil_r.
  - cbn [search_loop forallb filter]. rewrite item_matches_comparable.
    destruct (forallb (comparable item) criteria); [|reflexivity].
    cbn [rbind andb]. rewrite IH.
    destruct (forallb _ items); [|reflexivity].
    destruct (satisfies criteria item); [|reflexivity].
    now rewrite <- app_assoc.
Qed.

(** X13. [search_items] returns exactly when every criterion can be compared
    with every item (the item lacks the key, or the item's value and the
    criterion's value are both strings); it then returns, in their original
    order, the items that have every criterion key with an equal value once
    both are lower-cased. In every other case it raises [AttributeError],
    also when the offending item would not have matched anyway. *)
Theorem search_items_spec (items : list (dict json)) (criteria : dict json) :
  (all_comparable items criteria = true ->
   search_items items criteria = Return (filter (satisfies criteria) items)) /\
  (all_comparable items criteria = false ->
   search_items items criteria = Raise AttributeError).
Proof.
  unfold search_items. rewrite search_loop_comparable.
  split; intros ->; reflexivity.
Qed.

Lemma search_items_spec_witness :
  search_items docstring_books [("author", JStr "smith")] =
    Return [[("title", JStr "Python 101"); ("author", JStr "Smith")];
            [("title", JStr "Java Guide"); ("author", JStr "Smith")]] /\
  search_items paged_books [("title", JStr "nothing"); ("pages", JStr "90")] =
    Raise AttributeError.
Proof.
  split.
  - exact (proj1 (search_items_spec docstring_books [("author", JStr "smith")])
                 eq_refl).
  - exact (proj2 (search_items_spec paged_books
                    [("title", JStr "nothing"); ("pages", JStr "90")])
                 eq_refl).
Defined.

Lemma filter_filter {A} (f g : A -> bool) (l : list A) :
  filter g (filter f l) = filter (fun x => f x && g x) l.
Proof.
  induction l as [|x l IH]; simpl; [reflexivity|].
  destruct (f x); simpl; [destruct (g x); now rewrite IH | exact IH].
Qed.

Lemma all_comparable_filter (f : dict json -> bool) (items : list (dict json))
  (criteria : dict json) :
  all_comparable items criteria = true ->
  all_comparable (filter f items) criteria = true.
Proof.
  unfold all_comparable. rewrite !forallb_forall. intros H x Hx.
  apply filter_In in Hx. now apply H.
Qed.

Lemma all_comparable_app (items : list (dict json)) (c1 c2 : dict json) :
  all_comparable items (c1 ++ c2)%list =
  all_comparable items c1 && all_comparable items c2.
Proof.
  unfold all_comparable. induction items as [|x items IH]; simpl; [reflexivity|].
  rewrite IH, forallb_app.
  destruct (forallb (comparable x) c1), (forallb (comparable x) c2); simpl;
    try reflexivity; now rewrite ?andb_false_r.
Qed.

(** X14. Adding criteria narrows a search. When [search_items] returns for
    the criteria [c1] followed by [c2], it also returns for [c1] alone, and
    searching that result with [c2] gives the same list; the order in which
    the two groups are given makes no difference to the result. *)
Theorem search_items_narrows (items : list (dict json)) (c1 c2 : dict json)
  (found : list (dict json)) :
  search_items items (c1 ++ c2)%list = Return found ->
  (exists first,
      search_items items c1 = Return first /\
      search_items first c2 = Return found) /\
  search_items items (c2 ++ c1)%list = Return found.
Proof.
  intros H. unfold search_items in *. rewrite search_loop_comparable in H.
  rewrite all_comparable_app in H.
  destruct (all_comparable items c1) eqn:E1; [|discriminate].
  destruct (all_comparable items c2) eqn:E2; [|discriminate].
  simpl in H. injection H as <-. split.
  - exists (filter (satisfies c1) items). rewrite !search_loop_comparable, E1.
    rewrite (all_comparable_filter _ _ _ E2). simpl. split; [reflexivity|].
    rewrite filter_filter. f_equal. apply filter_ext. intros x.
    unfold satisfies. now rewrite forallb_app.
  - rewrite search_loop_comparable, all_comparable_app, E1, E2. simpl.
    f_equal. apply filter_ext. intros x. unfold satisfies.
    rewrite !forallb_app. apply andb_comm.
Qed.

Lemma search_items_narrows_witness :
  search_items [Book.to_dict dune] [("author", JStr "HERBERT"); ("genre", JStr "science")] =
    Return [Book.to_dict dune] /\
  search_items [Book.to_dict dune] [("genre", JStr "science"); ("author", JStr "HERBERT")] =
    Return [Book.to_dict dune].
Proof.
  split; [reflexivity|].
  exact (proj2 (search_items_narrows [Book.to_dict dune]
                  [("author", JStr "HERBERT")] [("genre", JStr "science")]
                  [Book.to_dict dune] eq_refl)).
Defined.

Lemma lower_char_idempotent (c : ascii) :
  Py.lower_char (Py.lower_char c) = Py.lower_char c.
Proof.
  destruct c as [b0 b1 b2 b3 b4 b5 b6 b7].
  destruct b0, b1, b2, b3, b4, b5, b6, b7; reflexivity.
Qed.

Lemma lower_idempotent (s : string) : Py.lower (Py.lower s) = Py.lower s.
Proof.
  induction s as [|c s IH]; simpl; [reflexivity|].
  now rewrite lower_char_idempotent, IH.
Qed.

Lemma criterion_fails_lower (item : dict json) (kv : string * json) :
  criterion_fails item (lower_criterion kv) = criterion_fails item kv.
Proof.
  destruct kv as [key value]. unfold lower_criterion. cbn [fst snd].
  destruct value; try reflexivity. unfold criterion_fails.
  destruct (dict_get key item) as [x|]; [|reflexivity].
  destruct x; try reflexivity. cbn [str_lower rbind].
  now rewrite lower_idempotent.
Qed.

(** X15. The letter case of the criteria does not matter: replacing every
    string value among the criteria by its lower-cased form leaves the
    outcome of [search_items] as it was, the list returned or the
    exception raised. *)
Theorem search_items_ignores_case (items : list (dict json)) (criteria : dict json) :
  search_items items (map lower_criterion criteria) = search_items items criteria.
Proof.
  unfold search_items. generalize (@nil (dict json)).
  assert (Hm : forall item m,
             item_matches item (map lower_criterion criteria) m =
             item_matches item criteria m).
  { intros item. induction criteria as [|kv criteria IH]; intros m; [reflexivity|].
    cbn [map item_matches]. rewrite criterion_fails_lower.
    destruct (criterion_fails item kv); [|reflexivity]. cbn [rbind]. apply IH. }
  induction items as [|item items IH]; intros acc; [reflexivity|].
  cbn [search_loop]. rewrite Hm.
  destruct (item_matches item criteria true); [|reflexivity].
  cbn [rbind]. apply IH.
Qed.

(** ** The methods of [Borrower] *)

Lemma remove_first_app (x : string) (l r : list string) :
  contains x l = true -> remove_first x (l ++ r) = (remove_first x l ++ r)%list.
Proof.
  unfold contains. induction l as [|y l IH]; simpl; [discriminate|].
  destruct (String.eqb x y); simpl; [reflexivity|]. intros H. now rewrite IH.
Qed.

Lemma remove_first_length_S (x : string) (l : list string) :
  contains x l = true -> S (List.length (remove_first x l)) = List.length l.
Proof.
  unfold contains. induction l as [|y l IH]; simpl; [discriminate|].
  destruct (String.eqb x y); simpl; [reflexivity|]. intros H. now rewrite IH.
Qed.

(** X16. A borrower below the limit who borrows a book and returns it again
    is as before, provided the id was not in the list already. As
    [borrow_book] does not look for duplicates, an id that was already in
    the list is then listed twice, and the return takes out the older
    entry. At the limit [borrow_book] answers [False] and changes nothing;
    [return_book] shortens the list by exactly one entry when it answers
    [True] and changes nothing when the id is not listed. *)
Theorem borrower_borrow_then_return (u : Borrower.t) (book_id : string) :
  (Borrower.can_borrow u = true ->
   fst (Borrower.borrow_book book_id u) = true /\
   (contains book_id (Borrower.borrowed_books u) = false ->
    Borrower.return_book book_id (snd (Borrower.borrow_book book_id u)) = (true, u)) /\
   (contains book_id (Borrower.borrowed_books u) = true ->
    Borrower.return_book book_id (snd (Borrower.borrow_book book_id u)) =
      (true, Borrower.set_borrowed_books
               (remove_first book_id (Borrower.borrowed_books u) ++ [book_id])%list u))) /\
  (Borrower.can_borrow u = false -> Borrower.borrow_book book_id u = (false, u)) /\
  (contains book_id (Borrower.borrowed_books u) = true ->
   fst (Borrower.return_book book_id u) = true /\
   S (List.length (Borrower.borrowed_books (snd (Borrower.return_book book_id u)))) =
     List.length (Borrower.borrowed_books u)) /\
  (contains book_id (Borrower.borrowed_books u) = false ->
   Borrower.return_book book_id u = (false, u)).
Proof.
  destruct u as [i n e l]. unfold Borrower.borrow_book, Borrower.return_book.
  cbn [Borrower.borrowed_books Borrower.set_borrowed_books Borrower.borrower_id
       Borrower.name Borrower.email].
  split; [|split; [|split]].
  - intros ->. simpl.
    split; [reflexivity|]. rewrite contains_last. split; intros Hc.
    + now rewrite (remove_first_last _ _ Hc).
    + now rewrite (remove_first_app _ _ _ Hc).
  - now intros ->.
  - intros Hc. rewrite Hc. simpl. split; [reflexivity|].
    now apply remove_first_length_S.
  - now intros ->.
Qed.

Lemma borrower_borrow_then_return_witness :
  Borrower.return_book "BOOK_0001" (snd (Borrower.borrow_book "BOOK_0001" alice)) =
    (true, alice) /\
  Borrower.borrow_book "BOOK_0004"
    (Borrower.mk "USER_0001" "Alice" "a@x.com" ["BOOK_0001"; "BOOK_0002"; "BOOK_0003"]) =
    (false,
     Borrower.mk "USER_0001" "Alice" "a@x.com" ["BOOK_0001"; "BOOK_0002"; "BOOK_0003"]).
Proof.
  split.
  - exact (proj1 (proj2 (proj1 (borrower_borrow_then_return alice "BOOK_0001") eq_refl))
                 eq_refl).
  - exact (proj1 (proj2 (borrower_borrow_then_return
                           (Borrower.mk "USER_0001" "Alice" "a@x.com"
                              ["BOOK_0001"; "BOOK_0002"; "BOOK_0003"]) "BOOK_0004"))
                 eq_refl).
Defined.

(** ** [format_date] *)

Example format_date_doc :
  format_date (Datetime.mk 2024 2 4) (Some (Datetime.mk 2024 1 15)) = "2024-01-15" /\
  format_date (Datetime.mk 2024 2 4) None = "2024-02-04".
Proof. split; reflexivity. Qed.

Lemma ltb_trans (a b c : string) :
  String.ltb a b = true -> String.ltb b c = true -> String.ltb a c = true.
Proof.
  intros Hab Hbc.
  pose proof (leb_trans a b c (ltb_leb _ _ Hab) (ltb_leb _ _ Hbc)) as Hle.
  unfold str_le, String.leb in Hle. unfold String.ltb.
  destruct (String.compare a c) eqn:E; try reflexivity; try discriminate.
  apply String.compare_eq_iff in E. subst c.
  exfalso. exact (ltb_not_leb _ _ Hab (ltb_leb _ _ Hbc)).
Qed.

(** A printer that steps upwards compares like the numbers it prints. *)
Lemma increasing_compare (f : Z -> string) (lo hi : Z) :
  (forall m, (lo <= m < hi)%Z -> String.ltb (f m) (f (m + 1)%Z) = true) ->
  forall i j, (lo <= i <= hi)%Z -> (lo <= j <= hi)%Z ->
              String.compare (f i) (f j) = (i ?= j)%Z.
Proof.
  intros Hstep.
  assert (Hup : forall i (k : nat), (lo <= i)%Z -> (i + Z.of_nat (S k) <= hi)%Z ->
                                    String.ltb (f i) (f (i + Z.of_nat (S k))%Z) = true).
  { intros i k Hi. induction k as [|k IH]; intros Hk.
    - apply Hstep. lia.
    - apply (ltb_trans _ (f (i + Z.of_nat (S k))%Z)); [apply IH; lia|].
      replace (i + Z.of_nat (S (S k)))%Z with (i + Z.of_nat (S k) + 1)%Z by lia.
      apply Hstep. lia. }
  assert (Hlt : forall i j, (lo <= i)%Z -> (i < j)%Z -> (j <= hi)%Z ->
                            String.compare (f i) (f j) = Lt).
  { intros i j Hi Hij Hj.
    specialize (Hup i (Z.to_nat (j - i - 1)) Hi).
    replace (i + Z.of_nat (S (Z.to_nat (j - i - 1))))%Z with j in Hup by lia.
    specialize (Hup Hj). unfold String.ltb in Hup.
    now destruct (String.compare (f i) (f j)). }
  intros i j Hi Hj. destruct (Z.compare_spec i j) as [-> | H | H].
  - apply string_compare_refl.
  - apply Hlt; lia.
  - rewrite String.compare_antisym, Hlt by lia. reflexivity.
Qed.

Lemma compare_app_same_length (a b s t : string) :
  String.length a = String.length b ->
  String.compare (a ++ s) (b ++ t) =
  match String.compare a b with
  | Eq => String.compare s t
  | c => c
  end.
Proof.
  revert b. induction a as [|x a IH]; intros [|y b] H; simpl in *;
    try discriminate; [reflexivity|].
  destruct (Ascii.compare x y); try reflexivity. apply IH. lia.
Qed.

Lemma format_02d_prints : forallb prints_two (z_range 1 (Z.to_nat 31)) = true.
Proof. vm_compute. reflexivity. Qed.

Lemma format_02d_ok (n : Z) :
  (1 <= n <= 31)%Z ->
  String.length (Py.format_02d n) = 2 /\
  ((n < 31)%Z -> String.ltb (Py.format_02d n) (Py.format_02d (n + 1)%Z) = true).
Proof.
  intros Hn. pose proof format_02d_prints as H. rewrite forallb_forall in H.
  specialize (H n (in_z_range n 1 (Z.to_nat 31) ltac:(lia))). unfold prints_two in H.
  apply andb_true_iff in H. destruct H as [Hl Hs]. apply Nat.eqb_eq in Hl.
  split; [exact Hl|]. intros Hlt. apply orb_true_iff in Hs.
  destruct Hs as [Hs | Hs]; [|exact Hs]. apply Z.eqb_eq in Hs. lia.
Qed.

Lemma format_04d_length (n : Z) :
  (0 <= n <= 9999)%Z -> String.length (Py.format_04d n) = 4.
Proof.
  intros Hn. destruct (format_04d_ok n Hn) as (H4 & _).
  unfold four_digits in H4. apply andb_true_iff in H4.
  destruct H4 as [H4 _]. now apply Nat.eqb_eq in H4.
Qed.

(** X17. For dates within the ranges of [datetime], [format_date] gives a
    string of ten characters, and the strings compare, as text, exactly as
    the dates do in time: earlier dates give smaller strings and only equal
    dates give equal strings. Called without a date it gives the string of
    the current date. *)
Theorem format_date_order (today d1 d2 : Datetime.t) :
  Datetime.in_range d1 -> Datetime.in_range d2 ->
  String.length (format_date today (Some d1)) = 10 /\
  String.compare (format_date today (Some d1)) (format_date today (Some d2)) =
    Datetime.compare d1 d2 /\
  (format_date today (Some d1) = format_date today (Some d2) -> d1 = d2) /\
  format_date today None = format_date today (Some today).
Proof.
  intros (Hy1 & Hm1 & Hd1) (Hy2 & Hm2 & Hd2).
  destruct d1 as [y1 m1 dd1], d2 as [y2 m2 dd2]. simpl in *.
  assert (Ly : forall y, (1 <= y <= 9999)%Z -> String.length (Py.format_04d y) = 4)
    by (intros; apply format_04d_length; lia).
  assert (Lm : forall m, (1 <= m <= 31)%Z -> String.length (Py.format_02d m) = 2)
    by (intros; now apply format_02d_ok).
  assert (Cy : String.compare (Py.format_04d y1) (Py.format_04d y2) = (y1 ?= y2)%Z).
  { apply (increasing_compare Py.format_04d 0 9999); try lia.
    intros m Hm. apply format_04d_ok; lia. }
  assert (C2 : forall i j, (1 <= i <= 31)%Z -> (1 <= j <= 31)%Z ->
                           String.compare (Py.format_02d i) (Py.format_02d j) = (i ?= j)%Z).
  { apply (increasing_compare Py.format_02d 1 31).
    intros m Hm. apply format_02d_ok; lia. }
  assert (Hcmp :
    String.compare
      (Py.format_04d y1 ++ "-" ++ Py.format_02d m1 ++ "-" ++ Py.format_02d dd1)
      (Py.format_04d y2 ++ "-" ++ Py.format_02d m2 ++ "-" ++ Py.format_02d dd2) =
    Datetime.compare (Datetime.mk y1 m1 dd1) (Datetime.mk y2 m2 dd2)).
  { rewrite compare_app_same_length by (rewrite !Ly; lia).
    rewrite Cy. unfold Datetime.compare. cbn [Datetime.year Datetime.month Datetime.day].
    destruct (y1 ?= y2)%Z; try reflexivity.
    change ("-" ++ Py.format_02d m1 ++ "-" ++ Py.format_02d dd1)
      with (String "-" (Py.format_02d m1 ++ String "-" (Py.format_02d dd1))).
    change ("-" ++ Py.format_02d m2 ++ "-" ++ Py.format_02d dd2)
      with (String "-" (Py.format_02d m2 ++ String "-" (Py.format_02d dd2))).
    cbn [String.compare]. rewrite ascii_compare_refl.
    rewrite compare_app_same_length by (rewrite !Lm; lia).
    rewrite (C2 m1 m2) by lia.
    destruct (m1 ?= m2)%Z; try reflexivity.
    cbn [String.compare]. rewrite ascii_compare_refl. apply C2; lia. }
  split; [|split; [exact Hcmp|split; [|reflexivity]]].
  - unfold format_date. cbn [Datetime.year Datetime.month Datetime.day].
    rewrite length_app_string. cbn [String.length].
    rewrite length_app_string. cbn [String.length].
    rewrite Ly, !Lm by lia. reflexivity.
  - intros E.
    change (Py.format_04d y1 ++ "-" ++ Py.format_02d m1 ++ "-" ++ Py.format_02d dd1 =
            Py.format_04d y2 ++ "-" ++ Py.format_02d m2 ++ "-" ++ Py.format_02d dd2)
      in E.
    rewrite E, string_compare_refl in Hcmp. symmetry in Hcmp.
    unfold Datetime.compare in Hcmp. simpl in Hcmp.
    destruct (Z.compare_spec y1 y2); try discriminate.
    destruct (Z.compare_spec m1 m2); try discriminate.
    apply Z.compare_eq in Hcmp. now subst.
Qed.

Lemma format_date_order_witness :
  String.compare (format_date (Datetime.mk 2024 2 4) (Some (Datetime.mk 2023 12 31)))
                 (format_date (Datetime.mk 2024 2 4) (Some (Datetime.mk 2024 1 15))) = Lt.
Proof.
  refine (proj1 (proj2 (format_date_order (Datetime.mk 2024 2 4)
                          (Datetime.mk 2023 12 31) (Datetime.mk 2024 1 15) _ _)));
    unfold Datetime.in_range; simpl; lia.
Defined.

(* ================================================================== *)
(** * [files.py] *)

(** ** Text files *)

Lemma app_string_nil_r (s : string) : s ++ EmptyString = s.
Proof. induction s as [|c s IH]; simpl; [reflexivity | now rewrite IH]. Qed.

Lemma written_app (lines more : list string) :
  written (lines ++ more) = written lines ++ written more.
Proof.
  induction lines as [|l lines IH]; simpl; [reflexivity|].
  now rewrite IH, !app_string_assoc.
Qed.

Lemma universal_newlines_single (l r : string) :
  single_line l = true ->
  Py.universal_newlines (l ++ String Py.LF r) =
  l ++ String Py.LF (Py.universal_newlines r).
Proof.
  induction l as [|c l IH]; intros H.
  - reflexivity.
  - simpl in H. apply andb_true_iff in H. destruct H as [H Hl].
    apply andb_true_iff in H. destruct H as [_ Hcr].
    apply negb_true_iff in Hcr.
    change ((String c l) ++ String Py.LF r) with (String c (l ++ String Py.LF r)).
    cbn [Py.universal_newlines]. rewrite Hcr. now rewrite (IH Hl).
Qed.

Lemma universal_newlines_written (lines : list string) :
  forallb single_line lines = true ->
  Py.universal_newlines (written lines) = written lines.
Proof.
  induction lines as [|l lines IH]; intros H; [reflexivity|].
  simpl in H. apply andb_true_iff in H. destruct H as [Hl H].
  cbn [written]. rewrite !app_string_assoc. cbn [String.append].
  now rewrite (universal_newlines_single _ _ Hl), (IH H).
Qed.

Lemma readlines_loop_single (l rest acc : string) :
  single_line l = true ->
  Py.readlines_loop (l ++ String Py.LF rest) acc =
  (acc ++ l ++ String Py.LF EmptyString) :: Py.readlines_loop rest EmptyString.
Proof.
  revert acc. induction l as [|c l IH]; intros acc H.
  - reflexivity.
  - simpl in H. apply andb_true_iff in H. destruct H as [H Hl].
    apply andb_true_iff in H. destruct H as [Hlf _].
    apply negb_true_iff in Hlf.
    change ((String c l) ++ String Py.LF rest) with (String c (l ++ String Py.LF rest)).
    cbn [Py.readlines_loop]. rewrite Hlf, (IH _ Hl).
    now rewrite app_string_assoc.
Qed.

Lemma readlines_written (lines : list string) :
  forallb single_line lines = true ->
  Py.readlines (written lines) = map (fun l => l ++ String Py.LF EmptyString) lines.
Proof.
  unfold Py.readlines. induction lines as [|l lines IH]; intros H; [reflexivity|].
  simpl in H. apply andb_true_iff in H. destruct H as [Hl H].
  cbn [written map]. rewrite !app_string_assoc. cbn [String.append].
  rewrite (readlines_loop_single _ _ _ Hl). cbn [String.append].
  now rewrite (IH H).
Qed.

Lemma rstrip_app_space (x : string) (c : ascii) :
  Py.is_space c = true -> Py.rstrip (x ++ String c EmptyString) = Py.rstrip x.
Proof.
  intros Hc. induction x as [|a x IH]; simpl.
  - now rewrite Hc.
  - now rewrite IH.
Qed.

Lemma lstrip_app_space (x : string) (c : ascii) :
  Py.is_space c = true ->
  Py.lstrip (x ++ String c EmptyString) =
  match Py.lstrip x with
  | EmptyString => EmptyString
  | r => r ++ String c EmptyString
  end.
Proof.
  intros Hc. induction x as [|a x IH]; simpl.
  - now rewrite Hc.
  - destruct (Py.is_space a); [exact IH | reflexivity].
Qed.

Lemma strip_app_space (x : string) (c : ascii) :
  Py.is_space c = true -> Py.strip (x ++ String c EmptyString) = Py.strip x.
Proof.
  intros Hc. unfold Py.strip. rewrite (lstrip_app_space _ _ Hc).
  destruct (Py.lstrip x) as [|a r]; [reflexivity|].
  exact (rstrip_app_space (String a r) c Hc).
Qed.

(** X18. Lines that hold no line break come back from [read_lines] after
    [write_lines] as [str.strip] leaves them, one for one and in order
    (also empty lines); lines without surrounding whitespace come back
    unchanged. Reading a path where there is no file raises
    [FileNotFoundError]. *)
Theorem write_lines_then_read_lines (filepath : string) (lines : list string)
  (dir : directory string) :
  (forallb single_line lines = true ->
   read_lines filepath (write_lines filepath lines dir) = Done (map Py.strip lines) /\
   ((forall l, In l lines -> Py.strip l = l) ->
    read_lines filepath (write_lines filepath lines dir) = Done lines)) /\
  (dir filepath = None -> read_lines filepath dir = Failed FileNotFoundError).
Proof.
  split.
  - intros H.
    assert (E : read_lines filepath (write_lines filepath lines dir) =
                Done (map Py.strip lines)).
    { unfold read_lines, write_lines, store. rewrite String.eqb_refl.
      rewrite (universal_newlines_written _ H), (readlines_written _ H), map_map.
      f_equal. apply map_ext. intros l. now apply strip_app_space. }
    split; [exact E|]. intros Hs. rewrite E. f_equal.
    rewrite <- (map_id lines) at 2. apply map_ext_in. exact Hs.
  - intros H. unfold read_lines. now rewrite H.
Qed.

Lemma write_lines_then_read_lines_witness :
  read_lines "output.txt" (write_lines "output.txt" ["Hello"; "World"] (fun _ => None)) =
    Done ["Hello"; "World"] /\
  read_lines "output.txt" (fun _ => None) = Failed FileNotFoundError.
Proof.
  destruct (write_lines_then_read_lines "output.txt" ["Hello"; "World"] (fun _ => None))
    as [Hw Hn].
  split.
  - apply (proj2 (Hw eq_refl)). intros l [<- | [<- | []]]; reflexivity.
  - apply Hn. reflexivity.
Defined.

(** X19. Appending a line to a file written by [write_lines] gives the file
    [write_lines] writes for the list with that line added at the end;
    appending where there is no file creates the file with that one line;
    neither function touches any other path. *)
Theorem append_line_extends (filepath line : string) (lines : list string)
  (dir : directory string) :
  (forall p,
      append_line filepath line (write_lines filepath lines dir) p =
      write_lines filepath (lines ++ [line]) dir p) /\
  (dir filepath = None ->
   append_line filepath line dir filepath =
   write_lines filepath [line] dir filepath) /\
  (forall p, p <> filepath ->
             append_line filepath line dir p = dir p /\
             write_lines filepath lines dir p = dir p).
Proof.
  split; [|split].
  - intros p. unfold append_line, write_lines, store.
    rewrite String.eqb_refl. destruct (String.eqb p filepath); [|reflexivity].
    f_equal. rewrite written_app. simpl. now rewrite app_string_nil_r.
  - intros H. unfold append_line, write_lines, store.
    rewrite H, String.eqb_refl. simpl. now rewrite app_string_nil_r.
  - intros p Hp. apply String.eqb_neq in Hp.
    unfold append_line, write_lines, store. now rewrite Hp.
Qed.

Lemma append_line_extends_witness :
  append_line "log.txt" "Entry 1" (fun _ => None) "log.txt" =
    write_lines "log.txt" ["Entry 1"] (fun _ => None) "log.txt" /\
  append_line "log.txt" "Entry 1" (fun _ => None) "other.txt" = None.
Proof.
  destruct (append_line_extends "log.txt" "Entry 1" [] (fun _ => None))
    as (_ & Hnew & Hframe).
  split; [apply Hnew; reflexivity|].
  apply (Hframe "other.txt"). discriminate.
Defined.

Lemma split_loop_app_space (a b : string) (c : ascii) (w : option string) :
  Py.is_space c = true ->
  Py.split_loop (a ++ String c b) w =
  (Py.split_loop a w ++ Py.split_loop b None)%list.
Proof.
  intros Hc. revert w. induction a as [|x a IH]; intros w.
  - simpl. rewrite Hc. now destruct w.
  - cbn [String.append Py.split_loop].
    destruct (Py.is_space x); [destruct w|]; now rewrite IH.
Qed.

Lemma split_loop_newlines (n : nat) (s : string) (w : option string) :
  String.length s <= n ->
  Py.split_loop (Py.universal_newlines s) w = Py.split_loop s w.
Proof.
  revert s w. induction n as [|n IH]; intros s w Hn.
  - destruct s; [reflexivity | simpl in Hn; lia].
  - destruct s as [|c s]; [reflexivity|]. simpl in Hn.
    cbn [Py.universal_newlines].
    destruct (Ascii.eqb c Py.CR) eqn:Ec.
    + apply Ascii.eqb_eq in Ec. subst c.
      destruct s as [|c' r]; [reflexivity|].
      destruct (Ascii.eqb c' Py.LF) eqn:El.
      * apply Ascii.eqb_eq in El. subst c'. simpl in Hn.
        cbn [Py.split_loop]. change (Py.is_space Py.LF) with true.
        change (Py.is_space Py.CR) with true. cbv iota.
        destruct w; rewrite IH by lia; reflexivity.
      * cbn [Py.split_loop]. change (Py.is_space Py.LF) with true.
        change (Py.is_space Py.CR) with true. cbv iota.
        destruct w; rewrite IH by lia; reflexivity.
    + cbn [Py.split_loop].
      destruct (Py.is_space c); [destruct w|]; now rewrite IH by lia.
Qed.

Lemma split_written (lines : list string) :
  Py.split (written lines) = flat_map Py.split lines.
Proof.
  unfold Py.split. induction lines as [|l lines IH]; [reflexivity|].
  cbn [written flat_map]. rewrite app_string_assoc. cbn [String.append].
  rewrite split_loop_app_space by reflexivity. now rewrite IH.
Qed.

Example count_words_doc :
  count_words "file.txt"
    (store "file.txt"
       ("Hello World" ++ String Py.LF EmptyString ++ "This is Python")
       (fun _ => None)) = Done 5%Z.
Proof. reflexivity. Qed.

(** X20. [count_words] on a file written by [write_lines] gives the sum of
    the numbers of words of the lines, a word being a maximal run of
    characters that are not whitespace; a [CR] inside a line separates
    words like any other whitespace. Where there is no file it raises
    [FileNotFoundError]. *)
Theorem count_words_of_written_lines (filepath : string) (lines : list string)
  (dir : directory string) :
  count_words filepath (write_lines filepath lines dir) =
    Done (Z.of_nat (list_sum (map (fun l => List.length (Py.split l)) lines))) /\
  (dir filepath = None -> count_words filepath dir = Failed FileNotFoundError).
Proof.
  split.
  - unfold count_words, write_lines, store. rewrite String.eqb_refl.
    unfold Py.split at 1.
    rewrite (split_loop_newlines _ _ None (Nat.le_refl _)).
    fold (Py.split (written lines)). rewrite split_written.
    do 2 f_equal. induction lines as [|l lines IH]; [reflexivity|].
    simpl. now rewrite length_app, IH.
  - intros H. unfold count_words. now rewrite H.
Qed.

Lemma count_words_of_written_lines_witness :
  count_words "file.txt" (fun _ => None) = Failed FileNotFoundError.
Proof.
  exact (proj2 (count_words_of_written_lines "file.txt" [] (fun _ => None)) eq_refl).
Defined.

(** ** [update_json] *)

Lemma update_loop_dict (d : dict json) (updates : dict json) :
  NoDup (dict_keys updates) ->
  exists d',
    update_loop (JDict d) updates = Done (JDict d') /\
    (forall k, dict_get k d' =
               match dict_get k updates with
               | Some v => Some v
               | None => dict_get k d
               end) /\
    (exists added, dict_keys d' = (dict_keys d ++ added)%list).
Proof.
  revert d. induction updates as [|[key value] updates IH]; intros d Hnd.
  - exists d. split; [reflexivity|]. split; [reflexivity|].
    exists []. now rewrite app_nil_r.
  - simpl in Hnd. apply NoDup_cons_iff in Hnd. destruct Hnd as [Hkey Hnd].
    destruct (IH (dict_set key value d) Hnd) as (d' & E & Hget & (added & Hk)).
    exists d'. split; [exact E|]. split.
    + intros k. rewrite Hget. cbn [dict_get].
      destruct (String.eqb k key) eqn:Ek.
      * apply String.eqb_eq in Ek. subst k.
        rewrite (not_In_keys_get _ _ Hkey). apply dict_get_set_same.
      * apply String.eqb_neq in Ek.
        destruct (dict_get k updates); [reflexivity|].
        now apply dict_get_set_other.
    + destruct (dict_get key d) as [v0|] eqn:Eg.
      * exists added. now rewrite Hk, (dict_set_keys_present key value v0 d Eg).
      * exists (key :: added). rewrite Hk, dict_set_keys_absent.
        -- now rewrite <- app_assoc.
        -- intros Hin. apply dict_get_In_keys in Hin. destruct Hin. congruence.
Qed.

(** X21. On a file holding a JSON object, [update_json] with distinct keys
    (as keyword arguments are) rewrites the file so that every updated key
    holds its new value and every other key its old one; the keys that were
    there keep their places and new keys follow them; no other file is
    touched. Where there is no file it raises [FileNotFoundError] and
    creates none; on a file holding anything but an object it raises
    [TypeError] at the first assignment and leaves the file as it was. *)
Theorem update_json_spec (filepath : string) (updates : dict json)
  (dir : directory json) :
  (forall d,
      dir filepath = Some (JDict d) ->
      NoDup (dict_keys updates) ->
      exists d',
        update_json filepath updates dir = (Done tt, store filepath (JDict d') dir) /\
        load_json filepath (snd (update_json filepath updates dir)) = Done (JDict d') /\
        (forall k, dict_get k d' =
                   match dict_get k updates with
                   | Some v => Some v
                   | None => dict_get k d
                   end) /\
        (exists added, dict_keys d' = (dict_keys d ++ added)%list) /\
        (forall p, p <> filepath ->
                   snd (update_json filepath updates dir) p = dir p)) /\
  (dir filepath = None ->
   update_json filepath updates dir = (Failed FileNotFoundError, dir)) /\
  (forall data,
      dir filepath = Some data ->
      (forall d, data <> JDict d) ->
      updates <> [] ->
      update_json filepath updates dir = (Failed TypeError, dir)).
Proof.
  split; [|split].
  - intros d Hd Hnd.
    destruct (update_loop_dict d updates Hnd) as (d' & E & Hget & Hkeys).
    exists d'. unfold update_json, load_json. rewrite Hd, E. cbn [snd].
    split; [reflexivity|]. split; [unfold store; now rewrite String.eqb_refl|].
    split; [exact Hget|]. split; [exact Hkeys|].
    intros p Hp. apply String.eqb_neq in Hp. unfold store. now rewrite Hp.
  - intros H. unfold update_json. now rewrite H.
  - intros data Hd Hnot Hne. unfold update_json. rewrite Hd.
    destruct updates as [|[key value] rest]; [congruence|].
    destruct data; try reflexivity. exfalso. now apply (Hnot d).
Qed.

Lemma update_json_spec_witness :
  let dir := save_json "data.json" [("name", JStr "Alice"); ("age", JInt 30)]
                       (fun _ => None) in
  load_json "data.json"
    (snd (update_json "data.json" [("age", JInt 31); ("city", JStr "NYC")] dir)) =
    Done (JDict [("name", JStr "Alice"); ("age", JInt 31); ("city", JStr "NYC")]) /\
  update_json "nowhere.json" [("age", JInt 31)] dir = (Failed FileNotFoundError, dir) /\
  update_json "list.json" [("age", JInt 31)] (store "list.json" (JList []) dir) =
    (Failed TypeError, store "list.json" (JList []) dir).
Proof.
  split; [reflexivity|]. split.
  - apply (proj1 (proj2 (update_json_spec "nowhere.json" [("age", JInt 31)]
                           (save_json "data.json"
                              [("name", JStr "Alice"); ("age", JInt 30)]
                              (fun _ => None))))).
    reflexivity.
  - apply (proj2 (proj2 (update_json_spec "list.json" [("age", JInt 31)]
                           (store "list.json" (JList [])
                              (save_json "data.json"
                                 [("name", JStr "Alice"); ("age", JInt 30)]
                                 (fun _ => None))))) (JList [])).
    + reflexivity.
    + discriminate.
    + discriminate.
Defined.

(** ** The to-do list *)

Example todo_list_doc :
  let l0 := TodoList.init None in
  let l1 := snd (TodoList.add "Buy groceries" l0) in
  let l2 := snd (TodoList.add "Walk the dog" l1) in
  let l3 := snd (TodoList.complete 1 l2) in
  fst (TodoList.add "Buy groceries" l0) = Done 1%Z /\
  fst (TodoList.add "Walk the dog" l1) = Done 2%Z /\
  fst (TodoList.complete 1 l2) = true /\
  TodoList.get_pending l3 =
    [[("id", JInt 2); ("task", JStr "Walk the dog"); ("done", JBool false)]].
Proof. repeat split. Qed.

(** X22. At any moment the file holds the list: whatever the file held when
    the [TodoList] was constructed (or if there was none), after any
    sequence of [add] and [complete] calls, also those that raise or answer
    [False], constructing a [TodoList] from the file again gives the same
    todos. *)
Theorem todo_list_reopens (file : option (list (dict json)))
  (calls : list TodoList.call) :
  let self := TodoList.run calls (TodoList.init file) in
  TodoList.init (TodoList.file self) = self.
Proof.
  cbv zeta.
  assert (H0 : TodoList.init (TodoList.file (TodoList.init file)) = TodoList.init file)
    by (now destruct file).
  revert H0. generalize (TodoList.init file).
  induction calls as [|c calls IH]; intros self H; simpl; [exact H|].
  apply IH. destruct c as [task | todo_id]; simpl.
  - unfold TodoList.add. destruct (TodoList._next_id self); [reflexivity | exact H].
  - unfold TodoList.complete.
    destruct (TodoList.complete_loop (TodoList.todos self) todo_id);
      [reflexivity | exact H].
Qed.

Lemma z_range_app (start : Z) (len : nat) :
  z_range start (S len) = (z_range start len ++ [(start + Z.of_nat len)%Z])%list.
Proof.
  revert start. induction len as [|len IH]; intros start.
  - simpl. now rewrite Z.add_0_r.
  - change (z_range start (S (S len)))
      with (start :: z_range (start + 1) (S len)).
    rewrite IH. simpl. do 3 f_equal. lia.
Qed.

Lemma z_range_In (z start : Z) (len : nat) :
  In z (z_range start len) -> (start <= z < start + Z.of_nat len)%Z.
Proof.
  revert start. induction len as [|len IH]; intros start; simpl; [tauto|].
  intros [<- | H]; [lia|]. apply IH in H. lia.
Qed.

Lemma numbered_last (start : Z) (l : list (dict json)) :
  TodoList.numbered_from start l -> l <> [] ->
  dict_get "id" (last l []) = Some (JInt (start + Z.of_nat (List.length l) - 1)).
Proof.
  unfold TodoList.numbered_from. revert start.
  induction l as [|x l IH]; intros start H Hne; [congruence|].
  simpl in H. injection H as Hx Hl. destruct l as [|y l].
  - simpl. rewrite Hx. do 2 f_equal. lia.
  - change (last (x :: y :: l) []) with (last (y :: l) []).
    rewrite (IH (start + 1)%Z Hl) by discriminate. do 2 f_equal. simpl List.length. lia.
Qed.

Lemma numbered_add (l : list (dict json)) (task : string) :
  TodoList.numbered_from 1 l ->
  TodoList._next_id (TodoList.mk l None) = Done (Z.of_nat (List.length l) + 1)%Z /\
  TodoList.numbered_from 1
    (l ++ [[("id", JInt (Z.of_nat (List.length l) + 1)); ("task", JStr task);
            ("done", JBool false)]]).
Proof.
  intros H. split.
  - unfold TodoList._next_id. cbn [TodoList.todos].
    destruct l as [|x l]; [reflexivity|].
    rewrite (numbered_last 1 _ H) by discriminate. cbn [as_int]. f_equal. lia.
  - unfold TodoList.numbered_from in *.
    rewrite map_app, length_app, H. cbn [List.length map].
    rewrite Nat.add_1_r, z_range_app, map_app. cbn [map].
    f_equal. unfold dict_get. rewrite String.eqb_refl. do 3 f_equal. lia.
Qed.

Lemma complete_loop_ids (l marked : list (dict json)) (todo_id : Z) :
  TodoList.complete_loop l todo_id = Some marked ->
  map (dict_get "id") marked = map (dict_get "id") l.
Proof.
  revert marked. induction l as [|x l IH]; intros marked; simpl; [discriminate|].
  destruct (equals_int (dict_get "id" x) todo_id).
  - intros [= <-]. simpl. f_equal. apply dict_get_set_other. discriminate.
  - destruct (TodoList.complete_loop l todo_id) as [m|]; [|discriminate].
    intros [= <-]. simpl. f_equal. now apply IH.
Qed.

Lemma numbered_same_ids (start : Z) (l marked : list (dict json)) :
  map (dict_get "id") marked = map (dict_get "id") l ->
  TodoList.numbered_from start l -> TodoList.numbered_from start marked.
Proof.
  unfold TodoList.numbered_from. intros E H. rewrite E, H.
  apply (f_equal (@List.length _)) in E. rewrite !length_map in E.
  now rewrite E.
Qed.

(** X23. On a list that started without a file, the ids count up from 1:
    after any sequence of [add] and [complete] calls the todos carry the
    ids 1, 2, 3, ... in order, whatever was completed in between, and the
    next [add] returns the number of todos plus one. *)
Theorem todo_ids_count_up (calls : list TodoList.call) (task : string) :
  let self := TodoList.run calls (TodoList.init None) in
  TodoList.numbered_from 1 (TodoList.todos self) /\
  fst (TodoList.add task self) =
    Done (Z.of_nat (List.length (TodoList.todos self)) + 1)%Z.
Proof.
  cbv zeta.
  assert (Hrun : TodoList.numbered_from 1
                   (TodoList.todos (TodoList.run calls (TodoList.init None)))).
  { assert (H0 : TodoList.numbered_from 1 (TodoList.todos (TodoList.init None)))
      by reflexivity.
    revert H0. generalize (TodoList.init None).
    induction calls as [|c calls IH]; intros self H; simpl; [exact H|].
    apply IH. destruct c as [t | todo_id]; simpl.
    - unfold TodoList.add.
      destruct (numbered_add (TodoList.todos self) t H) as [En Hn].
      unfold TodoList._next_id in *. cbn [TodoList.todos] in En. rewrite En.
      exact Hn.
    - unfold TodoList.complete.
      destruct (TodoList.complete_loop (TodoList.todos self) todo_id) eqn:E;
        [|exact H].
      simpl. exact (numbered_same_ids 1 _ _ (complete_loop_ids _ _ _ E) H). }
  split; [exact Hrun|].
  destruct (numbered_add _ task Hrun) as [En _].
  unfold TodoList.add, TodoList._next_id in *. cbn [TodoList.todos] in En.
  now rewrite En.
Qed.

Lemma numbered_others (start : Z) (l : list (dict json)) (todo_id : Z) :
  TodoList.numbered_from start l ->
  (todo_id < start \/ start + Z.of_nat (List.length l) <= todo_id)%Z ->
  TodoList.complete_loop l todo_id = None /\
  filter (other_than todo_id) l = l.
Proof.
  unfold TodoList.numbered_from. revert start.
  induction l as [|x l IH]; intros start H Hout; [now split|].
  simpl in H. injection H as Hx Hl.
  cbn [TodoList.complete_loop filter]. unfold other_than at 1.
  rewrite Hx. cbn [equals_int].
  assert (Ene : (start =? todo_id)%Z = false)
    by (apply Z.eqb_neq; simpl List.length in Hout; lia).
  rewrite Ene. cbn [negb].
  destruct (IH (start + 1)%Z Hl) as [En Ef];
    [simpl List.length in Hout; lia|].
  rewrite En, Ef. now split.
Qed.

Lemma filter_filter_comm {A} (f g : A -> bool) (l : list A) :
  filter f (filter g l) = filter g (filter f l).
Proof.
  rewrite !filter_filter. apply filter_ext. intros x. apply andb_comm.
Qed.

Lemma complete_loop_numbered (l : list (dict json)) (start todo_id : Z) :
  TodoList.numbered_from start l ->
  (start <= todo_id < start + Z.of_nat (List.length l))%Z ->
  exists marked,
    TodoList.complete_loop l todo_id = Some marked /\
    filter pending marked = filter (other_than todo_id) (filter pending l) /\
    TodoList.complete_loop marked todo_id = Some marked.
Proof.
  revert start. induction l as [|x l IH]; intros start H Hin;
    [simpl in Hin; lia|].
  pose proof H as H'. unfold TodoList.numbered_from in H'. simpl in H'.
  injection H' as Hx Hl. fold (TodoList.numbered_from (start + 1) l) in Hl.
  cbn [TodoList.complete_loop]. rewrite Hx. cbn [equals_int].
  destruct (Z.eqb_spec start todo_id) as [<- | Hne].
  - exists (dict_set "done" (JBool true) x :: l). split; [reflexivity|]. split.
    + cbn [filter]. unfold pending at 1. rewrite dict_get_set_same. cbn [truthy negb].
      destruct (numbered_others (start + 1) l start Hl) as [_ Ef]; [lia|].
      assert (Eo : filter (other_than start) (filter pending l) = filter pending l)
        by (now rewrite filter_filter_comm, Ef).
      destruct (pending x); [|now rewrite Eo].
      cbn [filter]. unfold other_than at 1.
      rewrite Hx. cbn [equals_int]. rewrite Z.eqb_refl. cbn [negb].
      now rewrite Eo.
    + cbn [TodoList.complete_loop].
      rewrite dict_get_set_other by discriminate. rewrite Hx. cbn [equals_int].
      rewrite Z.eqb_refl. now rewrite dict_set_twice.
  - simpl List.length in Hin.
    destruct (IH (start + 1)%Z Hl) as (marked & E & Ef & Eagain); [lia|].
    exists (x :: marked). rewrite E. split; [reflexivity|]. split.
    + cbn [filter]. destruct (pending x) eqn:Ep; [|exact Ef].
      cbn [filter]. unfold other_than at 1. rewrite Hx. cbn [equals_int].
      apply Z.eqb_neq in Hne. rewrite Hne. cbn [negb]. now rewrite Ef.
    + cbn [TodoList.complete_loop]. rewrite Hx. cbn [equals_int].
      apply Z.eqb_neq in Hne. now rewrite Hne, Eagain.
Qed.

(** X24. On a list whose todos carry the ids 1, 2, 3, ... in order,
    [complete] answers [True] exactly for the ids that are there. It then
    keeps all ids and their order, takes that one todo, and no other, out
    of what [get_pending] returns, writes the file, and completing the same
    id again changes nothing more. For any other id it answers [False] and
    leaves the list and the file as they are. *)
Theorem complete_marks_one (self : TodoList.t) (todo_id : Z) :
  TodoList.numbered_from 1 (TodoList.todos self) ->
  ((1 <= todo_id <= Z.of_nat (List.length (TodoList.todos self)))%Z ->
   let after := snd (TodoList.complete todo_id self) in
   fst (TodoList.complete todo_id self) = true /\
   TodoList.numbered_from 1 (TodoList.todos after) /\
   TodoList.get_pending after =
     filter (other_than todo_id) (TodoList.get_pending self) /\
   TodoList.file after = Some (TodoList.get_all after) /\
   TodoList.complete todo_id after = (true, after)) /\
  (~ (1 <= todo_id <= Z.of_nat (List.length (TodoList.todos self)))%Z ->
   TodoList.complete todo_id self = (false, self)).
Proof.
  intros H. split.
  - intros Hin.
    destruct (complete_loop_numbered _ 1 todo_id H) as (marked & E & Ef & Eagain);
      [lia|].
    unfold TodoList.complete. rewrite E. cbn [fst snd TodoList._save TodoList.todos].
    split; [reflexivity|]. split.
    { exact (numbered_same_ids 1 _ _ (complete_loop_ids _ _ _ E) H). }
    split; [exact Ef|]. split; [reflexivity|].
    cbn [TodoList.todos TodoList.file]. now rewrite Eagain.
  - intros Hout. unfold TodoList.complete.
    destruct (numbered_others 1 _ todo_id H) as [En _]; [lia|]. now rewrite En.
Qed.

Lemma complete_marks_one_witness :
  TodoList.get_pending (snd (TodoList.complete 1 chores)) =
    [[("id", JInt 2); ("task", JStr "Walk the dog"); ("done", JBool false)]] /\
  TodoList.complete 7 chores = (false, chores).
Proof.
  assert (H : TodoList.numbered_from 1 (TodoList.todos chores)) by reflexivity.
  destruct (complete_marks_one chores 1 H) as [Hin _].
  destruct (complete_marks_one chores 7 H) as [_ Hout].
  split.
  - destruct Hin as (_ & _ & Hp & _); [simpl; lia|]. exact Hp.
  - apply Hout. simpl. lia.
Defined.

Lemma complete_loop_app (a b : list (dict json)) (todo_id : Z) (x : dict json) :
  In x a -> equals_int (dict_get "id" x) todo_id = true ->
  exists a', TodoList.complete_loop (a ++ b) todo_id = Some (a' ++ b)%list.
Proof.
  induction a as [|y a IH]; intros Hin Hx; [destruct Hin|].
  cbn [app TodoList.complete_loop].
  destruct (equals_int (dict_get "id" y) todo_id) eqn:Ey.
  - now exists (dict_set "done" (JBool true) y :: a).
  - destruct Hin as [-> | Hin]; [congruence|].
    destruct (IH Hin Hx) as [a' ->]. now exists (y :: a').
Qed.

(** X25. [add] takes the id of the last todo plus one, not the largest id
    plus one. When an earlier todo already carries that number, the new
    todo gets the same id, and [complete] with that id then marks the
    earlier todo and leaves the new one pending. When the last todo has no
    numeric id, [add] raises [TypeError] and changes neither the list nor
    the file. *)
Theorem add_follows_last_id (self : TodoList.t) (task : string) :
  (forall n earlier,
      TodoList.todos self <> [] ->
      dict_get "id" (last (TodoList.todos self) []) = Some (JInt n) ->
      In earlier (TodoList.todos self) ->
      dict_get "id" earlier = Some (JInt (n + 1)) ->
      let todo := [("id", JInt (n + 1)); ("task", JStr task); ("done", JBool false)] in
      let after := snd (TodoList.add task self) in
      fst (TodoList.add task self) = Done (n + 1)%Z /\
      TodoList.get_all after = (TodoList.todos self ++ [todo])%list /\
      TodoList.file after = Some (TodoList.get_all after) /\
      fst (TodoList.complete (n + 1) after) = true /\
      In todo (TodoList.get_pending (snd (TodoList.complete (n + 1) after)))) /\
  (TodoList.todos self <> [] ->
   as_int (dict_get "id" (last (TodoList.todos self) [])) = Failed TypeError ->
   TodoList.add task self = (Failed TypeError, self)).
Proof.
  split.
  - intros n earlier Hne Hlast Hin Hid todo after.
    assert (En : TodoList._next_id self = Done (n + 1)%Z).
    { unfold TodoList._next_id. destruct (TodoList.todos self); [congruence|].
      now rewrite Hlast. }
    assert (Ea : TodoList.add task self =
                 (Done (n + 1)%Z,
                  TodoList.mk (TodoList.todos self ++ [todo])
                              (Some (TodoList.todos self ++ [todo])%list))).
    { unfold TodoList.add. now rewrite En. }
    subst after. rewrite Ea. cbn [fst snd TodoList.get_all TodoList.todos TodoList.file].
    split; [reflexivity|]. split; [reflexivity|]. split; [reflexivity|].
    destruct (complete_loop_app (TodoList.todos self) [todo] (n + 1) earlier Hin)
      as [a' E].
    { rewrite Hid. cbn [equals_int]. apply Z.eqb_refl. }
    unfold TodoList.complete. cbn [TodoList.todos]. rewrite E.
    cbn [fst snd TodoList._save TodoList.todos]. split; [reflexivity|].
    unfold TodoList.get_pending. cbn [TodoList.todos].
    apply filter_In. split; [apply in_or_app; right; now left | reflexivity].
  - intros Hne Hbad. unfold TodoList.add, TodoList._next_id.
    destruct (TodoList.todos self); [congruence|]. now rewrite Hbad.
Qed.

Lemma add_follows_last_id_witness :
  fst (TodoList.add "Feed the cat" shuffled) = Done 2%Z /\
  TodoList.add "Feed the cat"
    (TodoList.init (Some [[("task", JStr "Walk the dog"); ("done", JBool false)]])) =
    (Failed TypeError,
     TodoList.init (Some [[("task", JStr "Walk the dog"); ("done", JBool false)]])).
Proof.
  split.
  - refine (proj1 (proj1 (add_follows_last_id shuffled "Feed the cat") 1%Z
             [("id", JInt 2); ("task", JStr "Walk the dog"); ("done", JBool false)]
             _ eq_refl _ eq_refl)).
    + discriminate.
    + now left.
  - apply (proj2 (add_follows_last_id
                    (TodoList.init
                       (Some [[("task", JStr "Walk the dog"); ("done", JBool false)]]))
                    "Feed the cat")).
    + discriminate.
    + reflexivity.
Defined.
